(** * tlbc-monitor: the application controller of [monitor/main.py]

    A shallow embedding of the controller that wires the block fetcher and
    the reporters together: the versioned application state and its upgrade,
    one fetch cycle with its checkpoint, the chain-spec watch, the three
    report sinks (skips, offline reports, equivocation reports) and the
    validation of the skip rate.

    Integers are [Z] (Python's unbounded [int]), byte strings are
    [list byte], text is [string], the files of the report directory are a
    finite map from file names to contents, and a raised exception is the
    [Raise] case of [result]. *)

From Stdlib Require Import ZArith List Ascii String Strings.Byte Lia.
From Stdlib Require Import DecimalString DecimalZ DecimalPos Floats QArith.
From stdpp Require Import base option list gmap strings sorting.

Local Open Scope Z_scope.

(** ** Exceptions and results *)

(** The exceptions the modelled code raises or lets through. *)
Inductive exn : Type :=
  | AssertionError
  | ValueError
  | OverflowError
  | OSError
  | KeyError
  | JSONDecodeError
  | InvalidAppStateException
  | BadParameter
  | ExternalError (tag : string).

Inductive result (A : Type) : Type :=
  | Ok (a : A)
  | Raise (e : exn).

Arguments Ok {A} a.
Arguments Raise {A} e.

Definition rbind {A B : Type} (r : result A) (k : A -> result B) : result B :=
  match r with
  | Ok a => k a
  | Raise e => Raise e
  end.

Definition is_ok {A : Type} (r : result A) : bool :=
  match r with Ok _ => true | Raise _ => false end.

(** [[f(x) for x in xs]] with an [f] that may raise: the first exception
    ends the comprehension. *)
Fixpoint rmap {A B : Type} (f : A -> result B) (xs : list A)
  : result (list B) :=
  match xs with
  | [] => Ok []
  | x :: xs' =>
      rbind (f x) (fun y => rbind (rmap f xs') (fun ys => Ok (y :: ys)))
  end.

(** ** Python built-ins used by the controller *)

Module Py.

Definition LF : ascii := "010"%char.
Definition newline : string := String LF EmptyString.

(** [str(n)] for an [int]: decimal digits, a leading minus sign for
    negative numbers. *)
Definition str_int (n : Z) : string := NilZero.string_of_int (Z.to_int n).

(** [sep.join(parts)] *)
Fixpoint join (sep : string) (parts : list string) : string :=
  match parts with
  | [] => ""
  | [p] => p
  | p :: rest => p +:+ sep +:+ join sep rest
  end.

(** [min(xs)] and [max(xs)]: [ValueError] on an empty sequence. *)
Definition min (xs : list Z) : result Z :=
  match xs with
  | [] => Raise ValueError
  | x :: rest => Ok (fold_left Z.min rest x)
  end.

Definition max (xs : list Z) : result Z :=
  match xs with
  | [] => Raise ValueError
  | x :: rest => Ok (fold_left Z.max rest x)
  end.

(** Number of occurrences of a character in a text. *)
Fixpoint count (c : ascii) (s : string) : nat :=
  match s with
  | EmptyString => 0%nat
  | String a s' => ((if Ascii.eqb a c then 1 else 0) + count c s')%nat
  end.

(** [all(p(c) for c in s)] *)
Fixpoint all_chars (p : ascii -> bool) (s : string) : bool :=
  match s with
  | EmptyString => true
  | String a s' => p a && all_chars p s'
  end.

(** Characters that end no line and separate no field of the skip file. *)
Definition field_char (c : ascii) : bool :=
  negb (Ascii.eqb c LF) && negb (Ascii.eqb c ",").

(** One digit, [0 <= d < 10], as a character. *)
Definition digit (d : Z) : ascii := ascii_of_N (48 + Z.to_N d).

(** ["%02d"] and ["%04d"] on numbers that fit the width. *)
Definition pad2 (n : Z) : string :=
  String (digit (n / 10 mod 10)) (String (digit (n mod 10)) EmptyString).

Definition pad4 (n : Z) : string := pad2 (n / 100) +:+ pad2 (n mod 100).

Definition pad6 (n : Z) : string := pad2 (n / 10000) +:+ pad4 (n mod 10000).

End Py.

(** ** [eth_utils.encode_hex] *)

Module EthUtils.

Definition hex_digit (n : N) : ascii :=
  if (n <? 10)%N then ascii_of_N (48 + n) else ascii_of_N (87 + n).

Definition hex_of_byte (b : byte) : string :=
  let n := Byte.to_N b in
  String (hex_digit (n / 16)) (String (hex_digit (n mod 16)) EmptyString).

Fixpoint hexlify (bs : list byte) : string :=
  match bs with
  | [] => ""
  | b :: rest => hex_of_byte b +:+ hexlify rest
  end.

(** [encode_hex(value)] on a byte string: ["0x"] and two lower-case hex
    digits per byte. *)
Definition encode_hex (bs : list byte) : string := "0x" +:+ hexlify bs.

End EthUtils.

(** ** [datetime.datetime] as far as the reports print it *)

Module Datetime.

Record datetime : Type := mk_datetime {
  year : Z;
  month : Z;
  day : Z;
  hour : Z;
  minute : Z;
  second : Z;
  microsecond : Z
}.

Definition MINYEAR : Z := 1.
Definition MAXYEAR : Z := 9999.

(** Days in 400, 100 and 4 years of the proleptic Gregorian calendar. *)
Definition DI400Y : Z := 146097.
Definition DI100Y : Z := 36524.
Definition DI4Y : Z := 1461.

Definition is_leap (y : Z) : bool :=
  (y mod 4 =? 0) && (negb (y mod 100 =? 0) || (y mod 400 =? 0)).

(** [_DAYS_IN_MONTH] and [_DAYS_BEFORE_MONTH] of a common year. *)
Definition DAYS_IN_MONTH (m : Z) : Z :=
  if m =? 2 then 28
  else if (m =? 4) || (m =? 6) || (m =? 9) || (m =? 11) then 30
  else 31.

Definition DAYS_BEFORE_MONTH (m : Z) : Z :=
  match m with
  | 1 => 0 | 2 => 31 | 3 => 59 | 4 => 90 | 5 => 120 | 6 => 151
  | 7 => 181 | 8 => 212 | 9 => 243 | 10 => 273 | 11 => 304 | 12 => 334
  | _ => 365
  end.

Definition b2z (b : bool) : Z := if b then 1 else 0.

(** [_days_before_year], [_days_before_month], [_ymd2ord]: the ordinal of
    a date, with 1 for 0001-01-01. *)
Definition days_before_year (y : Z) : Z :=
  let p := y - 1 in p * 365 + p / 4 - p / 100 + p / 400.

Definition days_before_month (y m : Z) : Z :=
  DAYS_BEFORE_MONTH m + b2z ((2 <? m) && is_leap y).

Definition ymd2ord (y m d : Z) : Z :=
  days_before_year y + days_before_month y m + d.

(** [_ord2ymd]: the date of an ordinal ([divmod] rounds down, as
    [Z.div] and [Z.modulo] do for a positive divisor). *)
Definition ord2ymd (ordinal : Z) : Z * Z * Z :=
  let n := ordinal - 1 in
  let n400 := n / DI400Y in
  let n := n mod DI400Y in
  let n100 := n / DI100Y in
  let n := n mod DI100Y in
  let n4 := n / DI4Y in
  let n := n mod DI4Y in
  let n1 := n / 365 in
  let n := n mod 365 in
  let y := n400 * 400 + 1 + n100 * 100 + n4 * 4 + n1 in
  if (n1 =? 4) || (n100 =? 4) then (y - 1, 12, 31)
  else
    let leapyear := (n1 =? 3) && (negb (n4 =? 24) || (n100 =? 3)) in
    let m := (n + 50) / 32 in
    let preceding := DAYS_BEFORE_MONTH m + b2z ((2 <? m) && leapyear) in
    if n <? preceding then
      let m' := m - 1 in
      let preceding' :=
        preceding - (DAYS_IN_MONTH m' + b2z ((m' =? 2) && leapyear)) in
      (y, m', n - preceding' + 1)
    else (y, m, n - preceding + 1).

(** The ordinal of 1970-01-01. *)
Definition EPOCH_ORDINAL : Z := 719163.

(** The timestamps a [time_t] of 64 bits holds, and the values of
    [tm_year], an [int] of 32 bits that counts the years from 1900. *)
Definition TIME_T_MIN : Z := - 2 ^ 63.
Definition TIME_T_MAX : Z := 2 ^ 63 - 1.
Definition TM_YEAR_MIN : Z := - 2 ^ 31.
Definition TM_YEAR_MAX : Z := 2 ^ 31 - 1.

(** [datetime.utcfromtimestamp(t)] for an integer [t], as CPython has it
    where [time_t] has 64 bits: the calendar fields of [t] seconds after
    the epoch, no microseconds.  A timestamp that is no [time_t] is an
    [OverflowError]; one whose year [gmtime] cannot return in [tm_year] is
    an [OSError]; a year outside [MINYEAR..MAXYEAR] is a [ValueError]. *)
Definition utcfromtimestamp (t : Z) : result datetime :=
  if (t <? TIME_T_MIN) || (TIME_T_MAX <? t) then Raise OverflowError
  else
    let '(y, m, d) := ord2ymd (t / 86400 + EPOCH_ORDINAL) in
    let s := t mod 86400 in
    if (y - 1900 <? TM_YEAR_MIN) || (TM_YEAR_MAX <? y - 1900) then
      Raise OSError
    else if (MINYEAR <=? y) && (y <=? MAXYEAR) then
      Ok (mk_datetime y m d (s / 3600) (s mod 3600 / 60) (s mod 60) 0)
    else Raise ValueError.

(** The seconds since the epoch of a date and time (the inverse
    direction, [calendar.timegm]). *)
Definition timestamp (dt : datetime) : Z :=
  (ymd2ord (year dt) (month dt) (day dt) - EPOCH_ORDINAL) * 86400
  + hour dt * 3600 + minute dt * 60 + second dt.

(** The timestamps [utcfromtimestamp] accepts: 0001-01-01 00:00:00 to
    9999-12-31 23:59:59. *)
Definition MIN_TIMESTAMP : Z := -62135596800.
Definition MAX_TIMESTAMP : Z := 253402300799.

(** The timestamps whose year [gmtime] can return: the first second of
    the year -2147481748 to the last second of the year 2147485547. *)
Definition GMTIME_MIN_TIMESTAMP : Z := -67768040609740800.
Definition GMTIME_MAX_TIMESTAMP : Z := 67768036191676799.

(** [str(dt)], that is [dt.isoformat(sep=' ')]. *)
Definition str (dt : datetime) : string :=
  Py.pad4 (year dt) +:+ "-" +:+ Py.pad2 (month dt) +:+ "-" +:+ Py.pad2 (day dt)
  +:+ " " +:+ Py.pad2 (hour dt) +:+ ":" +:+ Py.pad2 (minute dt)
  +:+ ":" +:+ Py.pad2 (second dt)
  +:+ (if microsecond dt =? 0 then "" else "." +:+ Py.pad6 (microsecond dt)).

(** The field ranges of a [datetime] object. *)
Definition wf (dt : datetime) : Prop :=
  MINYEAR <= year dt <= MAXYEAR /\ 1 <= month dt <= 12 /\ 1 <= day dt <= 31
  /\ 0 <= hour dt < 24 /\ 0 <= minute dt < 60 /\ 0 <= second dt < 60
  /\ 0 <= microsecond dt < 1000000.

End Datetime.

(** ** [json.dump] with its default settings *)

Module Json.

#[warnings="-register-all"]
Inductive json : Type :=
  | JNull
  | JBool (b : bool)
  | JInt (n : Z)
  | JStr (s : string)
  | JList (items : list json)
  | JDict (items : list (string * json)).

(** The double quote character. *)
Definition DQ : ascii := ascii_of_N 34.

(** [py_encode_basestring_ascii]: the escapes of a character inside a
    JSON string ([ensure_ascii] is on by default). *)
Definition escape_char (c : ascii) : string :=
  let n := N_of_ascii c in
  if (n =? 34)%N then String "\" (String DQ EmptyString)
  else if (n =? 92)%N then "\\"
  else if (n =? 8)%N then "\b"
  else if (n =? 12)%N then "\f"
  else if (n =? 10)%N then "\n"
  else if (n =? 13)%N then "\r"
  else if (n =? 9)%N then "\t"
  else if ((32 <=? n) && (n <=? 126))%N then String c EmptyString
  else "\u00" +:+ String (EthUtils.hex_digit (n / 16))
                     (String (EthUtils.hex_digit (n mod 16)) EmptyString).

Fixpoint escape (s : string) : string :=
  match s with
  | EmptyString => ""
  | String c s' => escape_char c +:+ escape s'
  end.

(** A text between double quotes. *)
Definition enclose (s : string) : string :=
  String DQ s +:+ String DQ EmptyString.

Definition quote (s : string) : string := enclose (escape s).

(** [json.dumps(value)]: items separated by [", "], keys from values by
    [": "], a dict in insertion order. *)
Fixpoint dumps (j : json) : string :=
  match j with
  | JNull => "null"
  | JBool b => if b then "true" else "false"
  | JInt n => Py.str_int n
  | JStr s => quote s
  | JList items => "[" +:+ Py.join ", " (map dumps items) +:+ "]"
  | JDict items =>
      "{" +:+ Py.join ", "
                (map (fun kv => match kv with
                                | (k, v) => quote k +:+ ": " +:+ dumps v
                                end) items)
      +:+ "}"
  end.

End Json.


(** ** [str.format] with keyword arguments *)

Module Format.

(** The keyword arguments, already converted with [str]. *)
Definition lookup_var (name : string) (vars : list (string * string))
  : result string :=
  match find (fun kv => String.eqb (fst kv) name) vars with
  | Some kv => Ok (snd kv)
  | None => Raise KeyError
  end.

(** [format_from t field vars] reads the template [t]; [field] is the
    name read so far when inside a replacement field.  A doubled brace is a
    literal brace, a lone closing brace and an unclosed field are
    [ValueError]s, an unknown name is a [KeyError].  Conversions and format
    specifications do not occur in the templates of this program and are
    read as part of the name. *)
Fixpoint format_from (t : string) (field : option string)
  (vars : list (string * string)) : result string :=
  match t with
  | EmptyString =>
      match field with
      | None => Ok ""
      | Some _ => Raise ValueError
      end
  | String c t' =>
      match field with
      | Some name =>
          if Ascii.eqb c "}" then
            rbind (lookup_var name vars) (fun v =>
            rbind (format_from t' None vars) (fun r => Ok (v +:+ r)))
          else format_from t' (Some (name +:+ String c EmptyString)) vars
      | None =>
          if Ascii.eqb c "{" then
            match t' with
            | String "{" t'' =>
                rbind (format_from t'' None vars) (fun r => Ok (String c r))
            | _ => format_from t' (Some "") vars
            end
          else if Ascii.eqb c "}" then
            match t' with
            | String "}" t'' =>
                rbind (format_from t'' None vars) (fun r => Ok (String c r))
            | _ => Raise ValueError
            end
          else rbind (format_from t' None vars) (fun r => Ok (String c r))
      end
  end.

Definition format (template : string) (vars : list (string * string))
  : result string :=
  format_from template None vars.

End Format.

(** ** Module constants of [monitor/main.py] *)

Definition SKIP_FILE_NAME : string := "skips".
Definition DB_FILE_NAME : string := "tlbc-monitor.db".
Definition APP_STATE_KEY : string := "appstate".

Definition STEP_DURATION : Z := 5.
Definition BLOCK_FETCH_INTERVAL : float := (5 / 2)%float.
Definition GRACE_PERIOD : Z := 10.
Definition DEFAULT_OFFLINE_WINDOW_SIZE_IN_SECONDS : Z := 24 * 60 * 60.
Definition DEFAULT_ALLOWED_SKIP_RATE : float := 0.5%float.
Definition MAX_REORG_DEPTH : Z := 1000.

Definition BLOCK_HASH_AND_TIMESTAMP_TEMPLATE : string :=
  "{block_hash} ({block_timestamp})".

Definition EQUIVOCATION_REPORT_TEMPLATE : string :=
"Proposer: {proposer_address}
Block step: {block_step}
Detection time: {detection_time}

Equivocated blocks:
{block_hash_timestamp_summary}

Data for an equivocation proof by the first two equivocated blocks:

RLP encoded block header one:
{rlp_encoded_block_header_one}

Signature of block header one:
{signature_block_header_one}

RLP encoded block header two:
{rlp_encoded_block_header_two}

Signature of block header two:
{signature_block_header_two}

------------------------------

".

Definition step_number_to_timestamp (step : Z) : Z := step * STEP_DURATION.

(** ** The versioned application state *)

(** The states of the block fetcher and of the reporters are defined in
    their own modules ([monitor.block_fetcher], [monitor.skip_reporter],
    [monitor.offline_reporter]); the controller only stores them, hands
    them to the constructors and upgrades them with the reporters' own
    upgrade functions. *)
Class ReporterStates : Type := {
  BlockFetcherStateV1 : Type;
  SkipReporterStateV1 : Type;
  SkipReporterStateV2 : Type;
  OfflineReporterStateV1 : Type;
  OfflineReporterStateV2 : Type;
  (** [skip_reporter.upgrade_v1_to_v2], [offline_reporter.upgrade_v1_to_v2] *)
  skip_reporter_upgrade_v1_to_v2 : SkipReporterStateV1 -> SkipReporterStateV2;
  offline_reporter_upgrade_v1_to_v2 :
    OfflineReporterStateV1 -> OfflineReporterStateV2;
  (** [BlockFetcher.get_fresh_state()] and the reporters' *)
  BlockFetcher_get_fresh_state : BlockFetcherStateV1;
  SkipReporter_get_fresh_state : SkipReporterStateV2;
  OfflineReporter_get_fresh_state : OfflineReporterStateV2
}.

Module AppStateV1.
Record t `{ReporterStates} : Type := mk {
  block_fetcher_state : BlockFetcherStateV1;
  skip_reporter_state : SkipReporterStateV1;
  offline_reporter_state : OfflineReporterStateV1
}.
End AppStateV1.

Module AppStateV2.
Record t `{ReporterStates} : Type := mk {
  block_fetcher_state : BlockFetcherStateV1;
  skip_reporter_state : SkipReporterStateV2;
  offline_reporter_state : OfflineReporterStateV2
}.
End AppStateV2.

Definition upgrade_v1_to_v2 `{ReporterStates} (v1 : AppStateV1.t)
  : AppStateV2.t :=
  AppStateV2.mk _
    (AppStateV1.block_fetcher_state v1)
    (skip_reporter_upgrade_v1_to_v2 (AppStateV1.skip_reporter_state v1))
    (offline_reporter_upgrade_v1_to_v2 (AppStateV1.offline_reporter_state v1)).

(** What [db.load_pickled] can hand back: nothing, an instance of one of
    the two state classes, or an object of some other class (named, with
    its truth value). *)
Inductive pyobj `{ReporterStates} : Type :=
  | PyNone
  | PyAppStateV1 (s : AppStateV1.t)
  | PyAppStateV2 (s : AppStateV2.t)
  | PyOther (class_name : string) (truth : bool).

Inductive pyclass : Type :=
  | ClsNoneType
  | ClsAppStateV1
  | ClsAppStateV2
  | ClsOther (class_name : string).

Definition type_of `{ReporterStates} (o : pyobj) : pyclass :=
  match o with
  | PyNone => ClsNoneType
  | PyAppStateV1 _ => ClsAppStateV1
  | PyAppStateV2 _ => ClsAppStateV2
  | PyOther n _ => ClsOther n
  end.

Definition pyclass_eqb (c1 c2 : pyclass) : bool :=
  match c1, c2 with
  | ClsNoneType, ClsNoneType => true
  | ClsAppStateV1, ClsAppStateV1 => true
  | ClsAppStateV2, ClsAppStateV2 => true
  | ClsOther n1, ClsOther n2 => String.eqb n1 n2
  | _, _ => false
  end.

Definition isinstance `{ReporterStates} (o : pyobj) (c : pyclass) : bool :=
  pyclass_eqb (type_of o) c.

(** Truth value of an object: a named tuple with three fields is a
    non-empty tuple, hence true. *)
Definition truthy `{ReporterStates} (o : pyobj) : bool :=
  match o with
  | PyNone => false
  | PyAppStateV1 _ | PyAppStateV2 _ => true
  | PyOther _ b => b
  end.

(** ** Loading, upgrading and checking the application state *)

Definition _initialize_app_state `{ReporterStates} : AppStateV2.t :=
  AppStateV2.mk _ BlockFetcher_get_fresh_state SkipReporter_get_fresh_state
    OfflineReporter_get_fresh_state.

(** [self.db.load_pickled(APP_STATE_KEY) or self._initialize_app_state()],
    as a function of what the database hands back. *)
Definition _load_app_state `{ReporterStates} (pickled : pyobj) : pyobj :=
  if truthy pickled then pickled else PyAppStateV2 _initialize_app_state.

Definition _upgrade_app_state `{ReporterStates} (app_state : pyobj)
  : result pyobj :=
  match app_state with
  | PyAppStateV1 v1 => Ok (PyAppStateV2 (upgrade_v1_to_v2 v1))
  | PyAppStateV2 _ => Ok app_state
  | _ => Raise InvalidAppStateException
  end.

(** The constructor arguments that [_initialize_reporters] takes from the
    application state and from the module constants; the references to the
    RPC client, the database and the oracle are left out. *)
Record Reporters `{ReporterStates} : Type := mk_Reporters {
  block_fetcher_args : BlockFetcherStateV1 * Z;
  skip_reporter_args : SkipReporterStateV2 * Z;
  offline_reporter_args : OfflineReporterStateV2 * Z * float
}.

Definition _initialize_reporters `{ReporterStates} (app_state : pyobj)
  (skip_rate : float) (offline_window_size : Z) : result Reporters :=
  match app_state with
  | PyAppStateV2 s =>
      Ok (mk_Reporters _
            (AppStateV2.block_fetcher_state s, MAX_REORG_DEPTH)
            (AppStateV2.skip_reporter_state s, GRACE_PERIOD)
            (AppStateV2.offline_reporter_state s, offline_window_size,
             skip_rate))
  | _ => Raise InvalidAppStateException
  end.

(** The part of [App.__init__] that decides on the application state. *)
Definition App_init_reporters `{ReporterStates} (upgrade_db : bool)
  (pickled : pyobj) (skip_rate : float) (offline_window_size : Z)
  : result Reporters :=
  let app_state := _load_app_state pickled in
  rbind (if upgrade_db then _upgrade_app_state app_state else Ok app_state)
    (fun app_state =>
       _initialize_reporters app_state skip_rate offline_window_size).

(** ** The report sinks *)

(** The files of the report directory by name, and the text of the skip
    file, which is opened once in append mode: [skip_file] is the text
    behind the handle, everything already in the file followed by
    everything written since. *)
Record Sinks : Type := mk_Sinks {
  skip_file : string;
  report_dir : gmap string string
}.

(** [open(path, "w")] and [open(path, "a")] followed by one [write]. *)
Definition write_file (name text : string) (files : gmap string string)
  : gmap string string :=
  <[name := text]> files.

Definition append_file (name text : string) (files : gmap string string)
  : gmap string string :=
  <[name := default "" (files !! name) +:+ text]> files.

(** The event a skip reporter emits; only [step] is read here. *)
Module SkippedProposal.
Record t : Type := mk { step : Z }.
End SkippedProposal.

Definition skip_logger (validator : list byte)
  (skipped_proposal : SkippedProposal.t) (self : Sinks) : result Sinks :=
  let skip_timestamp :=
    step_number_to_timestamp (SkippedProposal.step skipped_proposal) in
  rbind (Datetime.utcfromtimestamp skip_timestamp) (fun dt =>
  Ok (mk_Sinks
        (skip_file self
         +:+ (Py.str_int (SkippedProposal.step skipped_proposal) +:+ ","
              +:+ EthUtils.encode_hex validator +:+ ","
              +:+ Datetime.str dt +:+ Py.newline))
        (report_dir self))).

Definition offline_report_filename (validator_hex : string) (lo hi : Z)
  : string :=
  "offline_report_" +:+ validator_hex +:+ "_steps_" +:+ Py.str_int lo
  +:+ "_to_" +:+ Py.str_int hi.

Definition offline_logger (validator : list byte) (steps : list Z)
  (self : Sinks) : result Sinks :=
  rbind (Py.min steps) (fun lo =>
  rbind (Py.max steps) (fun hi =>
  let filename :=
    offline_report_filename (EthUtils.encode_hex validator) lo hi in
  Ok (mk_Sinks (skip_file self)
        (write_file filename
           (Json.dumps
              (Json.JDict
                 [("validator", Json.JStr (EthUtils.encode_hex validator));
                  ("missed_steps", Json.JList (map Json.JInt steps))]))
           (report_dir self))))).

(** What the equivocation logger reads from the node and from
    [monitor.blocks]: the block of a hash as the RPC returns it, its
    canonical form with step and signature, the recovered proposer, the RLP
    of the header, and [str(keys.Signature(..))]. *)
Class ChainAccess : Type := {
  Block : Type;
  CanonicalBlock : Type;
  getBlock : list byte -> Block;
  blk_hash : Block -> list byte;
  blk_timestamp : Block -> Z;
  get_canonicalized_block : Block -> CanonicalBlock;
  blk_step : CanonicalBlock -> Z;
  blk_signature : CanonicalBlock -> list byte;
  get_proposer : CanonicalBlock -> list byte;
  rlp_encoded_block : CanonicalBlock -> list byte;
  Signature_str : list byte -> string
}.

Definition block_hash_and_timestamp_string `{ChainAccess} (block : Block)
  : result string :=
  rbind (Datetime.utcfromtimestamp (blk_timestamp block)) (fun dt =>
  Format.format BLOCK_HASH_AND_TIMESTAMP_TEMPLATE
    [("block_hash", EthUtils.encode_hex (blk_hash block));
     ("block_timestamp", Datetime.str dt)]).

Definition equivocation_report_filename (proposer_address_hex : string)
  : string :=
  "equivocation_reports_for_proposer_" +:+ proposer_address_hex.

(** [utcnow] is the reading of the clock when the report is built. *)
Definition equivocation_logger `{ChainAccess} (utcnow : Datetime.datetime)
  (equivocated_block_hashes : list (list byte)) (self : Sinks)
  : result Sinks :=
  if negb (2 <=? Z.of_nat (length equivocated_block_hashes)) then
    Raise AssertionError
  else
    let blocks := map getBlock equivocated_block_hashes in
    rbind (rmap block_hash_and_timestamp_string blocks) (fun strings =>
    let block_hash_and_timestamp_summary := Py.join Py.newline strings in
    match blocks with
    | b0 :: b1 :: _ =>
        let block_one := get_canonicalized_block b0 in
        let block_two := get_canonicalized_block b1 in
        let proposer_address_hex :=
          EthUtils.encode_hex (get_proposer block_one) in
        rbind
          (Format.format EQUIVOCATION_REPORT_TEMPLATE
             [("proposer_address", proposer_address_hex);
              ("block_step", Py.str_int (blk_step block_one));
              ("detection_time", Datetime.str utcnow);
              ("block_hash_timestamp_summary",
               block_hash_and_timestamp_summary);
              ("rlp_encoded_block_header_one",
               EthUtils.encode_hex (rlp_encoded_block block_one));
              ("signature_block_header_one",
               Signature_str (blk_signature block_one));
              ("rlp_encoded_block_header_two",
               EthUtils.encode_hex (rlp_encoded_block block_two));
              ("signature_block_header_two",
               Signature_str (blk_signature block_two))])
          (fun report =>
             Ok (mk_Sinks (skip_file self)
                   (append_file
                      (equivocation_report_filename proposer_address_hex)
                      report (report_dir self))))
    | _ => Raise AssertionError
    end).

(** The layout of one equivocation report, written out: what the
    template gives for the eight values. *)
Definition equivocation_report
  (proposer_address block_step detection_time summary rlp_one signature_one
     rlp_two signature_two : string) : string :=
"Proposer: " +:+ proposer_address +:+ "
Block step: " +:+ block_step +:+ "
Detection time: " +:+ detection_time +:+ "

Equivocated blocks:
" +:+ summary +:+ "

Data for an equivocation proof by the first two equivocated blocks:

RLP encoded block header one:
" +:+ rlp_one +:+ "

Signature of block header one:
" +:+ signature_one +:+ "

RLP encoded block header two:
" +:+ rlp_two +:+ "

Signature of block header two:
" +:+ signature_two +:+ "

------------------------------

".


(** ** Validation of the [--skip-rate] option *)

Definition validate_skip_rate {Ctx Param : Type} (ctx : Ctx) (param : Param)
  (value : float) : result float :=
  if negb ((0 <=? value)%float && (value <=? 1)%float) then Raise BadParameter
  else Ok value.

(** The number a binary64 value stands for: [m * 2^e] with the sign, as
    a rational; infinities and NaN stand for no number. *)
Definition dyadic (m : positive) (e : Z) : Q :=
  if 0 <=? e then inject_Z (Z.pos m * 2 ^ e)
  else Z.pos m # Pos.pow 2 (Z.to_pos (- e)).

Definition SF_value (f : spec_float) : option Q :=
  match f with
  | S754_zero _ => Some 0%Q
  | S754_finite s m e => Some (if s then (- dyadic m e)%Q else dyadic m e)
  | S754_infinity _ | S754_nan => None
  end.

Definition float_value (v : float) : option Q := SF_value (Prim2SF v).

(** [value] is a number of the interval [[0, 1]]. *)
Definition in_unit_interval (value : float) : Prop :=
  exists q : Q, float_value value = Some q /\ (0 <= q)%Q /\ (q <= 1)%Q.

(** The test of [validate_skip_rate] on the IEEE representation. *)
Definition unit_test (f : spec_float) : bool :=
  SFleb (S754_zero false) f
  && SFleb f (S754_finite false 4503599627370496 (-52)).

(** ** The collaborators of a fetch cycle *)

(** The oracle is shared by reference with the reporters; the controller
    itself calls [add_epoch] on it and assigns its [max_height]. *)
Record PrimaryOracle (OracleEpochs : Type) : Type := mk_PrimaryOracle {
  oracle_epochs : OracleEpochs;
  max_height : Z
}.

Arguments mk_PrimaryOracle {OracleEpochs} _ _.
Arguments oracle_epochs {OracleEpochs} _.
Arguments max_height {OracleEpochs} _.

(** The callbacks wired by [_register_reporter_callbacks]. *)
Inductive callback : Type :=
  | CbSkipReporter
  | CbEquivocationReporter
  | CbSkipLogger
  | CbOfflineReporter
  | CbOfflineLogger
  | CbEquivocationLogger.

(** What the block fetcher does between the call of
    [fetch_and_insert_new_blocks] and its return: it inserts blocks into the
    database session and runs the registered callbacks. *)
Inductive fetch_effect : Type :=
  | BlockInserted (block_hash : list byte)
  | CallbackRun (cb : callback).

Record FetchOutcome (BlockDB BlockFetcher SkipReporter OfflineReporter : Type)
  : Type := mk_FetchOutcome {
  fetch_result : result Z;
  fetch_effects : list fetch_effect;
  fetch_db : BlockDB;
  fetch_block_fetcher : BlockFetcher;
  fetch_skip_reporter : SkipReporter;
  fetch_offline_reporter : OfflineReporter
}.

Arguments fetch_result {_ _ _ _} _.
Arguments fetch_effects {_ _ _ _} _.
Arguments fetch_db {_ _ _ _} _.
Arguments fetch_block_fetcher {_ _ _ _} _.
Arguments fetch_skip_reporter {_ _ _ _} _.
Arguments fetch_offline_reporter {_ _ _ _} _.

(** The objects the controller drives ([monitor.validators],
    [monitor.block_fetcher], the reporters, [monitor.db]) with the methods
    and attributes [main.py] uses.  A method takes the objects it can reach
    and gives back their new states. *)
Class Collaborators `{ReporterStates} : Type := {
  ChainSpec : Type;
  (** [!=] on two loaded chain-spec documents *)
  chain_spec_ne : ChainSpec -> ChainSpec -> bool;
  Epoch : Type;
  EpochFetcher : Type;
  OracleEpochs : Type;
  BlockDB : Type;
  BlockFetcher : Type;
  SkipReporter : Type;
  OfflineReporter : Type;
  last_fetch_height : EpochFetcher -> Z;
  fetch_new_epochs : EpochFetcher -> result (list Epoch) * EpochFetcher;
  add_epoch :
    Epoch -> PrimaryOracle OracleEpochs -> result (PrimaryOracle OracleEpochs);
  fetch_and_insert_new_blocks :
    forall (max_number_of_blocks max_block_height : Z),
      PrimaryOracle OracleEpochs -> BlockDB -> BlockFetcher -> SkipReporter ->
      OfflineReporter ->
      FetchOutcome BlockDB BlockFetcher SkipReporter OfflineReporter;
  BlockFetcher_state : BlockFetcher -> BlockFetcherStateV1;
  SkipReporter_state : SkipReporter -> SkipReporterStateV2;
  OfflineReporter_state : OfflineReporter -> OfflineReporterStateV2;
  (** the text logged after a fetch, from [syncing], [get_sync_status()]
      and [head] *)
  sync_log_message : BlockFetcher -> string;
  store_pickled : string -> AppStateV2.t -> BlockDB -> result unit * BlockDB;
  session_enter : BlockDB -> BlockDB;
  session_commit : BlockDB -> result unit * BlockDB;
  session_exit : BlockDB -> BlockDB
}.

(** What an observer of one run sees, in order. *)
Inductive event `{Collaborators} : Type :=
  | EvFetchNewEpochs
  | EvAddEpoch (epoch : Epoch)
  | EvSetMaxHeight (height : Z)
  | EvSessionEnter
  | EvFetchCall (max_number_of_blocks max_block_height : Z)
  | EvFetchEffect (eff : fetch_effect)
  | EvFetchReturn (number_of_new_blocks : Z)
  | EvStorePickled (key : string) (state : AppStateV2.t)
  | EvSkipFileFlush
  | EvCommit
  | EvSessionExit
  | EvLogInfo (message : string)
  | EvSleep (seconds : float)
  | EvReadChainSpec
  | EvSkipFileClose.

(** The attributes of [App] a cycle reads or writes, and the events so
    far. *)
Record App `{Collaborators} : Type := mk_App {
  epoch_fetcher : EpochFetcher;
  primary_oracle : PrimaryOracle OracleEpochs;
  db : BlockDB;
  block_fetcher : BlockFetcher;
  skip_reporter : SkipReporter;
  offline_reporter : OfflineReporter;
  original_chain_spec : ChainSpec;
  watch_chain_spec : bool;
  _running : bool;
  trace : list event
}.

Section Controller.
Context `{Collaborators}.

(** *** State and exceptions *)

Definition M (A : Type) : Type := App -> result A * App.

Definition ret {A : Type} (a : A) : M A := fun app => (Ok a, app).

Definition raise {A : Type} (e : exn) : M A := fun app => (Raise e, app).

Definition bind {A B : Type} (m : M A) (k : A -> M B) : M B :=
  fun app =>
    match m app with
    | (Ok a, app') => k a app'
    | (Raise e, app') => (Raise e, app')
    end.

Definition get : M App := fun app => (Ok app, app).

Definition modify (f : App -> App) : M unit := fun app => (Ok tt, f app).

(** Attribute assignments. *)
Definition with_epoch_fetcher (ef : EpochFetcher) (app : App) : App :=
  mk_App _ _ ef (primary_oracle app) (db app)
    (block_fetcher app) (skip_reporter app) (offline_reporter app)
    (original_chain_spec app) (watch_chain_spec app) (_running app)
    (trace app).

Definition with_primary_oracle (po : PrimaryOracle OracleEpochs) (app : App)
  : App :=
  mk_App _ _ (epoch_fetcher app) po (db app)
    (block_fetcher app) (skip_reporter app) (offline_reporter app)
    (original_chain_spec app) (watch_chain_spec app) (_running app)
    (trace app).

Definition with_db (d : BlockDB) (app : App) : App :=
  mk_App _ _ (epoch_fetcher app) (primary_oracle app) d
    (block_fetcher app) (skip_reporter app) (offline_reporter app)
    (original_chain_spec app) (watch_chain_spec app) (_running app)
    (trace app).

Definition with_pipeline (d : BlockDB) (bf : BlockFetcher)
  (sr : SkipReporter) (ofr : OfflineReporter) (app : App) : App :=
  mk_App _ _ (epoch_fetcher app) (primary_oracle app) d bf sr ofr
    (original_chain_spec app) (watch_chain_spec app) (_running app)
    (trace app).

Definition with_running (b : bool) (app : App) : App :=
  mk_App _ _ (epoch_fetcher app) (primary_oracle app) (db app)
    (block_fetcher app) (skip_reporter app) (offline_reporter app)
    (original_chain_spec app) (watch_chain_spec app) b
    (trace app).

(** The events [evs] happen. *)
Definition add_events (evs : list event) (app : App) : App :=
  mk_App _ _ (epoch_fetcher app) (primary_oracle app) (db app)
    (block_fetcher app) (skip_reporter app) (offline_reporter app)
    (original_chain_spec app) (watch_chain_spec app) (_running app)
    (trace app ++ evs).

Definition emit (ev : event) : M unit := modify (add_events [ev]).
Definition set_epoch_fetcher (ef : EpochFetcher) : M unit :=
  modify (with_epoch_fetcher ef).
Definition set_primary_oracle (po : PrimaryOracle OracleEpochs) : M unit :=
  modify (with_primary_oracle po).
Definition set_db (d : BlockDB) : M unit := modify (with_db d).
Definition set_pipeline (d : BlockDB) (bf : BlockFetcher) (sr : SkipReporter)
  (ofr : OfflineReporter) : M unit :=
  modify (with_pipeline d bf sr ofr).
Definition set_running (b : bool) : M unit := modify (with_running b).

(** A [result] computed outside the monad, raised or returned. *)
Definition lift {A : Type} (r : result A) : M A :=
  match r with
  | Ok a => ret a
  | Raise e => raise e
  end.

(** [try: body finally: cleanup], with a [cleanup] that does not raise. *)
Definition finally {A : Type} (body : M A) (cleanup : M unit) : M A :=
  fun app =>
    match body app with
    | (r, app') => (r, snd (cleanup app'))
    end.

Fixpoint for_each {A : Type} (xs : list A) (body : A -> M unit) : M unit :=
  match xs with
  | [] => ret tt
  | x :: rest => bind (body x) (fun _ => for_each rest body)
  end.

End Controller.

#[global] Instance M_ret `{Collaborators} : MRet M := @ret _ _.
#[global] Instance M_bind `{Collaborators} : MBind M :=
  fun A B k m => bind m k.

(** ** One fetch cycle and the main loop *)

Section Cycle.
Context `{Collaborators}.

(** The [app_state] property. *)
Definition app_state (self : App) : AppStateV2.t :=
  AppStateV2.mk _
    (BlockFetcher_state (block_fetcher self))
    (SkipReporter_state (skip_reporter self))
    (OfflineReporter_state (offline_reporter self)).

Definition log_info (message : string) : M unit := emit (EvLogInfo message).

Definition stop : M unit :=
  log_info
    "Stopping tlbc-monitor. This may take a long time, please be patient!";;
  set_running false.

Definition call_fetch_new_epochs : M (list Epoch) :=
  self ← get;
  emit EvFetchNewEpochs;;
  set_epoch_fetcher (snd (fetch_new_epochs (epoch_fetcher self)));;
  lift (fst (fetch_new_epochs (epoch_fetcher self))).

Definition call_add_epoch (epoch : Epoch) : M unit :=
  self ← get;
  emit (EvAddEpoch epoch);;
  po ← lift (add_epoch epoch (primary_oracle self));
  set_primary_oracle po.

Definition _update_epochs : M unit :=
  new_epochs ← call_fetch_new_epochs;
  for_each new_epochs call_add_epoch;;
  self ← get;
  emit (EvSetMaxHeight (last_fetch_height (epoch_fetcher self)));;
  set_primary_oracle
    (mk_PrimaryOracle (oracle_epochs (primary_oracle self))
       (last_fetch_height (epoch_fetcher self))).

Definition call_fetch_and_insert_new_blocks
  (max_number_of_blocks max_block_height : Z) : M Z :=
  self ← get;
  emit (EvFetchCall max_number_of_blocks max_block_height);;
  let out :=
    fetch_and_insert_new_blocks max_number_of_blocks max_block_height
      (primary_oracle self) (db self) (block_fetcher self)
      (skip_reporter self) (offline_reporter self) in
  for_each (fetch_effects out) (fun eff => emit (EvFetchEffect eff));;
  set_pipeline (fetch_db out) (fetch_block_fetcher out)
    (fetch_skip_reporter out) (fetch_offline_reporter out);;
  n ← lift (fetch_result out);
  emit (EvFetchReturn n);;
  mret n.

Definition call_store_pickled (key : string) (state : AppStateV2.t) : M unit :=
  self ← get;
  emit (EvStorePickled key state);;
  set_db (snd (store_pickled key state (db self)));;
  lift (fst (store_pickled key state (db self))).

Definition call_commit : M unit :=
  self ← get;
  emit EvCommit;;
  set_db (snd (session_commit (db self)));;
  lift (fst (session_commit (db self))).

(** [with self.db.persistent_session() as session: body] *)
Definition with_persistent_session {A : Type} (body : M A) : M A :=
  self ← get;
  emit EvSessionEnter;;
  set_db (session_enter (db self));;
  finally body
    (self' ← get;
     emit EvSessionExit;;
     set_db (session_exit (db self'))).

(** [chain_spec_file] is what [json.load] gives on the chain-spec file
    when it is opened at the end of this cycle. *)
Definition _check_chain_spec (chain_spec_file : result ChainSpec) : M unit :=
  self ← get;
  if negb (watch_chain_spec self) then mret tt
  else
    emit EvReadChainSpec;;
    chain_spec_has_changed ←
      match chain_spec_file with
      | Raise JSONDecodeError => mret true
      | Raise e => raise e
      | Ok chain_spec =>
          mret (chain_spec_ne chain_spec (original_chain_spec self))
      end;
    if chain_spec_has_changed : bool then
      log_info "Chain spec file has changed.";;
      stop
    else mret tt.

Definition _run_cycle (chain_spec_file : result ChainSpec) : M unit :=
  _update_epochs;;
  number_of_new_blocks ←
    with_persistent_session
      (self ← get;
       number_of_new_blocks ←
         call_fetch_and_insert_new_blocks 500
           (last_fetch_height (epoch_fetcher self));
       self ← get;
       call_store_pickled APP_STATE_KEY (app_state self);;
       emit EvSkipFileFlush;;
       call_commit;;
       mret number_of_new_blocks);
  self ← get;
  log_info (sync_log_message (block_fetcher self));;
  (if number_of_new_blocks =? 0 then emit (EvSleep BLOCK_FETCH_INTERVAL)
   else mret tt);;
  _check_chain_spec chain_spec_file.

(** How the loop of [run] ended: the flag was cleared, a cycle raised, or
    the observations given to the model ran out while the flag was still
    set (the program itself would go on). *)
Inductive loop_end : Type :=
  | LoopStopped
  | LoopRaised (e : exn)
  | LoopStillRunning.

(** [while self._running: self._run_cycle()], one observation of the
    chain-spec file per cycle; also counts the cycles run. *)
Fixpoint run_loop (chain_spec_files : list (result ChainSpec)) (self : App)
  : loop_end * nat * App :=
  if negb (_running self) then (LoopStopped, 0%nat, self)
  else
    match chain_spec_files with
    | [] => (LoopStillRunning, 0%nat, self)
    | file :: rest =>
        match _run_cycle file self with
        | (Raise e, self') => (LoopRaised e, 1%nat, self')
        | (Ok _, self') =>
            match run_loop rest self' with
            | (how, n, self'') => (how, S n, self'')
            end
        end
    end.

Definition run (chain_spec_files : list (result ChainSpec)) (self : App)
  : loop_end * nat * App :=
  let self := snd (set_running true self) in
  let self := snd (log_info "starting sync" self) in
  match run_loop chain_spec_files self with
  | (how, n, self') => (how, n, snd (emit EvSkipFileClose self'))
  end.

End Cycle.

(** ** Notions for the properties of a cycle *)

Section CycleSpec.
Context `{Collaborators}.

(** The events of one computation: what it adds to the trace. *)
Definition events_of {A : Type} (m : M A) (self : App) : list event :=
  drop (length (trace self)) (trace (snd (m self))).

(** The events of [_update_epochs], and those after the database
    session. *)
Definition is_epoch_event (ev : event) : bool :=
  match ev with
  | EvFetchNewEpochs | EvAddEpoch _ | EvSetMaxHeight _ => true
  | _ => false
  end.

Definition is_tail_event (ev : event) : bool :=
  match ev with
  | EvLogInfo _ | EvSleep _ | EvReadChainSpec => true
  | _ => false
  end.

(** The place of an event in a cycle.  Epoch events, the effects of a
    fetch and the events after the session may repeat; every other event
    happens at most once per cycle. *)
Definition rank (ev : event) : nat :=
  match ev with
  | EvFetchNewEpochs | EvAddEpoch _ | EvSetMaxHeight _ => 0
  | EvSessionEnter => 1
  | EvFetchCall _ _ => 2
  | EvFetchEffect _ => 3
  | EvFetchReturn _ => 4
  | EvStorePickled _ _ => 5
  | EvSkipFileFlush => 6
  | EvCommit => 7
  | EvSessionExit => 8
  | EvLogInfo _ | EvSleep _ | EvReadChainSpec => 9
  | EvSkipFileClose => 10
  end.

Definition repeats (r : nat) : bool :=
  match r with
  | 0%nat | 3%nat | 9%nat => true
  | _ => false
  end.

Definition in_order (x y : event) : Prop :=
  (rank x < rank y)%nat \/ (rank x = rank y /\ repeats (rank x) = true).

(** [m] adds events to the trace, all of them with the property [p]. *)
Definition emits_only {A : Type} (p : event -> bool) (m : M A) : Prop :=
  forall self : App,
    exists evs : list event,
      trace (snd (m self)) = trace self ++ evs
      /\ Forall (fun ev => p ev = true) evs.

(** [for epoch in new_epochs: self.primary_oracle.add_epoch(epoch)] on the
    oracle alone. *)
Fixpoint add_epochs (new_epochs : list Epoch)
  (po : PrimaryOracle OracleEpochs) : result (PrimaryOracle OracleEpochs) :=
  match new_epochs with
  | [] => Ok po
  | epoch :: rest => rbind (add_epoch epoch po) (add_epochs rest)
  end.

(** The body of the database session in [_run_cycle]. *)
Definition session_body : M Z :=
  self ← get;
  number_of_new_blocks ←
    call_fetch_and_insert_new_blocks 500
      (last_fetch_height (epoch_fetcher self));
  self ← get;
  call_store_pickled APP_STATE_KEY (app_state self);;
  emit EvSkipFileFlush;;
  call_commit;;
  mret number_of_new_blocks.

(** The fetch of a cycle that starts its session in the state [s1]. *)
Definition cycle_fetch (s1 : App)
  : FetchOutcome BlockDB BlockFetcher SkipReporter OfflineReporter :=
  fetch_and_insert_new_blocks 500 (last_fetch_height (epoch_fetcher s1))
    (primary_oracle s1) (session_enter (db s1)) (block_fetcher s1)
    (skip_reporter s1) (offline_reporter s1).

(** The application state after a fetch. *)
Definition fetched_state
  (out : FetchOutcome BlockDB BlockFetcher SkipReporter OfflineReporter)
  : AppStateV2.t :=
  AppStateV2.mk _
    (BlockFetcher_state (fetch_block_fetcher out))
    (SkipReporter_state (fetch_skip_reporter out))
    (OfflineReporter_state (fetch_offline_reporter out)).

(** What follows the session in a cycle. *)
Definition cycle_tail (file : result ChainSpec) (number_of_new_blocks : Z)
  : M unit :=
  self ← get;
  log_info (sync_log_message (block_fetcher self));;
  (if number_of_new_blocks =? 0 then emit (EvSleep BLOCK_FETCH_INTERVAL)
   else mret tt);;
  _check_chain_spec file.

(** The possible contents of a session between the effects of the fetch
    and the end of the session. *)
Definition session_tail
  (out : FetchOutcome BlockDB BlockFetcher SkipReporter OfflineReporter)
  (body : list event) (complete : bool) : Prop :=
  (body = [] /\ is_ok (fetch_result out) = false /\ complete = false)
  \/ exists n : Z,
       fetch_result out = Ok n
       /\ ((body = [EvFetchReturn n;
                    EvStorePickled APP_STATE_KEY (fetched_state out)]
            /\ complete = false)
           \/ (body = [EvFetchReturn n;
                       EvStorePickled APP_STATE_KEY (fetched_state out);
                       EvSkipFileFlush; EvCommit])).

(** A list of events in the order of their ranks, all ranks between
    [lo] and [hi]. *)
Definition segment (lo hi : nat) (l : list event) : Prop :=
  StronglySorted in_order l
  /\ Forall (fun ev => (lo <= rank ev <= hi)%nat) l.

(** The attributes that only [stop] and the constructor write. *)
Definition flags (self : App) : bool * ChainSpec * bool :=
  (watch_chain_spec self, original_chain_spec self, _running self).

Definition keeps_flags {A : Type} (m : M A) : Prop :=
  forall self : App, flags (snd (m self)) = flags self.

End CycleSpec.

(** ** A small concrete setting

    Instances of the collaborator interfaces on which the controller can be
    run: states are numbers and lists, the epoch fetcher advances its fetch
    height by ten per call and finds one epoch, the block fetcher inserts
    one block per cycle and runs the skip reporter on it, the database
    keeps what was stored in the session apart from what was committed. *)

Module Demo.

Definition states : ReporterStates := {|
  BlockFetcherStateV1 := Z;
  SkipReporterStateV1 := Z;
  SkipReporterStateV2 := Z * list Z;
  OfflineReporterStateV1 := list Z;
  OfflineReporterStateV2 := list (Z * Z);
  skip_reporter_upgrade_v1_to_v2 := fun latest_step => (latest_step, []);
  offline_reporter_upgrade_v1_to_v2 := fun _ => [];
  BlockFetcher_get_fresh_state := 0;
  SkipReporter_get_fresh_state := (-1, []);
  OfflineReporter_get_fresh_state := []
|}.

(** Committed and pending entries of the database. *)
Record Store : Type := mk_Store {
  committed : list string;
  pending : list string
}.

Definition collaborators : @Collaborators states := {|
  ChainSpec := string;
  chain_spec_ne := fun a b => negb (String.eqb a b);
  Epoch := Z;
  EpochFetcher := Z;
  OracleEpochs := list Z;
  BlockDB := Store;
  BlockFetcher := Z;
  SkipReporter := Z * list Z;
  OfflineReporter := list (Z * Z);
  last_fetch_height := fun ef => ef;
  fetch_new_epochs := fun ef => (Ok [ef + 1], ef + 10);
  add_epoch := fun e po =>
    Ok (mk_PrimaryOracle (oracle_epochs po ++ [e]) (max_height po));
  fetch_and_insert_new_blocks := fun max_n max_h po d bf sr ofr =>
    if (bf <? max_h) && (0 <? max_n) then
      mk_FetchOutcome _ _ _ _ (Ok 1)
        [BlockInserted [x01]; CallbackRun CbSkipReporter]
        (mk_Store (committed d) (pending d ++ ["block"]))
        (bf + 1) (bf + 1, snd sr) ofr
    else mk_FetchOutcome _ _ _ _ (Ok 0) [] d bf sr ofr;
  BlockFetcher_state := fun bf : Z => (bf : @BlockFetcherStateV1 states);
  SkipReporter_state :=
    fun sr : Z * list Z => (sr : @SkipReporterStateV2 states);
  OfflineReporter_state :=
    fun ofr : list (Z * Z) => (ofr : @OfflineReporterStateV2 states);
  sync_log_message := fun _ => "Synced";
  store_pickled := fun key _ d =>
    (Ok tt, mk_Store (committed d) (pending d ++ [key]));
  session_enter := fun d => mk_Store (committed d) [];
  session_commit := fun d =>
    (Ok tt, mk_Store (committed d ++ pending d) []);
  session_exit := fun d => mk_Store (committed d) []
|}.

Definition app : @App states collaborators :=
  @mk_App states collaborators
    (0 : Z) (mk_PrimaryOracle ([] : list Z) 0) (mk_Store [] [])
    (0 : Z) ((-1, []) : Z * list Z) ([] : list (Z * Z))
    "spec" true true [].

Definition chain : ChainAccess := {|
  Block := list byte * Z;
  CanonicalBlock := list byte * Z;
  getBlock := fun h => (h, 1572870896 + Z.of_nat (length h));
  blk_hash := fst;
  blk_timestamp := snd;
  get_canonicalized_block := fun b => b;
  blk_step := fun b => snd b / 5;
  blk_signature := fun b => fst b ++ [x01];
  get_proposer := fun _ => [xaa; xbb];
  rlp_encoded_block := fun b => xc0 :: fst b;
  Signature_str := EthUtils.encode_hex
|}.


Definition sinks : Sinks := mk_Sinks "" ∅.

End Demo.

(** ** Further notions for the properties of a cycle *)

Section CycleNotions.
Context `{Collaborators}.

(** [m] leaves the attributes [proj] of the application as they are. *)
Definition keeps {A B : Type} (proj : App -> B) (m : M A) : Prop :=
  forall self : App, proj (snd (m self)) = proj self.

(** The epoch fetcher and the oracle, which [_update_epochs] writes. *)
Definition epoch_side (self : App)
  : EpochFetcher * PrimaryOracle OracleEpochs :=
  (epoch_fetcher self, primary_oracle self).

(** The database, the block fetcher and the two reporters with a state,
    which the database session writes. *)
Definition fetch_side (self : App)
  : BlockDB * BlockFetcher * SkipReporter * OfflineReporter :=
  (db self, block_fetcher self, skip_reporter self, offline_reporter self).

(** The events of a cycle: every event but the closing of the skip
    file. *)
Definition is_cycle_event (ev : event) : bool :=
  match ev with
  | EvSkipFileClose => false
  | _ => true
  end.

(** The events of [_check_chain_spec]. *)
Definition is_check_event (ev : event) : bool :=
  match ev with
  | EvReadChainSpec | EvLogInfo _ => true
  | _ => false
  end.

(** What [_check_chain_spec] takes for a change of the chain spec: a
    file that is no JSON document, or a document that differs from the one
    read at startup. *)
Definition chain_spec_changed (self : App) (file : result ChainSpec) : Prop :=
  file = Raise JSONDecodeError
  \/ exists chain_spec : ChainSpec,
       file = Ok chain_spec
       /\ chain_spec_ne chain_spec (original_chain_spec self) = true.

End CycleNotions.

(** ** Further notions for the properties of the sinks *)

(** The exception of [datetime.utcfromtimestamp] on a timestamp it
    refuses, by the place of the timestamp: beyond [time_t], beyond the
    years of [gmtime], or only beyond the years 1 to 9999. *)
Definition utcfromtimestamp_error (t : Z) : exn :=
  if (t <? Datetime.TIME_T_MIN) || (Datetime.TIME_T_MAX <? t) then
    OverflowError
  else if (t <? Datetime.GMTIME_MIN_TIMESTAMP)
          || (Datetime.GMTIME_MAX_TIMESTAMP <? t) then OSError
  else ValueError.

(** Characters other than the underscore, which separates the parts of
    the name of a report file. *)
Definition name_char (c : ascii) : bool := negb (Ascii.eqb c "_").

(** The calls a reporter makes to one of its callbacks, one after the
    other on the same sinks; the first exception ends them. *)
Fixpoint rfold {A S : Type} (f : A -> S -> result S) (xs : list A) (s : S)
  : result S :=
  match xs with
  | [] => Ok s
  | x :: rest => rbind (f x s) (rfold f rest)
  end.

(** ** Startup: the chain spec and the primary oracle *)

(** What [_initialize_primary_oracle] uses from [monitor.validators] and
    from the loaded chain spec: subscripting of a JSON value by a key
    (a [KeyError] or a [TypeError] when there is no such entry), the
    ranges of the validator definition, the constructors of the epoch
    fetcher and of the oracle, and the epochs known without a contract
    call. *)
Class Startup `{Collaborators} : Type := {
  ValidatorDefinitionRanges : Type;
  chain_spec_getitem : ChainSpec -> string -> result ChainSpec;
  get_validator_definition_ranges :
    ChainSpec -> result ValidatorDefinitionRanges;
  EpochFetcher_new : ValidatorDefinitionRanges -> EpochFetcher;
  PrimaryOracle_new : PrimaryOracle OracleEpochs;
  get_static_epochs : ValidatorDefinitionRanges -> result (list Epoch)
}.

Section StartupDefs.
Context `{Startup}.

Definition with_original_chain_spec (chain_spec : ChainSpec) (app : App)
  : App :=
  mk_App _ _ (epoch_fetcher app) (primary_oracle app) (db app)
    (block_fetcher app) (skip_reporter app) (offline_reporter app)
    chain_spec (watch_chain_spec app) (_running app) (trace app).

Definition set_original_chain_spec (chain_spec : ChainSpec) : M unit :=
  modify (with_original_chain_spec chain_spec).

(** [chain_spec["engine"]["authorityRound"]["params"]["validators"]] *)
Definition validator_definition_of (chain_spec : ChainSpec)
  : result ChainSpec :=
  rbind (chain_spec_getitem chain_spec "engine") (fun engine =>
  rbind (chain_spec_getitem engine "authorityRound") (fun authority_round =>
  rbind (chain_spec_getitem authority_round "params") (fun params =>
  chain_spec_getitem params "validators"))).

(** [chain_spec_file] is what [json.load] gives on the chain-spec file
    at startup.  The attributes [epoch_fetcher] and [primary_oracle] hold
    [None] before the call; the model starts from any value there. *)
Definition _initialize_primary_oracle (chain_spec_file : result ChainSpec)
  : M unit :=
  emit EvReadChainSpec;;
  chain_spec ← lift chain_spec_file;
  set_original_chain_spec chain_spec;;
  validator_definition ← lift (validator_definition_of chain_spec);
  validator_definition_ranges ←
    lift (get_validator_definition_ranges validator_definition);
  set_epoch_fetcher (EpochFetcher_new validator_definition_ranges);;
  set_primary_oracle PrimaryOracle_new;;
  static_epochs ← lift (get_static_epochs validator_definition_ranges);
  for_each static_epochs call_add_epoch;;
  _update_epochs.

End StartupDefs.

(** ** The options of [main] *)

(** [click.IntRange(min=0)] on the option [--offline-window]. *)
Definition validate_offline_window (value : Z) : result Z :=
  if value <? 0 then Raise BadParameter else Ok value.

(** [offline_window_size_in_seconds // STEP_DURATION] *)
Definition offline_window_size_in_steps (offline_window_size_in_seconds : Z)
  : Z :=
  offline_window_size_in_seconds / STEP_DURATION.

(** The way of the options [--skip-rate], [--offline-window] and
    [--upgrade-db] through [main] into the constructors of the reporters:
    the checks click makes on the two values, the window in steps, and the
    part of [App.__init__] that decides on the application state. *)
Definition main_reporters `{ReporterStates} (skip_rate : float)
  (offline_window_size_in_seconds : Z) (upgrade_db : bool) (pickled : pyobj)
  : result Reporters :=
  rbind (validate_skip_rate tt tt skip_rate) (fun skip_rate =>
  rbind (validate_offline_window offline_window_size_in_seconds)
    (fun offline_window_size_in_seconds =>
  App_init_reporters upgrade_db pickled skip_rate
    (offline_window_size_in_steps offline_window_size_in_seconds))).

(** ** The small setting with outages and with a startup

    The collaborators of [Demo] with a node that can be down: the epoch
    fetcher raises when its fetch height is negative, the block fetcher
    when its state is negative.  At startup a chain spec is a text, its
    entries are named by their path, and the text ["{}"] has no entry. *)

Module Outage.

Definition collaborators : @Collaborators Demo.states := {|
  ChainSpec := string;
  chain_spec_ne := fun a b => negb (String.eqb a b);
  Epoch := Z;
  EpochFetcher := Z;
  OracleEpochs := list Z;
  BlockDB := Demo.Store;
  BlockFetcher := Z;
  SkipReporter := Z * list Z;
  OfflineReporter := list (Z * Z);
  last_fetch_height := fun ef => ef;
  fetch_new_epochs := fun ef =>
    if ef <? 0 then (Raise (ExternalError "ConnectionError"), ef)
    else (Ok [ef + 1], ef + 10);
  add_epoch := fun e po =>
    Ok (mk_PrimaryOracle (oracle_epochs po ++ [e]) (max_height po));
  fetch_and_insert_new_blocks := fun max_n max_h po d bf sr ofr =>
    if bf <? 0 then
      mk_FetchOutcome _ _ _ _ (Raise (ExternalError "ConnectionError"))
        [] d bf sr ofr
    else if (bf <? max_h) && (0 <? max_n) then
      mk_FetchOutcome _ _ _ _ (Ok 1)
        [BlockInserted [x01]; CallbackRun CbSkipReporter]
        (Demo.mk_Store (Demo.committed d) (Demo.pending d ++ ["block"]))
        (bf + 1) (bf + 1, snd sr) ofr
    else mk_FetchOutcome _ _ _ _ (Ok 0) [] d bf sr ofr;
  BlockFetcher_state := fun bf : Z => (bf : @BlockFetcherStateV1 Demo.states);
  SkipReporter_state :=
    fun sr : Z * list Z => (sr : @SkipReporterStateV2 Demo.states);
  OfflineReporter_state :=
    fun ofr : list (Z * Z) => (ofr : @OfflineReporterStateV2 Demo.states);
  sync_log_message := fun _ => "Synced";
  store_pickled := fun key _ d =>
    (Ok tt, Demo.mk_Store (Demo.committed d) (Demo.pending d ++ [key]));
  session_enter := fun d => Demo.mk_Store (Demo.committed d) [];
  session_commit := fun d =>
    (Ok tt, Demo.mk_Store (Demo.committed d ++ Demo.pending d) []);
  session_exit := fun d => Demo.mk_Store (Demo.committed d) []
|}.

(** The validator contracts cannot be reached. *)
Definition epochs_down : @App Demo.states collaborators :=
  @mk_App Demo.states collaborators
    (-1 : Z) (mk_PrimaryOracle ([] : list Z) 0) (Demo.mk_Store [] [])
    (0 : Z) ((-1, []) : Z * list Z) ([] : list (Z * Z))
    "spec" true true [].

(** The node does not hand out blocks. *)
Definition node_down : @App Demo.states collaborators :=
  @mk_App Demo.states collaborators
    (0 : Z) (mk_PrimaryOracle ([] : list Z) 0) (Demo.mk_Store [] [])
    (-1 : Z) ((-1, []) : Z * list Z) ([] : list (Z * Z))
    "spec" true true [].

Definition getitem (cs key : string) : result string :=
  if String.eqb cs "{}" then Raise KeyError else Ok (cs +:+ "/" +:+ key).

Definition ranges_of (validator_definition : string) : result Z :=
  Ok (Z.of_nat (String.length validator_definition)).

Definition static_epochs_of (ranges : Z) : result (list Z) :=
  Ok [0; ranges].

Definition startup : @Startup Demo.states Demo.collaborators :=
  @Build_Startup Demo.states Demo.collaborators
    Z getitem ranges_of (fun ranges : Z => ranges)
    (mk_PrimaryOracle ([] : list Z) 0) static_epochs_of.

(** The application before [_initialize_primary_oracle]. *)
Definition blank : @App Demo.states Demo.collaborators :=
  @mk_App Demo.states Demo.collaborators
    (0 : Z) (mk_PrimaryOracle ([] : list Z) 0) (Demo.mk_Store [] [])
    (0 : Z) ((-1, []) : Z * list Z) ([] : list (Z * Z))
    "" true false [].

End Outage.

(** * Properties *)

#[local] Set Warnings "-clear-no-such-hyp".

(** ** The application state and its versions *)

Section AppStateProperties.
Context `{ReporterStates}.

Lemma isinstance_AppStateV1_inv (o : pyobj) :
  isinstance o ClsAppStateV1 = true -> exists v1, o = PyAppStateV1 v1.
Proof. destruct o; simpl; try discriminate; eauto. Qed.

Lemma isinstance_AppStateV2_inv (o : pyobj) :
  isinstance o ClsAppStateV2 = true -> exists v2, o = PyAppStateV2 v2.
Proof. destruct o; simpl; try discriminate; eauto. Qed.

Lemma load_app_state_AppStateV1 (v1 : AppStateV1.t) :
  _load_app_state (PyAppStateV1 v1) = PyAppStateV1 v1.
Proof. reflexivity. Qed.

(** C9: the upgrade from version 1 to version 2 keeps the block-fetcher
    state as it is; the skip-reporter and offline-reporter states are the
    ones their own upgrade functions give. *)
Theorem upgrade_v1_to_v2_keeps_block_fetcher_state (s : AppStateV1.t) :
  AppStateV2.block_fetcher_state (upgrade_v1_to_v2 s)
  = AppStateV1.block_fetcher_state s
  /\ AppStateV2.skip_reporter_state (upgrade_v1_to_v2 s)
     = skip_reporter_upgrade_v1_to_v2 (AppStateV1.skip_reporter_state s)
  /\ AppStateV2.offline_reporter_state (upgrade_v1_to_v2 s)
     = offline_reporter_upgrade_v1_to_v2 (AppStateV1.offline_reporter_state s).
Proof. destruct s; repeat split. Qed.

(** C1: with [upgrade_db], a version-1 state is converted by
    [upgrade_v1_to_v2], a version-2 state is returned as it is, and an
    object of any other class raises [InvalidAppStateException]; without
    it, [_initialize_reporters] raises [InvalidAppStateException] on every
    object that is not a version-2 state.  Hence [App.__init__] accepts a
    version-1 checkpoint exactly when [upgrade_db] is set. *)
Theorem app_state_version_handling :
  (forall v1 : AppStateV1.t,
     _upgrade_app_state (PyAppStateV1 v1)
     = Ok (PyAppStateV2 (upgrade_v1_to_v2 v1)))
  /\ (forall v2 : AppStateV2.t,
        _upgrade_app_state (PyAppStateV2 v2) = Ok (PyAppStateV2 v2))
  /\ (forall o : pyobj,
        isinstance o ClsAppStateV1 = false ->
        isinstance o ClsAppStateV2 = false ->
        _upgrade_app_state o = Raise InvalidAppStateException)
  /\ (forall (o : pyobj) (skip_rate : float) (offline_window_size : Z),
        isinstance o ClsAppStateV2 = false ->
        _initialize_reporters o skip_rate offline_window_size
        = Raise InvalidAppStateException)
  /\ (forall (v1 : AppStateV1.t) (skip_rate : float) (offline_window_size : Z),
        App_init_reporters false (PyAppStateV1 v1) skip_rate
          offline_window_size
        = Raise InvalidAppStateException
        /\ App_init_reporters true (PyAppStateV1 v1) skip_rate
             offline_window_size
           = _initialize_reporters (PyAppStateV2 (upgrade_v1_to_v2 v1))
               skip_rate offline_window_size
        /\ is_ok (App_init_reporters true (PyAppStateV1 v1) skip_rate
                    offline_window_size) = true).
Proof.
  split; [reflexivity|].
  split; [reflexivity|].
  split.
  { intros o H1 H2. destruct o; simpl in *; try reflexivity; discriminate. }
  split.
  { intros o r w H2. destruct o; simpl in *; try reflexivity; discriminate. }
  intros v1 r w. repeat split.
Qed.

End AppStateProperties.

(** The third and fourth parts of [app_state_version_handling] on a dict
    found in the database. *)
Lemma app_state_version_handling_witness :
  @_upgrade_app_state Demo.states (PyOther "dict" true)
  = Raise InvalidAppStateException
  /\ @_initialize_reporters Demo.states
       (PyAppStateV1 (AppStateV1.mk Demo.states 7 3 [1; 2])) 0.5%float 17280
     = Raise InvalidAppStateException.
Proof.
  destruct (@app_state_version_handling Demo.states) as (_ & _ & H3 & H4 & _).
  split.
  - apply H3; reflexivity.
  - apply H4; reflexivity.
Defined.

(** ** The skip rate *)

Lemma digits2_pos_bounds (p : positive) :
  2 ^ (Z.pos (digits2_pos p) - 1) <= Z.pos p < 2 ^ Z.pos (digits2_pos p).
Proof.
  induction p as [p IH|p IH|]; simpl digits2_pos.
  - rewrite Pos2Z.inj_succ.
    replace (Z.succ (Z.pos (digits2_pos p)) - 1) with (Z.succ (Z.pos (digits2_pos p) - 1)) by lia.
    rewrite !Z.pow_succ_r by lia. lia.
  - rewrite Pos2Z.inj_succ.
    replace (Z.succ (Z.pos (digits2_pos p)) - 1) with (Z.succ (Z.pos (digits2_pos p) - 1)) by lia.
    rewrite !Z.pow_succ_r by lia. lia.
  - simpl. lia.
Qed.

Lemma valid_binary_finite_bounds (s : bool) (m : positive) (e : Z) :
  valid_binary (S754_finite s m e) = true ->
  Z.pos m < 2 ^ 53 /\ (-1074 < e -> 2 ^ 52 <= Z.pos m).
Proof.
  unfold SpecFloat.valid_binary, bounded, canonical_mantissa, fexp, SpecFloat.emin.
  change prec with 53. change emax with 1024.
  intros Hv. apply andb_prop in Hv as [Hc _]. apply Z.eqb_eq in Hc.
  pose proof (digits2_pos_bounds m) as [Hlo Hhi].
  set (d := Z.pos (digits2_pos m)) in *.
  assert (Hd : d <= 53) by lia.
  split.
  - eapply Z.lt_le_trans; [exact Hhi|]. apply Z.pow_le_mono_r; lia.
  - intros He. assert (d = 53) by lia. subst d. rewrite H in Hlo. exact Hlo.
Qed.

Lemma dyadic_pos m e : (0 < dyadic m e)%Q.
Proof.
  unfold dyadic. destruct (0 <=? e) eqn:He.
  - apply Z.leb_le in He. unfold Qlt. simpl.
    assert (0 < 2 ^ e) by (apply Z.pow_pos_nonneg; lia). nia.
  - unfold Qlt. simpl. lia.
Qed.

Lemma dyadic_le_1 m e :
  (dyadic m e <= 1)%Q <->
  (if 0 <=? e then Z.pos m * 2 ^ e <= 1 else Z.pos m <= 2 ^ (- e)).
Proof.
  unfold dyadic. destruct (0 <=? e) eqn:He.
  - unfold Qle. simpl. lia.
  - apply Z.leb_gt in He. unfold Qle. simpl.
    rewrite Pos2Z.inj_pow. rewrite Z2Pos.id by lia. lia.
Qed.

Lemma unit_test_correct (f : spec_float) :
  valid_binary f = true ->
  unit_test f = true <->
  exists q : Q, SF_value f = Some q /\ (0 <= q)%Q /\ (q <= 1)%Q.
Proof.
  intros Hv. destruct f as [s|s| |s m e].
  - (* zero *) split; [intros _|intros _; destruct s; reflexivity].
    exists 0%Q. split; [reflexivity|]. split; unfold Qle; simpl; lia.
  - split; [|intros (q & Hq & _); discriminate].
    destruct s; simpl; discriminate.
  - split; [discriminate|intros (q & Hq & _); discriminate].
  - destruct s.
    + (* negative *)
      split; [discriminate|]. intros (q & Hq & H0 & _). exfalso.
      simpl in Hq. injection Hq as <-.
      pose proof (dyadic_pos m e) as Hp.
      apply (Qlt_not_le _ _ Hp). 
      apply Qopp_le_compat in H0. rewrite Qopp_involutive in H0. exact H0.
    + pose proof (valid_binary_finite_bounds _ _ _ Hv) as [Hhi Hlo].
      assert (Hval : unit_test (S754_finite false m e) = true <-> (dyadic m e <= 1)%Q).
      { rewrite dyadic_le_1. unfold unit_test, SFleb, SFcompare.
        cbv beta iota delta [andb].
        destruct (Z.compare_spec e (-52)) as [He|He|He].
        - subst e. change (0 <=? -52) with false. cbv iota.
          change (2 ^ (- -52)) with (Z.pos 4503599627370496).
          rewrite Pos.compare_cont_spec.
          destruct (Pos.compare_spec m 4503599627370496%positive) as [Hc|Hc|Hc];
            [apply (f_equal Z.pos) in Hc
            |apply Pos2Z.pos_lt_pos in Hc
            |apply Pos2Z.pos_lt_pos in Hc];
            cbv beta iota delta [Pos.switch_Eq];
            split; intros; try reflexivity; try discriminate; lia.
        - split; [intros _|reflexivity].
          assert ((0 <=? e) = false) as -> by (apply Z.leb_gt; lia).
          assert (2 ^ 53 <= 2 ^ (- e)) by (apply Z.pow_le_mono_r; lia). lia.
        - split; [discriminate|]. intros Hle. exfalso.
          specialize (Hlo ltac:(lia)).
          destruct (0 <=? e) eqn:He0.
          + apply Z.leb_le in He0.
            assert (0 < 2 ^ e) by (apply Z.pow_pos_nonneg; lia).
            assert (1 < 2 ^ 52) by reflexivity. nia.
          + apply Z.leb_gt in He0.
            assert (2 ^ (- e) < 2 ^ 52) by (apply Z.pow_lt_mono_r; lia). lia. }
      rewrite Hval. split.
      * intros Hle. exists (dyadic m e). split; [reflexivity|]. split; [|exact Hle].
        apply Qlt_le_weak, dyadic_pos.
      * intros (q & Hq & _ & H1). simpl in Hq. injection Hq as <-. exact H1.
Qed.

Lemma validate_skip_rate_test {Ctx Param : Type} (ctx : Ctx) (param : Param) (value : float) :
  validate_skip_rate ctx param value
  = if unit_test (Prim2SF value) then Ok value else Raise BadParameter.
Proof.
  unfold validate_skip_rate, unit_test. rewrite !leb_spec.
  change (Prim2SF 0) with (S754_zero false).
  change (Prim2SF 1) with (S754_finite false 4503599627370496 (-52)).
  destruct (SFleb (S754_zero false) (Prim2SF value) && _); reflexivity.
Qed.

(** C7: [validate_skip_rate] returns its input for every value that is a
    number between 0 and 1, raises [click.BadParameter] for every other
    value (numbers outside the interval, infinities, NaN), and the default
    skip rate is one half, which passes the validation. *)
Theorem validate_skip_rate_spec {Ctx Param : Type} (ctx : Ctx) (param : Param)
  (value : float) :
  (in_unit_interval value -> validate_skip_rate ctx param value = Ok value)
  /\ (~ in_unit_interval value ->
      validate_skip_rate ctx param value = Raise BadParameter)
  /\ (exists q : Q,
        float_value DEFAULT_ALLOWED_SKIP_RATE = Some q /\ (q == (1 # 2))%Q)
  /\ validate_skip_rate ctx param DEFAULT_ALLOWED_SKIP_RATE
     = Ok DEFAULT_ALLOWED_SKIP_RATE.
Proof.
  pose proof (unit_test_correct (Prim2SF value) (Prim2SF_valid value)) as Hc.
  rewrite validate_skip_rate_test. unfold in_unit_interval, float_value.
  repeat split.
  - intros Hin. apply Hc in Hin. rewrite Hin. reflexivity.
  - intros Hout. destruct (unit_test (Prim2SF value)); [|reflexivity].
    exfalso. apply Hout, Hc. reflexivity.
  - eexists. split; [reflexivity|]. vm_compute. reflexivity.
Qed.

(** [validate_skip_rate_spec] at 0.25, at 1.5 and at NaN. *)
Lemma validate_skip_rate_spec_witness :
  validate_skip_rate tt tt 0.25%float = Ok 0.25%float
  /\ validate_skip_rate tt tt 1.5%float = Raise BadParameter
  /\ validate_skip_rate tt tt nan = Raise BadParameter.
Proof.
  split; [|split].
  - apply (validate_skip_rate_spec tt tt 0.25%float).
    eexists. split; [reflexivity|]. split; vm_compute; discriminate.
  - apply (validate_skip_rate_spec tt tt 1.5%float).
    intros (q & Hq & _ & H1). vm_compute in Hq. injection Hq as <-.
    vm_compute in H1. apply H1. reflexivity.
  - apply (validate_skip_rate_spec tt tt nan).
    intros (q & Hq & _). vm_compute in Hq. discriminate.
Defined.

(** ** Text *)

#[local] Arguments String.append !_ _ : simpl nomatch.

Lemma str_app_assoc (s1 s2 s3 : string) : (s1 +:+ s2) +:+ s3 = s1 +:+ s2 +:+ s3.
Proof. induction s1 as [|c s1 IH]; simpl; [reflexivity|]. f_equal. exact IH. Qed.

Lemma str_app_nil_r (s : string) : s +:+ "" = s.
Proof. induction s as [|c s IH]; simpl; [reflexivity|]. f_equal. exact IH. Qed.

Lemma count_app (c : ascii) (s1 s2 : string) :
  Py.count c (s1 +:+ s2) = (Py.count c s1 + Py.count c s2)%nat.
Proof. induction s1 as [|a s1 IH]; simpl; [reflexivity|]. rewrite IH. lia. Qed.

Lemma all_chars_app (p : ascii -> bool) (s1 s2 : string) :
  Py.all_chars p (s1 +:+ s2) = Py.all_chars p s1 && Py.all_chars p s2.
Proof.
  induction s1 as [|a s1 IH]; simpl; [reflexivity|].
  rewrite IH. now rewrite andb_assoc.
Qed.

Lemma all_chars_count (p : ascii -> bool) (c : ascii) (s : string) :
  p c = false -> Py.all_chars p s = true -> Py.count c s = 0%nat.
Proof.
  intros Hc. induction s as [|a s IH]; simpl; [reflexivity|].
  intros Hs. apply andb_prop in Hs as [Ha Hs].
  destruct (Ascii.eqb_spec a c) as [->|_]; [congruence|]. now rewrite IH.
Qed.

Lemma field_chars_uint (u : Decimal.uint) :
  Py.all_chars Py.field_char (NilEmpty.string_of_uint u) = true.
Proof. induction u; simpl; auto. Qed.

Lemma field_chars_str_int (n : Z) :
  Py.all_chars Py.field_char (Py.str_int n) = true.
Proof.
  unfold Py.str_int, NilZero.string_of_int.
  destruct (Z.to_int n) as [u|u]; unfold NilZero.string_of_uint;
    destruct u; simpl; try apply field_chars_uint; reflexivity.
Qed.

Lemma field_chars_hexlify (bs : list byte) :
  Py.all_chars Py.field_char (EthUtils.hexlify bs) = true.
Proof.
  induction bs as [|b bs IH]; [reflexivity|].
  cbn [EthUtils.hexlify].
  rewrite all_chars_app, IH, andb_true_r. destruct b; reflexivity.
Qed.

Lemma field_chars_encode_hex (bs : list byte) :
  Py.all_chars Py.field_char (EthUtils.encode_hex bs) = true.
Proof. unfold EthUtils.encode_hex. simpl. apply field_chars_hexlify. Qed.

Lemma digit_cases (d : Z) :
  0 <= d < 10 ->
  d = 0 \/ d = 1 \/ d = 2 \/ d = 3 \/ d = 4 \/ d = 5 \/ d = 6 \/ d = 7
  \/ d = 8 \/ d = 9.
Proof. lia. Qed.

Lemma field_chars_pad2 (n : Z) : Py.all_chars Py.field_char (Py.pad2 n) = true.
Proof.
  unfold Py.pad2.
  assert (H1 : 0 <= n / 10 mod 10 < 10) by (apply Z.mod_pos_bound; lia).
  assert (H2 : 0 <= n mod 10 < 10) by (apply Z.mod_pos_bound; lia).
  apply digit_cases in H1, H2.
  repeat (destruct H1 as [H1|H1]); rewrite H1;
    repeat (destruct H2 as [H2|H2]); rewrite H2; reflexivity.
Qed.

Lemma field_chars_pad4 (n : Z) : Py.all_chars Py.field_char (Py.pad4 n) = true.
Proof. unfold Py.pad4. now rewrite all_chars_app, !field_chars_pad2. Qed.

Lemma field_chars_pad6 (n : Z) : Py.all_chars Py.field_char (Py.pad6 n) = true.
Proof.
  unfold Py.pad6. now rewrite all_chars_app, field_chars_pad2, field_chars_pad4.
Qed.

Lemma field_chars_datetime (dt : Datetime.datetime) :
  Py.all_chars Py.field_char (Datetime.str dt) = true.
Proof.
  unfold Datetime.str.
  destruct (Datetime.microsecond dt =? 0);
    repeat (rewrite all_chars_app || rewrite field_chars_pad2
            || rewrite field_chars_pad4 || rewrite field_chars_pad6);
    reflexivity.
Qed.

(** ** Dates *)

Lemma ord2ymd_year_range (ordinal : Z) :
  let y := fst (fst (Datetime.ord2ymd ordinal)) in
  (1 <= ordinal <= 3652059 -> 1 <= y <= 9999)
  /\ (ordinal < 1 -> y < 1)
  /\ (3652059 < ordinal -> 9999 < y).
Proof.
  unfold Datetime.ord2ymd, Datetime.DI400Y, Datetime.DI100Y, Datetime.DI4Y.
  cbv zeta.
  set (n0 := ordinal - 1).
  set (n400 := n0 / 146097). set (r400 := n0 mod 146097).
  set (n100 := r400 / 36524). set (r100 := r400 mod 36524).
  set (n4 := r100 / 1461). set (r4 := r100 mod 1461).
  set (n1 := r4 / 365). set (r1 := r4 mod 365).
  assert (H400 : n0 = 146097 * n400 + r400 /\ 0 <= r400 < 146097)
    by (subst n400 r400; split; [apply Z.div_mod; lia | apply Z.mod_pos_bound; lia]).
  assert (H100 : r400 = 36524 * n100 + r100 /\ 0 <= r100 < 36524)
    by (subst n100 r100; split; [apply Z.div_mod; lia | apply Z.mod_pos_bound; lia]).
  assert (H4 : r100 = 1461 * n4 + r4 /\ 0 <= r4 < 1461)
    by (subst n4 r4; split; [apply Z.div_mod; lia | apply Z.mod_pos_bound; lia]).
  assert (H1 : r4 = 365 * n1 + r1 /\ 0 <= r1 < 365)
    by (subst n1 r1; split; [apply Z.div_mod; lia | apply Z.mod_pos_bound; lia]).
  clearbody n400 r400 n100 r100 n4 r4 n1 r1. subst n0.
  destruct ((n1 =? 4) || (n100 =? 4)) eqn:Hs.
  - simpl. apply orb_true_iff in Hs. rewrite !Z.eqb_eq in Hs. lia.
  - apply orb_false_iff in Hs. rewrite !Z.eqb_neq in Hs.
    match goal with |- context [if ?c then _ else _] => destruct c end; simpl; lia.
Qed.

(** The years [gmtime] can return, by ordinal. *)
Lemma ord2ymd_tm_year_range (ordinal : Z) :
  let y := fst (fst (Datetime.ord2ymd ordinal)) in
  (-784351602709 <= ordinal <= 784352989899 ->
   -2147481748 <= y <= 2147485547)
  /\ (ordinal < -784351602709 -> y < -2147481748)
  /\ (784352989899 < ordinal -> 2147485547 < y).
Proof.
  unfold Datetime.ord2ymd, Datetime.DI400Y, Datetime.DI100Y, Datetime.DI4Y.
  cbv zeta.
  set (n0 := ordinal - 1).
  set (n400 := n0 / 146097). set (r400 := n0 mod 146097).
  set (n100 := r400 / 36524). set (r100 := r400 mod 36524).
  set (n4 := r100 / 1461). set (r4 := r100 mod 1461).
  set (n1 := r4 / 365). set (r1 := r4 mod 365).
  assert (H400 : n0 = 146097 * n400 + r400 /\ 0 <= r400 < 146097)
    by (subst n400 r400; split;
        [apply Z.div_mod; lia | apply Z.mod_pos_bound; lia]).
  assert (H100 : r400 = 36524 * n100 + r100 /\ 0 <= r100 < 36524)
    by (subst n100 r100; split;
        [apply Z.div_mod; lia | apply Z.mod_pos_bound; lia]).
  assert (H4 : r100 = 1461 * n4 + r4 /\ 0 <= r4 < 1461)
    by (subst n4 r4; split;
        [apply Z.div_mod; lia | apply Z.mod_pos_bound; lia]).
  assert (H1 : r4 = 365 * n1 + r1 /\ 0 <= r1 < 365)
    by (subst n1 r1; split;
        [apply Z.div_mod; lia | apply Z.mod_pos_bound; lia]).
  clearbody n400 r400 n100 r100 n4 r4 n1 r1. subst n0.
  destruct ((n1 =? 4) || (n100 =? 4)) eqn:Hs.
  - simpl. apply orb_true_iff in Hs. rewrite !Z.eqb_eq in Hs. lia.
  - apply orb_false_iff in Hs. rewrite !Z.eqb_neq in Hs.
    match goal with |- context [if ?c then _ else _] => destruct c end;
      simpl; lia.
Qed.

(** The three tests of [utcfromtimestamp], by timestamp. *)
Lemma utcfromtimestamp_tests (t : Z) :
  match Datetime.ord2ymd (t / 86400 + Datetime.EPOCH_ORDINAL) with
  | (y, _, _) =>
      ((y - 1900 <? Datetime.TM_YEAR_MIN) || (Datetime.TM_YEAR_MAX <? y - 1900)
       = (t <? Datetime.GMTIME_MIN_TIMESTAMP)
         || (Datetime.GMTIME_MAX_TIMESTAMP <? t))
      /\ ((Datetime.MINYEAR <=? y) && (y <=? Datetime.MAXYEAR)
          = (Datetime.MIN_TIMESTAMP <=? t) && (t <=? Datetime.MAX_TIMESTAMP))
  end.
Proof.
  unfold Datetime.EPOCH_ORDINAL, Datetime.TM_YEAR_MIN, Datetime.TM_YEAR_MAX,
    Datetime.GMTIME_MIN_TIMESTAMP, Datetime.GMTIME_MAX_TIMESTAMP,
    Datetime.MIN_TIMESTAMP, Datetime.MAX_TIMESTAMP, Datetime.MINYEAR,
    Datetime.MAXYEAR.
  pose proof (ord2ymd_year_range (t / 86400 + 719163)) as (Hin & Hlo & Hhi).
  pose proof (ord2ymd_tm_year_range (t / 86400 + 719163))
    as (Gin & Glo & Ghi).
  destruct (Datetime.ord2ymd (t / 86400 + 719163)) as [[y m] d].
  cbn [fst] in *.
  pose proof (Z.div_mod t 86400 ltac:(lia)) as Hdm.
  pose proof (Z.mod_pos_bound t 86400 ltac:(lia)) as Hmod.
  set (q := t / 86400) in *. set (r := t mod 86400) in *. clearbody q r.
  change (- 2 ^ 31) with (-2147483648). change (2 ^ 31 - 1) with 2147483647.
  split.
  - destruct (Z.ltb_spec (y - 1900) (-2147483648)),
      (Z.ltb_spec 2147483647 (y - 1900)),
      (Z.ltb_spec t (-67768040609740800)),
      (Z.ltb_spec 67768036191676799 t); cbn [orb]; try reflexivity;
      exfalso; lia.
  - destruct (Z.leb_spec 1 y), (Z.leb_spec y 9999),
      (Z.leb_spec (-62135596800) t), (Z.leb_spec t 253402300799);
      cbn [andb]; try reflexivity; exfalso; lia.
Qed.

Lemma utcfromtimestamp_in_range (t : Z) :
  Datetime.MIN_TIMESTAMP <= t <= Datetime.MAX_TIMESTAMP ->
  exists dt, Datetime.utcfromtimestamp t = Ok dt /\ Datetime.microsecond dt = 0.
Proof.
  intros Ht. unfold Datetime.utcfromtimestamp.
  pose proof (utcfromtimestamp_tests t) as Htests.
  destruct (Datetime.ord2ymd (t / 86400 + Datetime.EPOCH_ORDINAL))
    as [[y m] d].
  destruct Htests as [-> ->].
  unfold Datetime.MIN_TIMESTAMP, Datetime.MAX_TIMESTAMP,
    Datetime.GMTIME_MIN_TIMESTAMP, Datetime.GMTIME_MAX_TIMESTAMP,
    Datetime.TIME_T_MIN, Datetime.TIME_T_MAX in *.
  change (- 2 ^ 63) with (-9223372036854775808).
  change (2 ^ 63 - 1) with 9223372036854775807.
  destruct (Z.ltb_spec t (-9223372036854775808)); [lia|].
  destruct (Z.ltb_spec 9223372036854775807 t); [lia|].
  destruct (Z.ltb_spec t (-67768040609740800)); [lia|].
  destruct (Z.ltb_spec 67768036191676799 t); [lia|].
  destruct (Z.leb_spec (-62135596800) t); [|lia].
  destruct (Z.leb_spec t 253402300799); [|lia].
  cbn [orb andb]. eexists. split; reflexivity.
Qed.

(** Outside the years 1 to 9999 [utcfromtimestamp] raises, and the
    place of the timestamp tells the exception. *)
Lemma utcfromtimestamp_out_of_range (t : Z) :
  t < Datetime.MIN_TIMESTAMP \/ Datetime.MAX_TIMESTAMP < t ->
  Datetime.utcfromtimestamp t = Raise (utcfromtimestamp_error t).
Proof.
  intros Ht. unfold Datetime.utcfromtimestamp, utcfromtimestamp_error.
  destruct ((t <? Datetime.TIME_T_MIN) || (Datetime.TIME_T_MAX <? t));
    [reflexivity|].
  pose proof (utcfromtimestamp_tests t) as Htests.
  destruct (Datetime.ord2ymd (t / 86400 + Datetime.EPOCH_ORDINAL))
    as [[y m] d].
  destruct Htests as [-> ->].
  destruct ((t <? Datetime.GMTIME_MIN_TIMESTAMP)
            || (Datetime.GMTIME_MAX_TIMESTAMP <? t)); [reflexivity|].
  unfold Datetime.MIN_TIMESTAMP, Datetime.MAX_TIMESTAMP in *.
  destruct (Z.leb_spec (-62135596800) t), (Z.leb_spec t 253402300799);
    cbn [andb]; try reflexivity; lia.
Qed.

(** The calendar: [ord2ymd] and [ymd2ord] are inverse to each other. *)

Lemma days_before_year_blocks (n400 n100 n4 n1 : Z) :
  0 <= n100 <= 3 -> 0 <= n4 <= 24 -> 0 <= n1 <= 3 ->
  Datetime.days_before_year (n400 * 400 + 1 + n100 * 100 + n4 * 4 + n1)
  = 146097 * n400 + 36524 * n100 + 1461 * n4 + 365 * n1.
Proof.
  intros H100 H4 H1. unfold Datetime.days_before_year. cbv zeta.
  Z.div_mod_to_equations. lia.
Qed.

Lemma is_leap_blocks (n400 n100 n4 n1 : Z) :
  0 <= n100 <= 3 -> 0 <= n4 <= 24 -> 0 <= n1 <= 3 ->
  Datetime.is_leap (n400 * 400 + 1 + n100 * 100 + n4 * 4 + n1)
  = (n1 =? 3) && (negb (n4 =? 24) || (n100 =? 3)).
Proof.
  intros H100 H4 H1. unfold Datetime.is_leap.
  set (y := n400 * 400 + 1 + n100 * 100 + n4 * 4 + n1).
  assert (Hm4 : y mod 4 = (1 + n1) mod 4)
    by (subst y; Z.div_mod_to_equations; lia).
  assert (Hm100 : y mod 100 = (1 + n4 * 4 + n1) mod 100)
    by (subst y; Z.div_mod_to_equations; lia).
  assert (Hm400 : y mod 400 = (1 + n100 * 100 + n4 * 4 + n1) mod 400)
    by (subst y; Z.div_mod_to_equations; lia).
  rewrite Hm4, Hm100, Hm400.
  destruct (Z.eqb_spec n1 3) as [->|Hn1].
  - change ((1 + 3) mod 4 =? 0) with true. cbn [andb].
    destruct (Z.eqb_spec n4 24) as [->|Hn4].
    + change ((1 + 24 * 4 + 3) mod 100 =? 0) with true. cbn [negb orb].
      destruct (Z.eqb_spec n100 3) as [->|Hn100]; [reflexivity|].
      apply Z.eqb_neq. Z.div_mod_to_equations. lia.
    + cbn [negb orb].
      assert (((1 + n4 * 4 + 3) mod 100 =? 0) = false) as ->
        by (apply Z.eqb_neq; Z.div_mod_to_equations; lia).
      reflexivity.
  - cbn [andb].
    assert (((1 + n1) mod 4 =? 0) = false) as ->
      by (apply Z.eqb_neq; Z.div_mod_to_equations; lia).
    reflexivity.
Qed.

Lemma ymd2ord_ord2ymd (ordinal : Z) :
  match Datetime.ord2ymd ordinal with
  | (y, m, d) =>
      Datetime.ymd2ord y m d = ordinal /\ 1 <= m <= 12 /\ 1 <= d <= 31
  end.
Proof.
  unfold Datetime.ord2ymd, Datetime.DI400Y, Datetime.DI100Y, Datetime.DI4Y.
  cbv zeta.
  set (n0 := ordinal - 1).
  set (n400 := n0 / 146097). set (r400 := n0 mod 146097).
  set (n100 := r400 / 36524). set (r100 := r400 mod 36524).
  set (n4 := r100 / 1461). set (r4 := r100 mod 1461).
  set (n1 := r4 / 365). set (r1 := r4 mod 365).
  assert (H400 : n0 = 146097 * n400 + r400 /\ 0 <= r400 < 146097)
    by (subst n400 r400; split; [apply Z.div_mod; lia | apply Z.mod_pos_bound; lia]).
  assert (H100 : r400 = 36524 * n100 + r100 /\ 0 <= r100 < 36524)
    by (subst n100 r100; split; [apply Z.div_mod; lia | apply Z.mod_pos_bound; lia]).
  assert (H4 : r100 = 1461 * n4 + r4 /\ 0 <= r4 < 1461)
    by (subst n4 r4; split; [apply Z.div_mod; lia | apply Z.mod_pos_bound; lia]).
  assert (H1 : r4 = 365 * n1 + r1 /\ 0 <= r1 < 365)
    by (subst n1 r1; split; [apply Z.div_mod; lia | apply Z.mod_pos_bound; lia]).
  clearbody n400 r400 n100 r100 n4 r4 n1 r1.
  assert (Hord : ordinal = n0 + 1) by (subst n0; lia). clearbody n0.
  destruct ((n1 =? 4) || (n100 =? 4)) eqn:Hs.
  - apply orb_true_iff in Hs. rewrite !Z.eqb_eq in Hs.
    split; [|lia]. unfold Datetime.ymd2ord, Datetime.days_before_month.
    cbn [Datetime.DAYS_BEFORE_MONTH]. change (2 <? 12) with true. cbn [andb].
    destruct Hs as [Hs|Hs].
    + (* the last day of a leap year that ends a four-year block *)
      assert (n1 = 4 /\ r1 = 0 /\ 0 <= n4 <= 24 /\ 0 <= n100 <= 3) as (-> & -> & Hn4 & Hn100) by lia.
      replace (n400 * 400 + 1 + n100 * 100 + n4 * 4 + 4 - 1)
        with (n400 * 400 + 1 + n100 * 100 + n4 * 4 + 3) by lia.
      rewrite days_before_year_blocks, is_leap_blocks by lia.
      change (3 =? 3) with true. cbn [andb].
      destruct (Z.eqb_spec n4 24) as [->|Hn]; cbn [negb orb Datetime.b2z].
      * destruct (Z.eqb_spec n100 3) as [->|Hn']; cbn [Datetime.b2z]; lia.
      * lia.
    + assert (n100 = 4 /\ r100 = 0 /\ n4 = 0 /\ r4 = 0 /\ n1 = 0 /\ r1 = 0)
        as (-> & -> & -> & -> & -> & ->) by lia.
      replace (n400 * 400 + 1 + 4 * 100 + 0 * 4 + 0 - 1)
        with (n400 * 400 + 1 + 3 * 100 + 24 * 4 + 3) by lia.
      rewrite days_before_year_blocks, is_leap_blocks by lia.
      cbn. lia.
  - apply orb_false_iff in Hs. rewrite !Z.eqb_neq in Hs. destruct Hs as [Hs1 Hs100].
    assert (Hb : 0 <= n100 <= 3 /\ 0 <= n4 <= 24 /\ 0 <= n1 <= 3) by lia.
    set (leapyear := (n1 =? 3) && (negb (n4 =? 24) || (n100 =? 3))).
    set (y := n400 * 400 + 1 + n100 * 100 + n4 * 4 + n1).
    assert (Hdby : Datetime.days_before_year y
                   = 146097 * n400 + 36524 * n100 + 1461 * n4 + 365 * n1)
      by (apply days_before_year_blocks; lia).
    assert (Hleap : Datetime.is_leap y = leapyear)
      by (apply is_leap_blocks; lia).
    assert (Hm : 1 <= (r1 + 50) / 32 <= 12)
      by (Z.div_mod_to_equations; lia).
    assert (Hmr : 32 * ((r1 + 50) / 32) <= r1 + 50 < 32 * ((r1 + 50) / 32) + 32)
      by (Z.div_mod_to_equations; lia).
    set (m := (r1 + 50) / 32) in *. clearbody m.
    assert (Hcases : m = 1 \/ m = 2 \/ m = 3 \/ m = 4 \/ m = 5 \/ m = 6 \/ m = 7
                     \/ m = 8 \/ m = 9 \/ m = 10 \/ m = 11 \/ m = 12) by lia.
    clearbody y.
    destruct leapyear;
      repeat (destruct Hcases as [Hcases|Hcases]); subst m;
      cbn [Datetime.DAYS_BEFORE_MONTH Datetime.DAYS_IN_MONTH Datetime.b2z
           Z.ltb Z.eqb Z.compare Pos.compare Pos.eqb
           Pos.compare_cont andb orb Z.add Z.sub Z.opp Pos.add Pos.succ
           Z.pos_sub Pos.pred_double Z.succ_double Z.pred_double Z.double
           Pos.add_carry];
      match goal with |- context [if ?c then _ else _] =>
        destruct c eqn:Hc; [apply Z.ltb_lt in Hc|apply Z.ltb_ge in Hc] end;
      unfold Datetime.ymd2ord, Datetime.days_before_month;
      rewrite Hdby, Hleap;
      repeat match goal with
             | |- context [Z.pos ?p - 1] =>
                 let v := eval vm_compute in (Z.pos p - 1) in
                 change (Z.pos p - 1) with v
             end;
      cbn [Datetime.DAYS_BEFORE_MONTH Datetime.DAYS_IN_MONTH Datetime.b2z
           Z.ltb Z.eqb Z.compare Pos.compare Pos.eqb
           Pos.compare_cont andb orb];
      lia.
Qed.

(** [utcfromtimestamp] gives the date and time of the timestamp: a
    well-formed [datetime] whose seconds since the epoch are [t]. *)
Lemma utcfromtimestamp_timestamp (t : Z) (dt : Datetime.datetime) :
  Datetime.utcfromtimestamp t = Ok dt ->
  Datetime.timestamp dt = t /\ Datetime.wf dt.
Proof.
  unfold Datetime.utcfromtimestamp, Datetime.EPOCH_ORDINAL.
  destruct ((t <? Datetime.TIME_T_MIN) || (Datetime.TIME_T_MAX <? t));
    [discriminate|].
  pose proof (ymd2ord_ord2ymd (t / 86400 + 719163)) as Hord.
  destruct (Datetime.ord2ymd (t / 86400 + 719163)) as [[y m] d].
  destruct Hord as (Hord & Hm & Hd).
  destruct ((y - 1900 <? Datetime.TM_YEAR_MIN)
            || (Datetime.TM_YEAR_MAX <? y - 1900)); [discriminate|].
  destruct ((Datetime.MINYEAR <=? y) && (y <=? Datetime.MAXYEAR)) eqn:Hy;
    [|discriminate].
  intros [= <-]. apply andb_prop in Hy as [Hy1 Hy2].
  apply Z.leb_le in Hy1, Hy2.
  unfold Datetime.timestamp, Datetime.wf, Datetime.EPOCH_ORDINAL.
  cbn [Datetime.year Datetime.month Datetime.day Datetime.hour
       Datetime.minute Datetime.second Datetime.microsecond].
  rewrite Hord.
  pose proof (Z.div_mod t 86400 ltac:(lia)) as Ht.
  pose proof (Z.mod_pos_bound t 86400 ltac:(lia)) as Hs.
  set (s := t mod 86400) in *. set (q := t / 86400) in *. clearbody s q.
  split; [|repeat split; try assumption; try lia;
           Z.div_mod_to_equations; lia].
  Z.div_mod_to_equations. lia.
Qed.

(** ** The skip file *)

(** C4 (as amended): for every skipped-proposal event whose timestamp
    [step * 5] is one that [datetime.utcfromtimestamp] accepts (the years 1
    to 9999), [skip_logger] appends to the skip file exactly one line
    [step,validator_hex,utc_time] and a newline: the three fields contain
    neither a comma nor a newline, [validator_hex] is the hex encoding of
    the validator address and [utc_time] is the UTC date and time of the
    timestamp [step_number_to_timestamp step = step * STEP_DURATION], with
    [STEP_DURATION = 5].  For every step outside that range the conversion
    raises, [skip_logger] raises the same exception and nothing is
    written; the exception is the one that goes with the place of the
    timestamp. *)
Theorem skip_logger_appends_one_line (validator : list byte)
  (skipped_proposal : SkippedProposal.t) (self : Sinks) :
  let step := SkippedProposal.step skipped_proposal in
  (Datetime.MIN_TIMESTAMP <= step * 5 <= Datetime.MAX_TIMESTAMP ->
   exists dt : Datetime.datetime,
     step_number_to_timestamp step = step * 5
     /\ STEP_DURATION = 5
     /\ Datetime.utcfromtimestamp (step_number_to_timestamp step) = Ok dt
     /\ Datetime.timestamp dt = step * 5
     /\ Datetime.wf dt
     /\ let line :=
          Py.str_int step +:+ "," +:+ EthUtils.encode_hex validator +:+ ","
          +:+ Datetime.str dt in
        skip_logger validator skipped_proposal self
        = Ok (mk_Sinks (skip_file self +:+ line +:+ Py.newline)
                (report_dir self))
        /\ Py.count Py.LF line = 0%nat
        /\ Py.count "," line = 2%nat
        /\ Py.count "," (Py.str_int step) = 0%nat
        /\ Py.count "," (EthUtils.encode_hex validator) = 0%nat
        /\ Py.count "," (Datetime.str dt) = 0%nat)
  /\ (step * 5 < Datetime.MIN_TIMESTAMP \/ Datetime.MAX_TIMESTAMP < step * 5 ->
      Datetime.utcfromtimestamp (step_number_to_timestamp step)
      = Raise (utcfromtimestamp_error (step * 5))
      /\ skip_logger validator skipped_proposal self
         = Raise (utcfromtimestamp_error (step * 5))).
Proof.
  intros step. split; [intros Hrange|intros Hout].
  2:{ unfold skip_logger. fold step.
      unfold step_number_to_timestamp, STEP_DURATION.
      rewrite (utcfromtimestamp_out_of_range _ Hout). split; reflexivity. }
  destruct (utcfromtimestamp_in_range (step * 5) Hrange) as (dt & Hdt & _).
  exists dt. split; [reflexivity|]. split; [reflexivity|].
  split; [exact Hdt|].
  destruct (utcfromtimestamp_timestamp _ _ Hdt) as [Hts Hwf].
  split; [exact Hts|]. split; [exact Hwf|]. cbv zeta.
  assert (Hc : forall c s, Py.field_char c = false ->
                 Py.all_chars Py.field_char s = true -> Py.count c s = 0%nat)
    by (intros c s; apply all_chars_count).
  pose proof (Hc Py.LF _ eq_refl (field_chars_str_int step)) as L1.
  pose proof (Hc Py.LF _ eq_refl (field_chars_encode_hex validator)) as L2.
  pose proof (Hc Py.LF _ eq_refl (field_chars_datetime dt)) as L3.
  pose proof (Hc ","%char _ eq_refl (field_chars_str_int step)) as C1.
  pose proof (Hc ","%char _ eq_refl (field_chars_encode_hex validator)) as C2.
  pose proof (Hc ","%char _ eq_refl (field_chars_datetime dt)) as C3.
  split.
  { unfold skip_logger. fold step. unfold step_number_to_timestamp in *.
    unfold STEP_DURATION. rewrite Hdt. cbn [rbind].
    rewrite !str_app_assoc. reflexivity. }
  rewrite !count_app, L1, L2, L3, C1, C2, C3. repeat split; reflexivity.
Qed.

(** [skip_logger_appends_one_line] at step 314574179. *)
Lemma skip_logger_appends_one_line_witness :
  exists dt : Datetime.datetime,
    Datetime.utcfromtimestamp (314574179 * 5) = Ok dt
    /\ skip_logger [x12; xab] (SkippedProposal.mk 314574179) Demo.sinks
       = Ok (mk_Sinks
               ("" +:+ (Py.str_int 314574179 +:+ "," +:+ "0x12ab" +:+ ","
                        +:+ Datetime.str dt) +:+ Py.newline) ∅).
Proof.
  destruct (proj1 (skip_logger_appends_one_line [x12; xab]
                     (SkippedProposal.mk 314574179) Demo.sinks))
    as (dt & _ & _ & Hdt & _ & _ & Hlog & _).
  - vm_compute. split; discriminate.
  - exists dt. split; [exact Hdt | exact Hlog].
Defined.

(** A step whose timestamp falls into the year 10000: the conversion
    raises and nothing is written. *)
Lemma skip_logger_raises_in_year_10000 :
  step_number_to_timestamp 50680460160 = 253402300800
  /\ skip_logger [x12; xab] (SkippedProposal.mk 50680460160) Demo.sinks
     = Raise ValueError.
Proof. split; vm_compute; reflexivity. Qed.

(** ** Offline reports *)








(** ** Equivocation reports *)


Lemma format_equivocation_report
  (proposer_address block_step detection_time summary rlp_one signature_one
     rlp_two signature_two : string) :
  Format.format EQUIVOCATION_REPORT_TEMPLATE
    [("proposer_address", proposer_address);
     ("block_step", block_step);
     ("detection_time", detection_time);
     ("block_hash_timestamp_summary", summary);
     ("rlp_encoded_block_header_one", rlp_one);
     ("signature_block_header_one", signature_one);
     ("rlp_encoded_block_header_two", rlp_two);
     ("signature_block_header_two", signature_two)]
  = Ok (equivocation_report proposer_address block_step detection_time
          summary rlp_one signature_one rlp_two signature_two).
Proof. vm_compute. reflexivity. Qed.

Section Equivocation.
Context `{ChainAccess}.



Lemma equivocation_logger_asserts (utcnow : Datetime.datetime)
  (equivocated_block_hashes : list (list byte)) (self : Sinks) :
  (length equivocated_block_hashes < 2)%nat ->
  equivocation_logger utcnow equivocated_block_hashes self
  = Raise AssertionError.
Proof.
  intros Hlen. unfold equivocation_logger.
  assert ((2 <=? Z.of_nat (length equivocated_block_hashes)) = false) as ->
    by (apply Z.leb_gt; lia).
  reflexivity.
Qed.

End Equivocation.



(** ** The fetch cycle *)

Section CycleProperties.
Context `{Collaborators}.

Lemma run_bind {A B : Type} (m : M A) (k : A -> M B) (self : App) :
  (m ≫= k) self
  = match m self with
    | (Ok a, self') => k a self'
    | (Raise e, self') => (Raise e, self')
    end.
Proof. reflexivity. Qed.

Lemma keeps_flags_ret {A : Type} (a : A) : keeps_flags (mret a).
Proof. intros self. reflexivity. Qed.

Lemma keeps_flags_raise {A : Type} (e : exn) : keeps_flags (@raise _ _ A e).
Proof. intros self. reflexivity. Qed.

Lemma keeps_flags_lift {A : Type} (r : result A) : keeps_flags (lift r).
Proof. destruct r; intros self; reflexivity. Qed.

Lemma keeps_flags_get : keeps_flags get.
Proof. intros self. reflexivity. Qed.

Lemma keeps_flags_bind {A B : Type} (m : M A) (k : A -> M B) :
  keeps_flags m -> (forall a, keeps_flags (k a)) -> keeps_flags (m ≫= k).
Proof.
  intros Hm Hk self. unfold mbind, M_bind, bind.
  specialize (Hm self). destruct (m self) as [[a|e] self'];
    cbn [snd] in *; [rewrite Hk|]; exact Hm.
Qed.

Lemma keeps_flags_finally {A : Type} (body : M A) (cleanup : M unit) :
  keeps_flags body -> keeps_flags cleanup -> keeps_flags (finally body cleanup).
Proof.
  intros Hb Hc self. unfold finally. specialize (Hb self).
  destruct (body self) as [r self']. cbn [snd] in *. now rewrite Hc.
Qed.

Lemma keeps_flags_for_each {A : Type} (xs : list A) (body : A -> M unit) :
  (forall x, keeps_flags (body x)) -> keeps_flags (for_each xs body).
Proof.
  intros Hb. induction xs as [|x xs IH]; cbn [for_each].
  - apply (keeps_flags_ret tt).
  - apply keeps_flags_bind; auto.
Qed.

Lemma keeps_flags_emit (ev : event) : keeps_flags (emit ev).
Proof. intros self. reflexivity. Qed.

Lemma keeps_flags_set_epoch_fetcher ef : keeps_flags (set_epoch_fetcher ef).
Proof. intros self. reflexivity. Qed.

Lemma keeps_flags_set_primary_oracle po : keeps_flags (set_primary_oracle po).
Proof. intros self. reflexivity. Qed.

Lemma keeps_flags_set_db d : keeps_flags (set_db d).
Proof. intros self. reflexivity. Qed.

Lemma keeps_flags_set_pipeline d bf sr ofr :
  keeps_flags (set_pipeline d bf sr ofr).
Proof. intros self. reflexivity. Qed.

Create HintDb flags discriminated.
#[local] Hint Resolve keeps_flags_ret keeps_flags_raise keeps_flags_lift
  keeps_flags_get keeps_flags_finally keeps_flags_for_each keeps_flags_emit
  keeps_flags_set_epoch_fetcher keeps_flags_set_primary_oracle
  keeps_flags_set_db keeps_flags_set_pipeline : flags.

Ltac flags_step :=
  first [ apply keeps_flags_bind; [|intros ?]
        | apply keeps_flags_finally
        | apply keeps_flags_for_each; intros ?
        | solve [auto with flags] ].

Ltac flags_auto := repeat flags_step.

Lemma keeps_flags_update_epochs : keeps_flags _update_epochs.
Proof.
  unfold _update_epochs, call_fetch_new_epochs, call_add_epoch. flags_auto.
Qed.

Lemma keeps_flags_session :
  keeps_flags
    (with_persistent_session
       (self ← get;
        number_of_new_blocks ←
          call_fetch_and_insert_new_blocks 500
            (last_fetch_height (epoch_fetcher self));
        self ← get;
        call_store_pickled APP_STATE_KEY (app_state self);;
        emit EvSkipFileFlush;;
        call_commit;;
        mret number_of_new_blocks)).
Proof.
  unfold with_persistent_session, call_fetch_and_insert_new_blocks,
    call_store_pickled, call_commit.
  flags_auto.
Qed.

(** The cycle up to the chain-spec check. *)
Lemma run_cycle_split (file : result ChainSpec) (self : App) :
  (exists (e : exn) (self' : App),
     _run_cycle file self = (Raise e, self') /\ flags self' = flags self)
  \/ (exists mid : App,
        flags mid = flags self
        /\ _run_cycle file self = _check_chain_spec file mid).
Proof.
  unfold _run_cycle. rewrite run_bind.
  pose proof (keeps_flags_update_epochs self) as H1.
  destruct (_update_epochs self) as [[[]|e] s1]; cbn [snd] in H1;
    [|left; eauto].
  rewrite run_bind.
  pose proof (keeps_flags_session s1) as H2.
  match goal with |- context [with_persistent_session ?b s1] =>
    destruct (with_persistent_session b s1) as [[n|e] s2] end;
    cbn [snd] in H2; [|left; exists e, s2; split; congruence].
  rewrite run_bind. cbn [get]. rewrite run_bind.
  cbn [log_info emit modify]. rewrite run_bind.
  destruct (n =? 0); cbn [emit modify mret M_ret ret];
    right; eexists; (split; [|reflexivity]);
    unfold flags in *; cbn; congruence.
Qed.

Lemma check_chain_spec_unwatched (file : result ChainSpec) (self : App) :
  watch_chain_spec self = false ->
  _check_chain_spec file self = (Ok tt, self).
Proof.
  intros Hw. unfold _check_chain_spec, mbind, M_bind, bind. cbn [get].
  rewrite Hw. reflexivity.
Qed.

Lemma check_chain_spec_changed (file : result ChainSpec) (self : App) :
  watch_chain_spec self = true ->
  (file = Raise JSONDecodeError
   \/ exists chain_spec, file = Ok chain_spec
        /\ chain_spec_ne chain_spec (original_chain_spec self) = true) ->
  _check_chain_spec file self
  = (Ok tt,
     with_running false
       (add_events
          [EvReadChainSpec; EvLogInfo "Chain spec file has changed.";
           EvLogInfo
             "Stopping tlbc-monitor. This may take a long time, please be patient!"]
          self)).
Proof.
  intros Hw Hfile. unfold _check_chain_spec, mbind, M_bind, bind. cbn [get].
  rewrite Hw. cbn [negb emit modify].
  destruct Hfile as [->|(cs & -> & Hne)];
    cbn [mret M_ret ret original_chain_spec add_events]; try rewrite Hne;
    unfold stop, log_info, set_running, emit, modify, mbind, M_bind, bind;
    unfold with_running, add_events; cbn; rewrite <- !List.app_assoc; reflexivity.
Qed.

Lemma check_chain_spec_same (chain_spec : ChainSpec) (self : App) :
  watch_chain_spec self = true ->
  chain_spec_ne chain_spec (original_chain_spec self) = false ->
  _check_chain_spec (Ok chain_spec) self
  = (Ok tt, add_events [EvReadChainSpec] self).
Proof.
  intros Hw Hne. unfold _check_chain_spec, mbind, M_bind, bind. cbn [get].
  rewrite Hw. cbn [negb emit modify mret M_ret ret original_chain_spec add_events].
  rewrite Hne. reflexivity.
Qed.

Lemma run_loop_stopped (files : list (result ChainSpec)) (self : App) :
  _running self = false -> run_loop files self = (LoopStopped, 0%nat, self).
Proof. intros Hr. destruct files; cbn [run_loop]; rewrite Hr; reflexivity. Qed.

Lemma run_loop_cycle (file : result ChainSpec)
  (rest : list (result ChainSpec)) (self : App) :
  _running self = true ->
  run_loop (file :: rest) self
  = match _run_cycle file self with
    | (Raise e, self') => (LoopRaised e, 1%nat, self')
    | (Ok _, self') =>
        match run_loop rest self' with
        | (how, n, self'') => (how, S n, self'')
        end
    end.
Proof. intros Hr. cbn [run_loop]. rewrite Hr. reflexivity. Qed.

(** A cycle that ends with the flag cleared is the last one. *)
Lemma run_loop_last_cycle (file : result ChainSpec)
  (rest : list (result ChainSpec)) (self : App) :
  _running self = true ->
  (fst (_run_cycle file self) = Ok tt ->
   _running (snd (_run_cycle file self)) = false) ->
  exists how : loop_end,
    run_loop (file :: rest) self = (how, 1%nat, snd (_run_cycle file self))
    /\ how <> LoopStillRunning
    /\ (fst (_run_cycle file self) = Ok tt -> how = LoopStopped).
Proof.
  intros Hr Hstop. rewrite run_loop_cycle by exact Hr.
  destruct (_run_cycle file self) as [[[]|e] self']; cbn [fst snd] in *.
  - rewrite run_loop_stopped by auto. exists LoopStopped. repeat split.
    discriminate.
  - exists (LoopRaised e). repeat split; discriminate.
Qed.

(** A cycle that detects a change of the chain spec clears the flag. *)
Lemma run_cycle_chain_spec_changed (file : result ChainSpec) (self : App) :
  watch_chain_spec self = true ->
  (file = Raise JSONDecodeError
   \/ exists chain_spec, file = Ok chain_spec
        /\ chain_spec_ne chain_spec (original_chain_spec self) = true) ->
  fst (_run_cycle file self) = Ok tt ->
  _running (snd (_run_cycle file self)) = false.
Proof.
  intros Hw Hfile Hok.
  destruct (run_cycle_split file self) as [(e & s & Heq & _)|(mid & Hfl & Heq)];
    rewrite Heq in *; [discriminate|].
  unfold flags in Hfl. injection Hfl as Hw' Ho' Hr'.
  rewrite check_chain_spec_changed; [reflexivity|congruence|].
  rewrite Ho'. exact Hfile.
Qed.

(** A cycle that finds the chain spec unchanged, or does not watch it,
    leaves the flag as it is. *)
Lemma run_cycle_chain_spec_same (file : result ChainSpec) (self : App) :
  (watch_chain_spec self = false
   \/ exists chain_spec, file = Ok chain_spec
        /\ chain_spec_ne chain_spec (original_chain_spec self) = false) ->
  _running (snd (_run_cycle file self)) = _running self.
Proof.
  intros Hfile.
  destruct (run_cycle_split file self) as [(e & s & Heq & Hfl)|(mid & Hfl & Heq)];
    rewrite Heq; unfold flags in Hfl; injection Hfl as Hw' Ho' Hr';
    [exact Hr'|].
  destruct (watch_chain_spec mid) eqn:Hwm.
  - destruct Hfile as [Hw|(cs & -> & Hne)]; [congruence|].
    rewrite check_chain_spec_same; [exact Hr'|exact Hwm|congruence].
  - rewrite check_chain_spec_unwatched by exact Hwm. exact Hr'.
Qed.

(** C8: when the chain spec is watched and the content read again at
    the end of a cycle differs from the content read at startup,
    [_check_chain_spec] calls [stop], which clears [_running], so that
    the main loop runs no further cycle after the current one; when the
    content read again equals the original, or when the chain spec is not
    watched, the flag is left as it is and the loop goes on with the next
    cycle. *)
Theorem chain_spec_watch_stops_on_change (file : result ChainSpec)
  (rest : list (result ChainSpec)) (self : App) :
  (* the re-read content differs *)
  (watch_chain_spec self = true ->
   forall chain_spec : ChainSpec,
     file = Ok chain_spec ->
     chain_spec_ne chain_spec (original_chain_spec self) = true ->
     fst (_check_chain_spec file self) = Ok tt
     /\ _running (snd (_check_chain_spec file self)) = false
     /\ (fst (_run_cycle file self) = Ok tt ->
         _running (snd (_run_cycle file self)) = false)
     /\ (_running self = true ->
         exists how : loop_end,
           run_loop (file :: rest) self
           = (how, 1%nat, snd (_run_cycle file self))
           /\ how <> LoopStillRunning
           /\ (fst (_run_cycle file self) = Ok tt -> how = LoopStopped)))
  (* the re-read content is the original one *)
  /\ (watch_chain_spec self = true ->
      forall chain_spec : ChainSpec,
        file = Ok chain_spec ->
        chain_spec_ne chain_spec (original_chain_spec self) = false ->
        fst (_check_chain_spec file self) = Ok tt
        /\ _running (snd (_check_chain_spec file self)) = _running self)
  (* the chain spec is not watched *)
  /\ (watch_chain_spec self = false ->
      _check_chain_spec file self = (Ok tt, self))
  (* in both cases the loop goes on *)
  /\ (watch_chain_spec self = false
      \/ (exists chain_spec : ChainSpec,
            file = Ok chain_spec
            /\ chain_spec_ne chain_spec (original_chain_spec self) = false) ->
      _running (snd (_run_cycle file self)) = _running self
      /\ (_running self = true ->
          fst (_run_cycle file self) = Ok tt ->
          forall (file' : result ChainSpec) (rest' : list (result ChainSpec)),
            rest = file' :: rest' ->
            (2 <= snd (fst (run_loop (file :: rest) self)))%nat)).
Proof.
  split; [|split; [|split]].
  - intros Hw cs -> Hne.
    assert (Hfile : Ok cs = Raise JSONDecodeError
                    \/ exists chain_spec, Ok cs = Ok chain_spec
                         /\ chain_spec_ne chain_spec (original_chain_spec self)
                            = true) by (right; eauto).
    rewrite (check_chain_spec_changed _ _ Hw Hfile).
    split; [reflexivity|]. split; [reflexivity|].
    split; [apply run_cycle_chain_spec_changed; assumption|].
    intros Hr. apply run_loop_last_cycle; [exact Hr|].
    apply run_cycle_chain_spec_changed; assumption.
  - intros Hw cs -> Hne. rewrite (check_chain_spec_same _ _ Hw Hne).
    split; reflexivity.
  - apply check_chain_spec_unwatched.
  - intros Hsame.
    pose proof (run_cycle_chain_spec_same file self Hsame) as Hkeep.
    split; [exact Hkeep|].
    intros Hr Hok file' rest' ->.
    rewrite run_loop_cycle by exact Hr.
    destruct (_run_cycle file self) as [[[]|e] s']; cbn [fst snd] in *;
      [|discriminate].
    rewrite run_loop_cycle by congruence.
    destruct (_run_cycle file' s') as [[[]|e] s''].
    + destruct (run_loop rest' s'') as [[how n] s3]. cbn. lia.
    + cbn. lia.
Qed.

(** C10: when the chain spec is watched and reading it again raises a
    JSON decode error, [_check_chain_spec] takes the file for changed: it
    returns normally, logs the change and clears [_running], so that the
    main loop runs no further cycle; the error is not propagated. *)
Theorem chain_spec_decode_error_stops (rest : list (result ChainSpec))
  (self : App) :
  watch_chain_spec self = true ->
  _check_chain_spec (Raise JSONDecodeError) self
  = (Ok tt,
     with_running false
       (add_events
          [EvReadChainSpec; EvLogInfo "Chain spec file has changed.";
           EvLogInfo
             "Stopping tlbc-monitor. This may take a long time, please be patient!"]
          self))
  /\ _running (snd (_check_chain_spec (Raise JSONDecodeError) self)) = false
  /\ (fst (_run_cycle (Raise JSONDecodeError) self) = Ok tt ->
      _running (snd (_run_cycle (Raise JSONDecodeError) self)) = false)
  /\ (_running self = true ->
      exists how : loop_end,
        run_loop (Raise JSONDecodeError :: rest) self
        = (how, 1%nat, snd (_run_cycle (Raise JSONDecodeError) self))
        /\ how <> LoopStillRunning
        /\ (fst (_run_cycle (Raise JSONDecodeError) self) = Ok tt ->
            how = LoopStopped)).
Proof.
  intros Hw.
  assert (Hfile : @Raise ChainSpec JSONDecodeError = Raise JSONDecodeError
                  \/ exists chain_spec : ChainSpec,
                       @Raise ChainSpec JSONDecodeError = Ok chain_spec
                       /\ chain_spec_ne chain_spec (original_chain_spec self)
                          = true) by (left; reflexivity).
  rewrite (check_chain_spec_changed _ _ Hw Hfile).
  split; [reflexivity|]. split; [reflexivity|].
  split; [apply run_cycle_chain_spec_changed; assumption|].
  intros Hr. apply run_loop_last_cycle; [exact Hr|].
  apply run_cycle_chain_spec_changed; assumption.
Qed.

(** An error other than a decode error is not taken for a change: it
    leaves [_check_chain_spec] as an exception, the flag still set. *)
Lemma check_chain_spec_other_error (self : App) (e : exn) :
  watch_chain_spec self = true ->
  e <> JSONDecodeError ->
  fst (_check_chain_spec (Raise e) self) = Raise e
  /\ _running (snd (_check_chain_spec (Raise e) self)) = _running self.
Proof.
  intros Hw He. unfold _check_chain_spec. rewrite run_bind. cbn [get].
  rewrite Hw. cbn [negb]. rewrite run_bind. cbn [emit modify].
  rewrite run_bind. destruct e; try congruence; split; reflexivity.
Qed.


Lemma emits_only_ret {A : Type} p (a : A) : emits_only p (mret a).
Proof. intros self. exists []. split; [symmetry; apply app_nil_r|constructor]. Qed.

Lemma emits_only_raise {A : Type} p (e : exn) : emits_only p (@raise _ _ A e).
Proof. intros self. exists []. split; [symmetry; apply app_nil_r|constructor]. Qed.

Lemma emits_only_lift {A : Type} p (r : result A) : emits_only p (lift r).
Proof. destruct r; [apply emits_only_ret|apply emits_only_raise]. Qed.

Lemma emits_only_get p : emits_only p get.
Proof. intros self. exists []. split; [symmetry; apply app_nil_r|constructor]. Qed.

Lemma emits_only_modify p (f : App -> App) :
  (forall self, trace (f self) = trace self) -> emits_only p (modify f).
Proof.
  intros Hf self. exists []. cbn. rewrite Hf.
  split; [symmetry; apply app_nil_r|constructor].
Qed.

Lemma emits_only_emit (p : event -> bool) (ev : event) :
  p ev = true -> emits_only p (emit ev).
Proof. intros Hp self. exists [ev]. split; [reflexivity|]. repeat constructor. exact Hp. Qed.

Lemma emits_only_bind {A B : Type} p (m : M A) (k : A -> M B) :
  emits_only p m -> (forall a, emits_only p (k a)) -> emits_only p (m ≫= k).
Proof.
  intros Hm Hk self. rewrite run_bind.
  destruct (Hm self) as (evs1 & Ht1 & Hp1).
  destruct (m self) as [[a|e] self']; cbn [snd] in *.
  - destruct (Hk a self') as (evs2 & Ht2 & Hp2).
    exists (evs1 ++ evs2). rewrite Ht2, Ht1, <- List.app_assoc.
    split; [reflexivity|]. apply Forall_app; auto.
  - exists evs1. auto.
Qed.

Lemma emits_only_for_each {A : Type} p (xs : list A) (body : A -> M unit) :
  (forall x, emits_only p (body x)) -> emits_only p (for_each xs body).
Proof.
  intros Hb. induction xs as [|x xs IH]; cbn [for_each].
  - apply (emits_only_ret p tt).
  - apply emits_only_bind; auto.
Qed.

Lemma emits_only_if {A : Type} p (b : bool) (m1 m2 : M A) :
  emits_only p m1 -> emits_only p m2 -> emits_only p (if b then m1 else m2).
Proof. destruct b; auto. Qed.

Lemma emits_only_update_epochs : emits_only is_epoch_event _update_epochs.
Proof.
  unfold _update_epochs, call_fetch_new_epochs, call_add_epoch,
    set_epoch_fetcher, set_primary_oracle.
  repeat first
    [ apply emits_only_bind; [|intros ?]
    | apply emits_only_for_each; intros ?
    | apply emits_only_get
    | apply emits_only_lift
    | apply emits_only_modify; reflexivity
    | apply emits_only_emit; reflexivity ].
Qed.

Lemma emits_only_check_chain_spec (file : result ChainSpec) :
  emits_only is_tail_event (_check_chain_spec file).
Proof.
  unfold _check_chain_spec, stop, log_info, set_running.
  apply emits_only_bind; [apply emits_only_get|intros self].
  apply emits_only_if; [apply emits_only_ret|].
  apply emits_only_bind; [apply emits_only_emit; reflexivity|intros _].
  apply emits_only_bind.
  - destruct file as [cs|[]];
      first [apply emits_only_ret | apply emits_only_raise].
  - intros b. apply emits_only_if; [|apply emits_only_ret].
    repeat first
      [ apply emits_only_bind; [|intros ?]
      | apply emits_only_modify; reflexivity
      | apply emits_only_emit; reflexivity ].
Qed.

Lemma add_events_nil (self : App) : add_events [] self = self.
Proof. destruct self. unfold add_events. cbn. now rewrite app_nil_r. Qed.

Lemma add_events_add_events (evs1 evs2 : list event) (self : App) :
  add_events evs2 (add_events evs1 self) = add_events (evs1 ++ evs2) self.
Proof. unfold add_events. cbn. now rewrite <- List.app_assoc. Qed.

Lemma for_each_emit {A : Type} (f : A -> event) (xs : list A) (self : App) :
  for_each xs (fun x => emit (f x)) self = (Ok tt, add_events (map f xs) self).
Proof.
  revert self. induction xs as [|x xs IH]; intros self; cbn [for_each map].
  - now rewrite add_events_nil.
  - unfold bind. cbn [emit modify]. rewrite IH, add_events_add_events.
    reflexivity.
Qed.

Lemma run_call_fetch (a b : Z) (self : App) :
  call_fetch_and_insert_new_blocks a b self
  = let out :=
      fetch_and_insert_new_blocks a b (primary_oracle self) (db self)
        (block_fetcher self) (skip_reporter self) (offline_reporter self) in
    let self' :=
      with_pipeline (fetch_db out) (fetch_block_fetcher out)
        (fetch_skip_reporter out) (fetch_offline_reporter out)
        (add_events (EvFetchCall a b :: map EvFetchEffect (fetch_effects out))
           self) in
    match fetch_result out with
    | Ok n => (Ok n, add_events [EvFetchReturn n] self')
    | Raise e => (Raise e, self')
    end.
Proof.
  unfold call_fetch_and_insert_new_blocks.
  rewrite run_bind. cbn [get]. rewrite run_bind. cbn [emit modify].
  rewrite run_bind, for_each_emit, add_events_add_events.
  rewrite run_bind. cbn [set_pipeline modify]. rewrite run_bind.
  cbn [primary_oracle db block_fetcher skip_reporter offline_reporter].
  cbv zeta.
  destruct (fetch_result _); cbn [lift raise mret M_ret ret];
    [rewrite run_bind|]; reflexivity.
Qed.

Lemma run_call_store_pickled (key : string) (st : AppStateV2.t) (self : App) :
  call_store_pickled key st self
  = (fst (store_pickled key st (db self)),
     with_db (snd (store_pickled key st (db self)))
       (add_events [EvStorePickled key st] self)).
Proof.
  unfold call_store_pickled.
  rewrite run_bind. cbn [get]. rewrite run_bind. cbn [emit modify].
  rewrite run_bind. cbn [set_db modify].
  destruct (fst (store_pickled key st (db self))); reflexivity.
Qed.

Lemma run_call_commit (self : App) :
  call_commit self
  = (fst (session_commit (db self)),
     with_db (snd (session_commit (db self))) (add_events [EvCommit] self)).
Proof.
  unfold call_commit.
  rewrite run_bind. cbn [get]. rewrite run_bind. cbn [emit modify].
  rewrite run_bind. cbn [set_db modify].
  destruct (fst (session_commit (db self))); reflexivity.
Qed.

Lemma run_session_cleanup (self : App) :
  (self' ← get; emit EvSessionExit;; set_db (session_exit (db self'))) self
  = (Ok tt, with_db (session_exit (db self)) (add_events [EvSessionExit] self)).
Proof. reflexivity. Qed.

Lemma session_trace (s1 : App) :
  let out := cycle_fetch s1 in
  let st := fetched_state out in
  let r := fst (with_persistent_session session_body s1) in
  let s2 := snd (with_persistent_session session_body s1) in
  exists body : list event,
    trace s2
    = trace s1
      ++ [EvSessionEnter; EvFetchCall 500 (last_fetch_height (epoch_fetcher s1))]
      ++ map EvFetchEffect (fetch_effects out) ++ body ++ [EvSessionExit]
    /\ block_fetcher s2 = fetch_block_fetcher out
    /\ skip_reporter s2 = fetch_skip_reporter out
    /\ offline_reporter s2 = fetch_offline_reporter out
    /\ ((body = [] /\ is_ok (fetch_result out) = false /\ is_ok r = false)
        \/ exists n : Z,
             fetch_result out = Ok n
             /\ ((body = [EvFetchReturn n; EvStorePickled APP_STATE_KEY st]
                  /\ is_ok r = false)
                 \/ (body = [EvFetchReturn n;
                             EvStorePickled APP_STATE_KEY st;
                             EvSkipFileFlush; EvCommit]
                     /\ (is_ok r = true -> r = Ok n)))).
Proof.
  cbv zeta. unfold with_persistent_session, session_body, finally.
  rewrite run_bind. cbn [get]. rewrite run_bind. cbn [emit modify].
  rewrite run_bind. cbn [set_db modify].
  rewrite run_bind. cbn [get].
  rewrite run_bind, run_call_fetch. cbv zeta.
  cbn [epoch_fetcher primary_oracle db block_fetcher skip_reporter
       offline_reporter with_db add_events].
  fold (cycle_fetch s1). set (out := cycle_fetch s1).
  destruct (fetch_result out) as [n|e] eqn:Hres.
  - rewrite run_bind. cbn [get]. rewrite run_bind, run_call_store_pickled.
    cbn [fst snd].
    match goal with |- context [fst ?R] => destruct R as [[[]|e1] d1] end;
      cbn [fst snd].
    + rewrite run_bind. cbn [emit modify]. rewrite run_bind, run_call_commit.
      match goal with |- context [fst ?R] => destruct R as [[[]|e2] d2] end;
        cbn [fst snd mret M_ret ret]; rewrite run_session_cleanup;
        (exists [EvFetchReturn n;
                 EvStorePickled APP_STATE_KEY (fetched_state out);
                 EvSkipFileFlush; EvCommit]);
        (split; [unfold fetched_state, app_state; cbn;
                 rewrite <- ?List.app_assoc; reflexivity|]);
        (split; [reflexivity|split; [reflexivity|split; [reflexivity|]]]);
        right; exists n; (split; [reflexivity|]); right;
        (split; [reflexivity|]); [reflexivity|discriminate].
    + rewrite run_session_cleanup.
      exists [EvFetchReturn n; EvStorePickled APP_STATE_KEY (fetched_state out)].
      split; [unfold fetched_state, app_state; cbn;
              rewrite <- ?List.app_assoc; reflexivity|].
      split; [reflexivity|split; [reflexivity|split; [reflexivity|]]].
      right; exists n; split; [reflexivity|left; split; reflexivity].
  - rewrite run_session_cleanup. exists [].
    split; [cbn; rewrite <- ?List.app_assoc; reflexivity|].
    split; [reflexivity|split; [reflexivity|split; [reflexivity|]]].
    left; repeat split.
Qed.

Lemma with_primary_oracle_same (self : App) :
  with_primary_oracle (primary_oracle self) self = self.
Proof. destruct self. reflexivity. Qed.

Lemma run_call_add_epoch (epoch : Epoch) (self : App) :
  call_add_epoch epoch self
  = match add_epoch epoch (primary_oracle self) with
    | Ok po => (Ok tt, with_primary_oracle po (add_events [EvAddEpoch epoch] self))
    | Raise e => (Raise e, add_events [EvAddEpoch epoch] self)
    end.
Proof.
  unfold call_add_epoch.
  rewrite run_bind. cbn [get]. rewrite run_bind. cbn [emit modify].
  rewrite run_bind.
  destruct (add_epoch epoch (primary_oracle self)); reflexivity.
Qed.

Lemma with_primary_oracle_twice (po1 po : PrimaryOracle OracleEpochs)
  (evs1 evs2 : list event) (self : App) :
  with_primary_oracle po
    (add_events evs2 (with_primary_oracle po1 (add_events evs1 self)))
  = with_primary_oracle po (add_events (evs1 ++ evs2) self).
Proof.
  unfold with_primary_oracle, add_events. cbn.
  now rewrite <- List.app_assoc.
Qed.

(** The loop over the new epochs: the oracle it leaves and the epochs it
    came to. *)
Lemma run_add_epochs (new_epochs : list Epoch) (self : App) :
  exists (k : nat) (po : PrimaryOracle OracleEpochs),
    snd (for_each new_epochs call_add_epoch self)
    = with_primary_oracle po
        (add_events (map EvAddEpoch (take k new_epochs)) self)
    /\ match fst (for_each new_epochs call_add_epoch self) with
       | Ok _ =>
           take k new_epochs = new_epochs
           /\ add_epochs new_epochs (primary_oracle self) = Ok po
       | Raise e => add_epochs new_epochs (primary_oracle self) = Raise e
       end.
Proof.
  revert self. induction new_epochs as [|epoch rest IH]; intros self.
  - exists 0%nat, (primary_oracle self). cbn.
    rewrite add_events_nil, with_primary_oracle_same. auto.
  - cbn [for_each add_epochs]. unfold bind. rewrite run_call_add_epoch.
    destruct (add_epoch epoch (primary_oracle self)) as [po1|e]; cbn [rbind].
    + destruct (IH (with_primary_oracle po1 (add_events [EvAddEpoch epoch] self)))
        as (k & po & Hs & Hr).
      exists (S k), po. cbn [primary_oracle with_primary_oracle] in Hr.
      destruct (for_each rest call_add_epoch _) as [[[]|e] s']; cbn [fst snd] in *.
      * destruct Hr as [Htake Hadd].
        split; [rewrite Hs; apply with_primary_oracle_twice|].
        split; [cbn [take]; now rewrite Htake|exact Hadd].
      * split; [rewrite Hs; apply with_primary_oracle_twice|exact Hr].
    + exists 1%nat, (primary_oracle self). cbn [fst snd take map].
      rewrite take_0. split; [|reflexivity].
      destruct self; reflexivity.
Qed.

(** [_update_epochs] when the epoch fetcher returns: what it leaves in
    the oracle and in the trace. *)
Lemma update_epochs_spec (self : App) (new_epochs : list Epoch)
  (ef : EpochFetcher) :
  fetch_new_epochs (epoch_fetcher self) = (Ok new_epochs, ef) ->
  (forall s1 : App,
     _update_epochs self = (Ok tt, s1) ->
     epoch_fetcher s1 = ef
     /\ max_height (primary_oracle s1) = last_fetch_height ef
     /\ (exists po : PrimaryOracle OracleEpochs,
           add_epochs new_epochs (primary_oracle self) = Ok po
           /\ primary_oracle s1
              = mk_PrimaryOracle (oracle_epochs po) (last_fetch_height ef))
     /\ trace s1
        = trace self
          ++ EvFetchNewEpochs :: map EvAddEpoch new_epochs
          ++ [EvSetMaxHeight (last_fetch_height ef)])
  /\ (is_ok (add_epochs new_epochs (primary_oracle self)) = true ->
      fst (_update_epochs self) = Ok tt).
Proof.
  intros Hfetch. unfold _update_epochs, call_fetch_new_epochs.
  rewrite !run_bind. cbn [get]. rewrite !run_bind. cbn [emit modify].
  rewrite !run_bind. cbn [set_epoch_fetcher modify epoch_fetcher add_events].
  rewrite Hfetch. cbn [fst snd lift mret M_ret ret].
  set (s0 := with_epoch_fetcher ef (add_events [EvFetchNewEpochs] self)).
  rewrite !run_bind.
  destruct (run_add_epochs new_epochs s0) as (k & po & Hs & Hr).
  destruct (for_each new_epochs call_add_epoch s0) as [[[]|e] s']; cbn [fst snd] in *.
  - destruct Hr as [Htake Hadd]. rewrite Htake in Hs. subst s'.
    cbn [get]. rewrite !run_bind. cbn [emit modify set_primary_oracle].
    split; [|reflexivity].
    intros s1 Heq. injection Heq as <-. cbn.
    split; [reflexivity|]. split; [reflexivity|].
    split; [exists po; split; [exact Hadd|reflexivity]|].
    rewrite <- !List.app_assoc. reflexivity.
  - split; [discriminate|]. cbn [primary_oracle with_epoch_fetcher add_events s0] in Hr.
    unfold s0 in Hr. cbn in Hr. rewrite Hr. discriminate.
Qed.

Lemma emits_only_cycle_tail (file : result ChainSpec) (n : Z) :
  emits_only is_tail_event (cycle_tail file n).
Proof.
  unfold cycle_tail, log_info.
  apply emits_only_bind; [apply emits_only_get|intros self].
  apply emits_only_bind; [apply emits_only_emit; reflexivity|intros _].
  apply emits_only_bind; [|intros _; apply emits_only_check_chain_spec].
  apply emits_only_if; [apply emits_only_emit; reflexivity|apply emits_only_ret].
Qed.

Lemma run_cycle_unfold (file : result ChainSpec) (self : App) :
  _run_cycle file self
  = match _update_epochs self with
    | (Raise e, s1) => (Raise e, s1)
    | (Ok _, s1) =>
        match with_persistent_session session_body s1 with
        | (Raise e, s2) => (Raise e, s2)
        | (Ok n, s2) => cycle_tail file n s2
        end
    end.
Proof. reflexivity. Qed.

Lemma run_cycle_shape (file : result ChainSpec) (self : App) :
  let s1 := snd (_update_epochs self) in
  let out := cycle_fetch s1 in
  exists pre : list event,
    trace s1 = trace self ++ pre
    /\ Forall (fun ev => is_epoch_event ev = true) pre
    /\ match fst (_update_epochs self) with
       | Raise e =>
           _run_cycle file self = (Raise e, s1)
           /\ events_of (_run_cycle file) self = pre
       | Ok _ =>
           exists body post : list event,
             events_of (_run_cycle file) self
             = pre
               ++ [EvSessionEnter;
                   EvFetchCall 500 (last_fetch_height (epoch_fetcher s1))]
               ++ map EvFetchEffect (fetch_effects out)
               ++ body ++ [EvSessionExit] ++ post
             /\ Forall (fun ev => is_tail_event ev = true) post
             /\ session_tail out body (is_ok (fst (_run_cycle file self)))
       end.
Proof.
  cbv zeta. unfold events_of. rewrite !run_cycle_unfold.
  destruct (emits_only_update_epochs self) as (pre & Hpre & Hall).
  exists pre. split; [exact Hpre|]. split; [exact Hall|].
  destruct (_update_epochs self) as [[[]|e] s1]; cbn [fst snd] in *.
  - destruct (session_trace s1) as (body & Ht & _ & _ & _ & Hbody).
    cbv zeta in Ht, Hbody.
    destruct (with_persistent_session session_body s1) as [[n|e] s2];
      cbn [fst snd] in *.
    + destruct (emits_only_cycle_tail file n s2) as (post & Hpost & Htail).
      exists body, post. rewrite Hpost, Ht, Hpre.
      split; [|split; [exact Htail|]].
      * rewrite <- !List.app_assoc. rewrite drop_app_length. reflexivity.
      * destruct Hbody as [(_ & _ & Hf)|(m & Hm & [(_ & Hf)|(Hb & _)])];
          try discriminate.
        right. exists m. split; [exact Hm|]. right. exact Hb.
    + exists body, []. rewrite Ht, Hpre.
      split; [|split; [constructor|]].
      * rewrite <- !List.app_assoc. rewrite drop_app_length. reflexivity.
      * destruct Hbody as [(Hb & Hr & _)|(m & Hm & [(Hb & _)|(Hb & _)])].
        -- left. repeat split; assumption.
        -- right. exists m. split; [exact Hm|]. left. split; [exact Hb|reflexivity].
        -- right. exists m. split; [exact Hm|]. right. exact Hb.
  - split; [reflexivity|]. rewrite Hpre. apply drop_app_length.
Qed.

(** *** Order of the events of a cycle *)

Lemma segment_app (lo1 hi1 lo2 hi2 : nat) (l1 l2 : list event) :
  segment lo1 hi1 l1 -> segment lo2 hi2 l2 ->
  (hi1 < lo2)%nat -> (lo1 <= lo2)%nat -> (hi1 <= hi2)%nat ->
  segment lo1 hi2 (l1 ++ l2).
Proof.
  intros [Hs1 Hr1] [Hs2 Hr2] Hlt Hlo Hhi. split.
  - apply StronglySorted_app. split; [|split; assumption].
    intros x1 x2 Hx1 Hx2. rewrite Forall_forall in Hr1, Hr2.
    specialize (Hr1 x1 Hx1). specialize (Hr2 x2 Hx2). left. lia.
  - apply Forall_app. split; eapply Forall_impl; eauto; cbn; intros; lia.
Qed.

Lemma segment_repeated (r : nat) (l : list event) :
  repeats r = true -> Forall (fun ev => rank ev = r) l -> segment r r l.
Proof.
  intros Hrep Hall. split.
  - induction Hall as [|x l Hx Hall IH]; constructor; [exact IH|].
    eapply Forall_impl; [exact Hall|]. cbn. intros y Hy. right.
    split; congruence.
  - eapply Forall_impl; [exact Hall|]. cbn. intros; lia.
Qed.

Lemma segment_epoch_events (l : list event) :
  Forall (fun ev => is_epoch_event ev = true) l -> segment 0 0 l.
Proof.
  intros Hall. apply segment_repeated; [reflexivity|].
  eapply Forall_impl; [exact Hall|]. intros []; cbn; congruence.
Qed.

Lemma segment_tail_events (l : list event) :
  Forall (fun ev => is_tail_event ev = true) l -> segment 9 9 l.
Proof.
  intros Hall. apply segment_repeated; [reflexivity|].
  eapply Forall_impl; [exact Hall|]. intros []; cbn; congruence.
Qed.

Lemma segment_fetch_effects (effs : list fetch_effect) :
  segment 3 3 (map EvFetchEffect effs).
Proof.
  apply segment_repeated; [reflexivity|].
  apply Forall_forall. intros ev Hev. apply list_elem_of_fmap in Hev as (eff & -> & _).
  reflexivity.
Qed.

Lemma segment_session_tail out (body : list event) (complete : bool) :
  session_tail out body complete -> segment 4 7 body.
Proof.
  intros [(-> & _)|(n & _ & [(-> & _)| ->])]; split;
    repeat constructor; cbn; lia.
Qed.

Lemma strongly_sorted_lookup (l : list event) (i j : nat) (x y : event) :
  StronglySorted in_order l ->
  l !! i = Some x -> l !! j = Some y -> (i < j)%nat -> in_order x y.
Proof.
  intros Hs. revert i j. induction Hs as [|a l Hs IH Ha]; intros i j Hi Hj Hlt.
  - discriminate.
  - destruct j as [|j]; [lia|]. destruct i as [|i]; cbn in Hi, Hj.
    + injection Hi as <-. rewrite Forall_forall in Ha. apply Ha.
      eapply list_elem_of_lookup_2; eauto.
    + apply (IH i j); auto. lia.
Qed.

Lemma sorted_rank_lt (l : list event) (i j : nat) (x y : event) :
  StronglySorted in_order l ->
  l !! i = Some x -> l !! j = Some y -> (rank x < rank y)%nat -> (i < j)%nat.
Proof.
  intros Hs Hi Hj Hr. destruct (lt_eq_lt_dec i j) as [[Hlt| ->]|Hgt].
  - exact Hlt.
  - rewrite Hi in Hj. injection Hj as ->. lia.
  - destruct (strongly_sorted_lookup l j i y x Hs Hj Hi Hgt) as [?|[? _]]; lia.
Qed.

Lemma sorted_rank_once (l : list event) (i j : nat) (x y : event) :
  StronglySorted in_order l ->
  l !! i = Some x -> l !! j = Some y -> rank x = rank y ->
  repeats (rank x) = false -> i = j.
Proof.
  intros Hs Hi Hj Hr Hrep. destruct (lt_eq_lt_dec i j) as [[Hlt|Heq]|Hgt].
  - destruct (strongly_sorted_lookup l i j x y Hs Hi Hj Hlt) as [?|[_ ?]];
      [lia|congruence].
  - exact Heq.
  - destruct (strongly_sorted_lookup l j i y x Hs Hj Hi Hgt) as [?|[_ ?]];
      [lia|congruence].
Qed.

(** The events of a cycle are in the order of their ranks. *)
Lemma run_cycle_sorted (file : result ChainSpec) (self : App) :
  StronglySorted in_order (events_of (_run_cycle file) self).
Proof.
  destruct (run_cycle_shape file self) as (pre & _ & Hpre & Hcase).
  apply segment_epoch_events in Hpre.
  destruct (fst (_update_epochs self)).
  - destruct Hcase as (body & post & -> & Hpost & Hbody).
    apply segment_tail_events in Hpost.
    apply segment_session_tail in Hbody.
    assert (Hse : segment 1 2 [EvSessionEnter;
      EvFetchCall 500 (last_fetch_height (epoch_fetcher (snd (_update_epochs self))))])
      by (split; repeat constructor; cbn; lia).
    assert (Hex : segment 8 8 [EvSessionExit])
      by (split; repeat constructor; cbn; lia).
    pose proof (segment_fetch_effects
                  (fetch_effects (cycle_fetch (snd (_update_epochs self))))) as Heff.
    refine (proj1 (segment_app 0 0 1 9 _ _ Hpre _ _ _ _)); try lia.
    refine (segment_app 1 2 3 9 _ _ Hse _ _ _ _); try lia.
    refine (segment_app 3 3 4 9 _ _ Heff _ _ _ _); try lia.
    refine (segment_app 4 7 8 9 _ _ Hbody _ _ _ _); try lia.
    refine (segment_app 8 8 9 9 _ _ Hex Hpost _ _ _); lia.
  - destruct Hcase as [_ ->]. apply Hpre.
Qed.

(** Which events a cycle has. *)
Lemma run_cycle_events (file : result ChainSpec) (self : App) :
  let evs := events_of (_run_cycle file) self in
  let s1 := snd (_update_epochs self) in
  let out := cycle_fetch s1 in
  (forall key st,
     EvStorePickled key st ∈ evs ->
     key = APP_STATE_KEY /\ st = fetched_state out
     /\ exists n, fetch_result out = Ok n /\ EvFetchReturn n ∈ evs)
  /\ (EvCommit ∈ evs -> EvStorePickled APP_STATE_KEY (fetched_state out) ∈ evs)
  /\ (forall ev,
        ev ∈ evs -> (1 <= rank ev <= 8)%nat ->
        fst (_update_epochs self) = Ok tt
        /\ EvSessionEnter ∈ evs /\ EvSessionExit ∈ evs)
  /\ (forall a b,
        EvFetchCall a b ∈ evs ->
        a = 500 /\ b = last_fetch_height (epoch_fetcher s1))
  /\ (forall eff, EvFetchEffect eff ∈ evs -> eff ∈ fetch_effects out)
  /\ (fst (_update_epochs self) = Ok tt ->
      EvFetchCall 500 (last_fetch_height (epoch_fetcher s1)) ∈ evs
      /\ forall eff, eff ∈ fetch_effects out -> EvFetchEffect eff ∈ evs)
  /\ (fst (_run_cycle file self) = Ok tt -> EvCommit ∈ evs).
Proof.
  cbv zeta.
  destruct (run_cycle_shape file self) as (pre & _ & Hpre & Hcase).
  rewrite Forall_forall in Hpre.
  destruct (fst (_update_epochs self)) as [[]|e] eqn:Hupd.
  - destruct Hcase as (body & post & -> & Hpost & Hbody).
    rewrite Forall_forall in Hpost.
    assert (Heff : forall ev,
              ev ∈ map EvFetchEffect
                     (fetch_effects (cycle_fetch (snd (_update_epochs self)))) ->
              exists eff, ev = EvFetchEffect eff
                /\ eff ∈ fetch_effects (cycle_fetch (snd (_update_epochs self))))
      by (intros ev Hev; apply list_elem_of_fmap in Hev; exact Hev).
    set (effs := map EvFetchEffect _) in *.
    assert (Hout : forall ev,
              rank ev <> 0%nat -> rank ev <> 3%nat -> rank ev <> 9%nat ->
              (ev ∉ pre) /\ (ev ∉ effs) /\ (ev ∉ post)).
    { intros ev Hr0 Hr3 Hr9. repeat split; intros Hc.
      - apply Hpre in Hc. destruct ev; cbn in *; congruence.
      - apply Heff in Hc as (eff & -> & _). cbn in Hr3. congruence.
      - apply Hpost in Hc. destruct ev; cbn in *; congruence. }
    split; [intros key st Hin|].
    { destruct (Hout (EvStorePickled key st)) as (? & ? & ?); [cbn; lia..|].
      destruct Hbody as [(-> & _)|(n & Hn & [(-> & _)| ->])];
        set_unfold in Hin; [naive_solver| |];
        (assert (key = APP_STATE_KEY
                 /\ st = fetched_state (cycle_fetch (snd (_update_epochs self))))
           as [-> ->] by naive_solver);
        (split; [reflexivity|split; [reflexivity|]]);
        exists n; (split; [exact Hn|]); set_solver. }
    split; [intros Hin|].
    { destruct (Hout EvCommit) as (? & ? & ?); [cbn; lia..|].
      destruct Hbody as [(-> & _)|(n & Hn & [(-> & _)| ->])];
        set_unfold in Hin; [naive_solver|naive_solver|]. set_solver. }
    split; [intros ev Hin Hrank|].
    { split; [reflexivity|]. split; set_solver. }
    split; [intros a b Hin|].
    { destruct (Hout (EvFetchCall a b)) as (? & ? & ?); [cbn; lia..|].
      destruct Hbody as [(-> & _)|(n & Hn & [(-> & _)| ->])];
        set_unfold in Hin; naive_solver. }
    split; [intros eff Hin|].
    { assert (EvFetchEffect eff ∉ pre)
        by (intros Hc; apply Hpre in Hc; discriminate).
      assert (EvFetchEffect eff ∉ post)
        by (intros Hc; apply Hpost in Hc; discriminate).
      assert (EvFetchEffect eff ∈ effs -> eff ∈ fetch_effects
                (cycle_fetch (snd (_update_epochs self))))
        by (intros Hc; apply Heff in Hc as (eff' & [= ->] & Hc); exact Hc).
      destruct Hbody as [(-> & _)|(n & Hn & [(-> & _)| ->])];
        set_unfold in Hin; naive_solver. }
    split; [intros _; split; [set_solver|intros eff Hin]|intros Hok].
    { apply elem_of_app; right.
      apply elem_of_app; right. apply elem_of_app; left.
      unfold effs. apply list_elem_of_fmap. eauto. }
    rewrite Hok in Hbody.
    destruct Hbody as [(_ & _ & ?)|(n & Hn & [(_ & ?)| ->])];
      try discriminate. set_solver.
  - destruct Hcase as [Hrun ->]. rewrite Hrun. cbn [fst].
    assert (Hpre' : forall ev, ev ∈ pre -> rank ev = 0%nat)
      by (intros ev Hev; apply Hpre in Hev; destruct ev; cbn in *; congruence).
    split; [intros key st Hin; apply Hpre' in Hin; discriminate|].
    split; [intros Hin; apply Hpre' in Hin; discriminate|].
    split; [intros ev Hin Hrank; apply Hpre' in Hin; lia|].
    split; [intros a b Hin; apply Hpre' in Hin; discriminate|].
    split; [intros eff Hin; apply Hpre' in Hin; discriminate|].
    split; discriminate.
Qed.

Lemma update_epochs_raises (self : App) (e : exn) :
  fst (fetch_new_epochs (epoch_fetcher self)) = Raise e ->
  fst (_update_epochs self) = Raise e.
Proof.
  intros Hfetch. unfold _update_epochs, call_fetch_new_epochs.
  rewrite !run_bind. cbn [get]. rewrite !run_bind. cbn [emit modify].
  rewrite !run_bind. cbn [set_epoch_fetcher modify epoch_fetcher add_events].
  rewrite Hfetch. reflexivity.
Qed.



(** *** What a cycle leaves alone, and the database session *)

Lemma keeps_ret {A B : Type} (proj : App -> B) (a : A) : keeps proj (mret a).
Proof. intros self. reflexivity. Qed.

Lemma keeps_raise {A B : Type} (proj : App -> B) (e : exn) :
  keeps proj (@raise _ _ A e).
Proof. intros self. reflexivity. Qed.

Lemma keeps_lift {A B : Type} (proj : App -> B) (r : result A) :
  keeps proj (lift r).
Proof. destruct r; intros self; reflexivity. Qed.

Lemma keeps_get {B : Type} (proj : App -> B) : keeps proj get.
Proof. intros self. reflexivity. Qed.

Lemma keeps_modify {B : Type} (proj : App -> B) (f : App -> App) :
  (forall self, proj (f self) = proj self) -> keeps proj (modify f).
Proof. intros Hf self. apply Hf. Qed.

Lemma keeps_bind {A A' B : Type} (proj : App -> B) (m : M A) (k : A -> M A') :
  keeps proj m -> (forall a, keeps proj (k a)) -> keeps proj (m ≫= k).
Proof.
  intros Hm Hk self. rewrite run_bind. specialize (Hm self).
  destruct (m self) as [[a|e] self']; cbn [snd] in *; [rewrite Hk|]; exact Hm.
Qed.

Lemma keeps_finally {A B : Type} (proj : App -> B) (body : M A)
  (cleanup : M unit) :
  keeps proj body -> keeps proj cleanup -> keeps proj (finally body cleanup).
Proof.
  intros Hb Hc self. unfold finally. specialize (Hb self).
  destruct (body self) as [r self']. cbn [snd] in *. now rewrite Hc.
Qed.

Lemma keeps_for_each {A B : Type} (proj : App -> B) (xs : list A)
  (body : A -> M unit) :
  (forall x, keeps proj (body x)) -> keeps proj (for_each xs body).
Proof.
  intros Hb. induction xs as [|x xs IH]; cbn [for_each].
  - apply (keeps_ret proj tt).
  - apply (keeps_bind proj (body x) (fun _ => for_each xs body)); auto.
Qed.

Lemma keeps_if {A B : Type} (proj : App -> B) (b : bool) (m1 m2 : M A) :
  keeps proj m1 -> keeps proj m2 -> keeps proj (if b then m1 else m2).
Proof. destruct b; auto. Qed.

Ltac keeps_step :=
  first
    [ apply keeps_bind; [|intros ?]
    | apply keeps_finally
    | apply keeps_for_each; intros ?
    | apply keeps_get
    | apply keeps_lift
    | apply keeps_ret
    | apply keeps_raise
    | apply keeps_if
    | apply keeps_modify; intros ?; reflexivity ].

Lemma keeps_fetch_side_update_epochs : keeps fetch_side _update_epochs.
Proof.
  unfold _update_epochs, call_fetch_new_epochs, call_add_epoch,
    set_epoch_fetcher, set_primary_oracle, emit.
  repeat keeps_step.
Qed.



Lemma keeps_check_chain_spec {B : Type} (proj : App -> B)
  (file : result ChainSpec) :
  (forall evs self, proj (add_events evs self) = proj self) ->
  (forall b self, proj (with_running b self) = proj self) ->
  keeps proj (_check_chain_spec file).
Proof.
  intros Hev Hrun. unfold _check_chain_spec, stop, log_info, set_running, emit.
  apply keeps_bind; [apply keeps_get|intros self].
  apply keeps_if; [apply keeps_ret|].
  apply keeps_bind; [apply keeps_modify; intros; apply Hev|intros _].
  apply keeps_bind.
  - destruct file as [cs|[]]; first [apply keeps_ret | apply keeps_raise].
  - intros b. apply keeps_if; [|apply keeps_ret].
    repeat first [ apply keeps_bind; [|intros ?]
                 | apply keeps_modify; intros; first [apply Hev|apply Hrun] ].
Qed.

Lemma keeps_cycle_tail {B : Type} (proj : App -> B)
  (file : result ChainSpec) (n : Z) :
  (forall evs self, proj (add_events evs self) = proj self) ->
  (forall b self, proj (with_running b self) = proj self) ->
  keeps proj (cycle_tail file n).
Proof.
  intros Hev Hrun. unfold cycle_tail, log_info, emit.
  apply keeps_bind; [apply keeps_get|intros self].
  apply keeps_bind; [apply keeps_modify; intros; apply Hev|intros _].
  apply keeps_bind; [|intros _; apply keeps_check_chain_spec; assumption].
  apply keeps_if; [apply keeps_modify; intros; apply Hev|apply keeps_ret].
Qed.

Ltac app_norm :=
  cbv [with_db with_pipeline with_running with_epoch_fetcher
       with_primary_oracle add_events epoch_fetcher primary_oracle db
       block_fetcher skip_reporter offline_reporter original_chain_spec
       watch_chain_spec _running trace].

(** The database session of a cycle, step by step: what it returns or
    raises, its events and the database it leaves. *)
Lemma session_run (s1 : App) :
  let out := cycle_fetch s1 in
  let st := fetched_state out in
  let enter :=
    [EvSessionEnter; EvFetchCall 500 (last_fetch_height (epoch_fetcher s1))]
    ++ map EvFetchEffect (fetch_effects out) in
  exists (r : result Z) (body : list event) (d : BlockDB),
    with_persistent_session session_body s1
    = (r,
       with_pipeline (session_exit d) (fetch_block_fetcher out)
         (fetch_skip_reporter out) (fetch_offline_reporter out)
         (add_events (enter ++ body ++ [EvSessionExit]) s1))
    /\ match fetch_result out with
       | Raise e => r = Raise e /\ body = [] /\ d = fetch_db out
       | Ok n =>
           match store_pickled APP_STATE_KEY st (fetch_db out) with
           | (Raise e, d1) =>
               r = Raise e
               /\ body = [EvFetchReturn n; EvStorePickled APP_STATE_KEY st]
               /\ d = d1
           | (Ok _, d1) =>
               r = match fst (session_commit d1) with
                   | Ok _ => Ok n
                   | Raise e => Raise e
                   end
               /\ body = [EvFetchReturn n; EvStorePickled APP_STATE_KEY st;
                          EvSkipFileFlush; EvCommit]
               /\ d = snd (session_commit d1)
           end
       end.
Proof.
  cbv zeta. unfold with_persistent_session, session_body, finally.
  rewrite run_bind. cbn [get]. rewrite run_bind. cbn [emit modify].
  rewrite run_bind. cbn [set_db modify].
  rewrite run_bind. cbn [get].
  rewrite run_bind, run_call_fetch. cbv zeta.
  cbn [epoch_fetcher primary_oracle db block_fetcher skip_reporter
       offline_reporter with_db add_events].
  fold (cycle_fetch s1). set (out := cycle_fetch s1).
  destruct (fetch_result out) as [n|e] eqn:Hres.
  - rewrite run_bind. cbn [get]. rewrite run_bind, run_call_store_pickled.
    cbn [fst snd]. unfold app_state.
    cbn [db block_fetcher skip_reporter offline_reporter add_events
         with_pipeline].
    fold (fetched_state out).
    destruct (store_pickled APP_STATE_KEY (fetched_state out) (fetch_db out))
      as [[[]|e1] d1]; cbn [fst snd].
    + rewrite run_bind. cbn [emit modify]. rewrite run_bind, run_call_commit.
      cbn [db with_db add_events with_pipeline].
      destruct (session_commit d1) as [[[]|e2] d2];
        cbn [fst snd mret M_ret ret]; rewrite run_session_cleanup;
        eexists _, _, d2; (split; [|repeat split; reflexivity]);
        clearbody out; destruct s1; app_norm;
        rewrite <- ?List.app_assoc; reflexivity.
    + rewrite run_session_cleanup.
      eexists _, _, d1; (split; [|repeat split; reflexivity]).
      clearbody out; destruct s1; app_norm;
        rewrite <- ?List.app_assoc; reflexivity.
  - rewrite run_session_cleanup.
    eexists _, [], (fetch_db out); (split; [|repeat split; reflexivity]).
    clearbody out; destruct s1; app_norm;
      rewrite <- ?List.app_assoc; reflexivity.
Qed.

(** C2: in every fetch cycle the checkpoint is stored under the key
    ['appstate'], only after [fetch_and_insert_new_blocks] has returned and
    hence after every block insertion and every reporter callback of the
    cycle, and it is the application state the fetch has left; the session
    is committed only after the checkpoint has been stored, hence after the
    insertions too, and at most once; insertions, callbacks, store and
    commit all lie between the entry into the one persistent session and
    its exit; a cycle that returns has stored the checkpoint and
    committed.  The events are what happens to the database: the fetch
    works on the database of the entered session, the checkpoint is stored
    into the database the fetch has left, the commit is made on the
    database that holds the checkpoint, and the cycle leaves the database
    as the exit from the session leaves it after that commit; when the
    fetch or the store raises, the session is left without a commit. *)
Theorem checkpoint_after_fetch_in_one_session (file : result ChainSpec)
  (self : App) :
  let evs := events_of (_run_cycle file) self in
  let s1 := snd (_update_epochs self) in
  let out := cycle_fetch s1 in
  (forall (j : nat) (key : string) (st : AppStateV2.t),
     evs !! j = Some (EvStorePickled key st) ->
     key = APP_STATE_KEY /\ st = fetched_state out
     /\ (exists (i : nat) (n : Z),
           (i < j)%nat /\ evs !! i = Some (EvFetchReturn n))
     /\ (forall (i : nat) (eff : fetch_effect),
           evs !! i = Some (EvFetchEffect eff) -> (i < j)%nat))
  /\ (forall j : nat,
        evs !! j = Some EvCommit ->
        (exists i : nat,
           (i < j)%nat
           /\ evs !! i = Some (EvStorePickled APP_STATE_KEY (fetched_state out)))
        /\ (forall (i : nat) (eff : fetch_effect),
              evs !! i = Some (EvFetchEffect eff) -> (i < j)%nat)
        /\ (forall i : nat, evs !! i = Some EvCommit -> i = j))
  /\ (forall (j : nat) (ev : event),
        evs !! j = Some ev ->
        (exists eff, ev = EvFetchEffect eff)
        \/ (exists key st, ev = EvStorePickled key st) \/ ev = EvCommit ->
        (exists i l : nat,
           (i < j)%nat /\ (j < l)%nat
           /\ evs !! i = Some EvSessionEnter /\ evs !! l = Some EvSessionExit)
        /\ (forall i : nat, evs !! i = Some EvSessionEnter -> (i < j)%nat)
        /\ (forall l : nat, evs !! l = Some EvSessionExit -> (j < l)%nat))
  /\ (fst (_run_cycle file self) = Ok tt ->
      exists i j : nat,
        (i < j)%nat
        /\ evs !! i = Some (EvStorePickled APP_STATE_KEY (fetched_state out))
        /\ evs !! j = Some EvCommit)
  /\ out
     = fetch_and_insert_new_blocks 500 (last_fetch_height (epoch_fetcher s1))
         (primary_oracle s1) (session_enter (db s1)) (block_fetcher s1)
         (skip_reporter s1) (offline_reporter s1)
  /\ (fst (_update_epochs self) = Ok tt ->
      exists d : BlockDB,
        db (snd (_run_cycle file self)) = session_exit d
        /\ match fetch_result out with
           | Raise _ => d = fetch_db out
           | Ok _ =>
               match
                 store_pickled APP_STATE_KEY (fetched_state out)
                   (fetch_db out)
               with
               | (Raise _, d1) => d = d1
               | (Ok _, d1) => d = snd (session_commit d1)
               end
           end)
  /\ (fst (_run_cycle file self) = Ok tt ->
      exists (n : Z) (d1 : BlockDB),
        fetch_result out = Ok n
        /\ store_pickled APP_STATE_KEY (fetched_state out) (fetch_db out)
           = (Ok tt, d1)
        /\ fst (session_commit d1) = Ok tt
        /\ db (snd (_run_cycle file self))
           = session_exit (snd (session_commit d1))).
Proof.
  cbv zeta.
  pose proof (run_cycle_sorted file self) as Hsorted.
  destruct (run_cycle_events file self)
    as (Hstore & Hcommit & Hsession & _ & _ & _ & Hok).
  cbv zeta in *.
  assert (Hlt : forall i j x y,
            events_of (_run_cycle file) self !! i = Some x ->
            events_of (_run_cycle file) self !! j = Some y ->
            (rank x < rank y)%nat -> (i < j)%nat)
    by (intros; eapply sorted_rank_lt; eauto).
  assert (Hdb : fst (_update_epochs self) = Ok tt ->
            exists (r : result Z) (d : BlockDB),
              fst (_run_cycle file self)
              = match r with
                | Ok n =>
                    fst (cycle_tail file n
                           (snd (with_persistent_session session_body
                                   (snd (_update_epochs self)))))
                | Raise e => Raise e
                end
              /\ db (snd (_run_cycle file self)) = session_exit d
              /\ match
                   fetch_result (cycle_fetch (snd (_update_epochs self)))
                 with
                 | Raise e => r = Raise e /\ d = fetch_db (cycle_fetch (snd (_update_epochs self)))
                 | Ok n =>
                     match
                       store_pickled APP_STATE_KEY
                         (fetched_state
                            (cycle_fetch (snd (_update_epochs self))))
                         (fetch_db (cycle_fetch (snd (_update_epochs self))))
                     with
                     | (Raise e, d1) => r = Raise e /\ d = d1
                     | (Ok _, d1) =>
                         r = match fst (session_commit d1) with
                             | Ok _ => Ok n
                             | Raise e => Raise e
                             end
                         /\ d = snd (session_commit d1)
                     end
                 end).
  { intros Hupd. rewrite run_cycle_unfold.
    destruct (_update_epochs self) as [[[]|e0] s1]; cbn [fst snd] in *;
      [|discriminate].
    destruct (session_run s1) as (r & body & d & Hrun & Hcase).
    cbv zeta in Hrun, Hcase. rewrite Hrun. exists r, d.
    split; [destruct r; reflexivity|]. split.
    - destruct r as [n|e]; [|reflexivity].
      rewrite (keeps_cycle_tail db file n) by reflexivity. reflexivity.
    - destruct (fetch_result (cycle_fetch s1)); [|tauto].
      destruct (store_pickled _ _ _) as [[[]|e1] d1]; tauto. }
  split; [|split; [|split; [|split; [|split; [reflexivity|split]]]]].
  - intros j key st Hj.
    destruct (Hstore key st) as (-> & -> & n & _ & Hret);
      [eapply list_elem_of_lookup_2; eauto|].
    split; [reflexivity|]. split; [reflexivity|]. split.
    + apply list_elem_of_lookup_1 in Hret as (i & Hi). exists i, n.
      split; [|exact Hi]. eapply Hlt; [exact Hi|exact Hj|cbn; lia].
    + intros i eff Hi. eapply Hlt; [exact Hi|exact Hj|cbn; lia].
  - intros j Hj. split; [|split].
    + assert (Hin : EvCommit ∈ events_of (_run_cycle file) self)
        by (eapply list_elem_of_lookup_2; eauto).
      apply Hcommit, list_elem_of_lookup_1 in Hin as (i & Hi).
      exists i. split; [|exact Hi]. eapply Hlt; [exact Hi|exact Hj|cbn; lia].
    + intros i eff Hi. eapply Hlt; [exact Hi|exact Hj|cbn; lia].
    + intros i Hi. eapply (sorted_rank_once _ i j); eauto.
  - intros j ev Hj Hev.
    assert (Hr : (1 < rank ev < 8)%nat)
      by (destruct Hev as [(? & ->)|[(? & ? & ->)| ->]]; cbn; lia).
    destruct (Hsession ev) as (_ & Hi & Hl);
      [eapply list_elem_of_lookup_2; eauto|lia|].
    apply list_elem_of_lookup_1 in Hi as (i & Hi).
    apply list_elem_of_lookup_1 in Hl as (l & Hl).
    split; [|split].
    + exists i, l.
      split; [eapply Hlt; [exact Hi|exact Hj|cbn; lia]|].
      split; [eapply Hlt; [exact Hj|exact Hl|cbn; lia]|].
      split; assumption.
    + intros i' Hi'. eapply Hlt; [exact Hi'|exact Hj|cbn; lia].
    + intros l' Hl'. eapply Hlt; [exact Hj|exact Hl'|cbn; lia].
  - intros Hrun. specialize (Hok Hrun).
    pose proof (Hcommit Hok) as Hi.
    apply list_elem_of_lookup_1 in Hi as (i & Hi).
    apply list_elem_of_lookup_1 in Hok as (j & Hj).
    exists i, j. split; [|split; assumption].
    eapply Hlt; [exact Hi|exact Hj|cbn; lia].
  - intros Hupd. destruct (Hdb Hupd) as (r & d & _ & Hd & Hcase).
    exists d. split; [exact Hd|].
    destruct (fetch_result (cycle_fetch (snd (_update_epochs self))));
      [|tauto].
    destruct (store_pickled _ _ _) as [[[]|e1] d1]; tauto.
  - intros Hrun.
    assert (Hupd : fst (_update_epochs self) = Ok tt).
    { rewrite run_cycle_unfold in Hrun.
      destruct (_update_epochs self) as [[[]|e0] s1]; [reflexivity|].
      discriminate. }
    destruct (Hdb Hupd) as (r & d & Hr & Hd & Hcase).
    rewrite Hrun in Hr.
    destruct (fetch_result (cycle_fetch (snd (_update_epochs self))))
      as [n|e]; [|destruct Hcase as [-> _]; discriminate].
    destruct (store_pickled _ _ _) as [[[]|e1] d1];
      [|destruct Hcase as [-> _]; discriminate].
    destruct Hcase as [-> ->].
    exists n, d1. split; [reflexivity|]. split; [reflexivity|].
    split; [|exact Hd].
    destruct (fst (session_commit d1)) as [[]|e2];
      [reflexivity|discriminate].
Qed.

End CycleProperties.

(** [chain_spec_watch_stops_on_change] in the small setting: the file
    reads ["changed"] at the end of the first cycle. *)
Lemma chain_spec_watch_stops_on_change_witness :
  _running (snd (@_check_chain_spec _ Demo.collaborators (Ok "changed")
                   Demo.app)) = false
  /\ exists how : loop_end,
       @run_loop _ Demo.collaborators [Ok "changed"; Ok "spec"] Demo.app
       = (how, 1%nat,
          snd (@_run_cycle _ Demo.collaborators (Ok "changed") Demo.app))
       /\ how <> LoopStillRunning.
Proof.
  destruct (@chain_spec_watch_stops_on_change _ Demo.collaborators
              (Ok "changed") [Ok "spec"] Demo.app) as (Hchanged & _).
  destruct (Hchanged eq_refl "changed"%string eq_refl eq_refl)
    as (_ & Hflag & _ & Hloop).
  split; [exact Hflag|].
  destruct (Hloop eq_refl) as (how & Hrun & Hhow & _).
  exists how. split; assumption.
Defined.

(** [chain_spec_decode_error_stops] in the small setting. *)
Lemma chain_spec_decode_error_stops_witness :
  _running (snd (@_check_chain_spec _ Demo.collaborators
                   (Raise JSONDecodeError) Demo.app)) = false
  /\ fst (@_check_chain_spec _ Demo.collaborators (Raise JSONDecodeError)
            Demo.app) = Ok tt.
Proof.
  destruct (@chain_spec_decode_error_stops _ Demo.collaborators [Ok "spec"]
              Demo.app eq_refl) as (Heq & Hflag & _).
  split; [exact Hflag|]. rewrite Heq. reflexivity.
Defined.


(** [checkpoint_after_fetch_in_one_session] in the small setting: the
    eleventh event of the first cycle is the commit, and the cycle leaves
    the block and the checkpoint committed in the database. *)
Lemma checkpoint_after_fetch_in_one_session_witness :
  (exists i : nat,
     (i < 10)%nat
     /\ @events_of _ Demo.collaborators unit
          (@_run_cycle _ Demo.collaborators (Ok "spec")) Demo.app !! i
        = Some (EvStorePickled APP_STATE_KEY
                  (@fetched_state _ Demo.collaborators
                     (@cycle_fetch _ Demo.collaborators
                        (snd (@_update_epochs _ Demo.collaborators
                                Demo.app))))))
  /\ Demo.committed
       (db (snd (@_run_cycle _ Demo.collaborators (Ok "spec") Demo.app)))
     = ["block"; "appstate"]%string.
Proof.
  destruct (@checkpoint_after_fetch_in_one_session _ Demo.collaborators
              (Ok "spec") Demo.app)
    as (_ & Hcommit & _ & _ & _ & _ & Hdb).
  split.
  - destruct (Hcommit 10%nat) as (Hstore & _); [vm_compute; reflexivity|].
    exact Hstore.
  - destruct Hdb as (n & d1 & _ & Hstore & _ & ->); [vm_compute; reflexivity|].
    vm_compute in Hstore. injection Hstore as <-. reflexivity.
Defined.

(** * Further properties *)

(** ** The fetch cycle, the loop and the restart *)

Section CycleFurther.
Context `{Collaborators}.

Lemma emits_only_finally {A : Type} p (body : M A) (cleanup : M unit) :
  emits_only p body -> emits_only p cleanup ->
  emits_only p (finally body cleanup).
Proof.
  intros Hb Hc self. unfold finally.
  destruct (Hb self) as (evs1 & Ht1 & Hp1).
  destruct (body self) as [r self']. cbn [snd] in *.
  destruct (Hc self') as (evs2 & Ht2 & Hp2).
  exists (evs1 ++ evs2). rewrite Ht2, Ht1, <- List.app_assoc.
  split; [reflexivity|]. apply Forall_app; auto.
Qed.

Lemma emits_only_impl {A : Type} (p q : event -> bool) (m : M A) :
  (forall ev, p ev = true -> q ev = true) -> emits_only p m -> emits_only q m.
Proof.
  intros Hpq Hm self. destruct (Hm self) as (evs & Ht & Hp).
  exists evs. split; [exact Ht|]. eapply Forall_impl; eauto.
Qed.

Lemma emits_only_events_of {A : Type} p (m : M A) (self : App) :
  emits_only p m ->
  trace (snd (m self)) = trace self ++ events_of m self
  /\ Forall (fun ev => p ev = true) (events_of m self).
Proof.
  intros Hm. destruct (Hm self) as (evs & Ht & Hp). unfold events_of.
  rewrite Ht, drop_app_length. auto.
Qed.

Lemma emits_only_session_body : emits_only is_cycle_event session_body.
Proof.
  unfold session_body, call_fetch_and_insert_new_blocks, call_store_pickled,
    call_commit, set_db, set_pipeline.
  repeat first
    [ apply emits_only_bind; [|intros ?]
    | apply emits_only_for_each; intros ?
    | apply emits_only_get
    | apply emits_only_lift
    | apply emits_only_ret
    | apply emits_only_modify; reflexivity
    | apply emits_only_emit; reflexivity ].
Qed.

Lemma emits_only_run_cycle (file : result ChainSpec) :
  emits_only is_cycle_event (_run_cycle file).
Proof.
  change (_run_cycle file)
    with (_update_epochs;;
          n ← with_persistent_session session_body; cycle_tail file n).
  apply emits_only_bind.
  { eapply emits_only_impl; [|apply emits_only_update_epochs].
    intros []; cbn; congruence. }
  intros _. apply emits_only_bind.
  - unfold with_persistent_session, set_db.
    apply emits_only_bind; [apply emits_only_get|intros ?].
    apply emits_only_bind; [apply emits_only_emit; reflexivity|intros ?].
    apply emits_only_bind; [apply emits_only_modify; reflexivity|intros ?].
    apply emits_only_finally; [apply emits_only_session_body|].
    repeat first
      [ apply emits_only_bind; [|intros ?]
      | apply emits_only_get
      | apply emits_only_modify; reflexivity
      | apply emits_only_emit; reflexivity ].
  - intros n. eapply emits_only_impl; [|apply emits_only_cycle_tail].
    intros []; cbn; congruence.
Qed.

Lemma run_loop_trace (files : list (result ChainSpec)) (self : App) :
  exists evs : list event,
    trace (snd (run_loop files self)) = trace self ++ evs
    /\ Forall (fun ev => is_cycle_event ev = true) evs.
Proof.
  revert self. induction files as [|file rest IH]; intros self.
  - exists []. destruct (_running self) eqn:Hr; cbn [run_loop]; rewrite Hr;
      cbn; rewrite app_nil_r; auto.
  - destruct (_running self) eqn:Hr.
    + rewrite run_loop_cycle by exact Hr.
      destruct (emits_only_run_cycle file self) as (evs1 & Ht1 & Hp1).
      destruct (_run_cycle file self) as [[[]|e] s1]; cbn [snd] in *.
      * destruct (IH s1) as (evs2 & Ht2 & Hp2).
        destruct (run_loop rest s1) as [[how n] s2]. cbn [snd] in *.
        exists (evs1 ++ evs2). rewrite Ht2, Ht1, <- List.app_assoc.
        split; [reflexivity|]. apply Forall_app; auto.
      * exists evs1. auto.
    + rewrite run_loop_stopped by exact Hr. exists []. cbn.
      rewrite app_nil_r. auto.
Qed.

(** X1: [run] closes the skip file exactly once, as the last thing it
    does, whether the loop was stopped or a cycle raised: its events are
    the log line of the start, the events of the cycles, none of which
    closes the file, and the closing of the file. *)
Theorem run_closes_skip_file_last (files : list (result ChainSpec))
  (self : App) :
  exists evs : list event,
    trace (snd (run files self))
    = trace self ++ [EvLogInfo "starting sync"] ++ evs ++ [EvSkipFileClose]
    /\ (EvSkipFileClose ∉ evs).
Proof.
  unfold run.
  set (s0 := snd (log_info "starting sync" (snd (set_running true self)))).
  destruct (run_loop_trace files s0) as (evs & Ht & Hp).
  destruct (run_loop files s0) as [[how n] s1]. cbn [snd] in *.
  exists evs. cbn [emit modify snd add_events trace]. rewrite Ht. subst s0.
  cbn. rewrite <- !List.app_assoc. split; [reflexivity|].
  intros Hin. rewrite Forall_forall in Hp. specialize (Hp _ Hin).
  discriminate.
Qed.

(** X2: a [stop] takes effect at the next test of the loop, and only
    there: the loop runs no cycle once [stop] was called, but [run] itself
    sets the flag again before it enters the loop, so that a stop
    requested before [run] is forgotten and the first cycle runs. *)
Theorem stop_before_run_is_forgotten (file : result ChainSpec)
  (rest : list (result ChainSpec)) (self : App) :
  _running (snd (stop self)) = false
  /\ run_loop (file :: rest) (snd (stop self))
     = (LoopStopped, 0%nat, snd (stop self))
  /\ (1 <= snd (fst (run (file :: rest) (snd (stop self)))))%nat
  /\ forall b : bool,
       run (file :: rest) (with_running b self) = run (file :: rest) self.
Proof.
  split; [reflexivity|]. split; [apply run_loop_stopped; reflexivity|].
  split.
  - unfold run.
    match goal with |- context [run_loop _ ?s] => set (s0 := s) end.
    rewrite run_loop_cycle by reflexivity.
    destruct (_run_cycle file s0) as [[[]|e] s1].
    + destruct (run_loop rest s1) as [[how n] s2]. cbn. lia.
    + cbn. lia.
  - intros b. reflexivity.
Qed.

Lemma check_chain_spec_raises (file : result ChainSpec) (self : App)
  (e : exn) :
  fst (_check_chain_spec file self) = Raise e ->
  file = Raise e /\ e <> JSONDecodeError /\ watch_chain_spec self = true.
Proof.
  unfold _check_chain_spec. rewrite run_bind. cbn [get].
  destruct (watch_chain_spec self) eqn:Hw; cbn [negb]; [|discriminate].
  rewrite run_bind. cbn [emit modify]. rewrite run_bind.
  destruct file as [cs|e0].
  - cbn [mret M_ret ret]. destruct (chain_spec_ne _ _); discriminate.
  - destruct e0; cbn; try discriminate; intros [= <-];
      repeat split; discriminate.
Qed.

(** The chain-spec check clears the flag only on a change. *)
Lemma check_chain_spec_clears (file : result ChainSpec) (self : App) :
  _running self = true ->
  _running (snd (_check_chain_spec file self)) = false ->
  fst (_check_chain_spec file self) = Ok tt
  /\ watch_chain_spec self = true /\ chain_spec_changed self file.
Proof.
  intros Hr. unfold chain_spec_changed.
  destruct (watch_chain_spec self) eqn:Hw.
  - destruct file as [cs|e].
    + destruct (chain_spec_ne cs (original_chain_spec self)) eqn:Hne.
      * rewrite check_chain_spec_changed by eauto. eauto 6.
      * rewrite check_chain_spec_same by assumption. cbn. congruence.
    + assert (e = JSONDecodeError \/ e <> JSONDecodeError) as [->|He]
        by (destruct e; first [left; reflexivity | right; discriminate]).
      * rewrite check_chain_spec_changed by auto. auto.
      * destruct (check_chain_spec_other_error self e Hw He) as [_ Hk].
        congruence.
  - rewrite check_chain_spec_unwatched by exact Hw. cbn. congruence.
Qed.


(** X3: the loop ends with the flag cleared only because a change of the
    chain spec was detected: the chain spec is watched, and the file read
    at the end of the last cycle was no JSON document or differed from the
    original.  In particular a monitor that does not watch the chain spec
    never leaves the loop by itself. *)
Theorem loop_stops_only_on_change (files : list (result ChainSpec))
  (self self' : App) (n : nat) :
  _running self = true ->
  run_loop files self = (LoopStopped, n, self') ->
  watch_chain_spec self = true
  /\ _running self' = false
  /\ exists (k : nat) (file : result ChainSpec),
       n = S k /\ files !! k = Some file /\ chain_spec_changed self file.
Proof.
  revert self n. induction files as [|file rest IH]; intros self n Hr Hrun.
  - cbn [run_loop] in Hrun. rewrite Hr in Hrun. discriminate.
  - rewrite run_loop_cycle in Hrun by exact Hr.
    destruct (run_cycle_split file self)
      as [(e & s & Heq & _)|(mid & Hfl & Heq)];
      rewrite Heq in Hrun; [discriminate|].
    unfold flags in Hfl. injection Hfl as Hw Ho Hrm.
    pose proof (keeps_check_chain_spec
                  (fun s => (watch_chain_spec s, original_chain_spec s)) file
                  ltac:(reflexivity) ltac:(reflexivity) mid) as Hkeep.
    cbv beta in Hkeep.
    destruct (_check_chain_spec file mid) as [[[]|e] s1] eqn:Hchk;
      [|discriminate].
    cbn [snd] in Hkeep. injection Hkeep as Hw1 Ho1.
    destruct (_running s1) eqn:Hr1.
    + destruct (run_loop rest s1) as [[how m] s2] eqn:Hrest.
      injection Hrun as -> <- ->.
      destruct (IH s1 m Hr1 Hrest) as (Hw2 & Hr2 & k & f & -> & Hk & Hch).
      split; [congruence|]. split; [exact Hr2|].
      exists (S k), f. split; [reflexivity|]. split; [exact Hk|].
      unfold chain_spec_changed in *. rewrite <- Ho, <- Ho1. exact Hch.
    + rewrite run_loop_stopped in Hrun by exact Hr1.
      injection Hrun as <- <-.
      destruct (check_chain_spec_clears file mid) as (_ & Hwm & Hch).
      * congruence.
      * rewrite Hchk. exact Hr1.
      * split; [congruence|]. split; [exact Hr1|].
        exists 0%nat, file. split; [reflexivity|]. split; [reflexivity|].
        unfold chain_spec_changed in *. rewrite <- Ho. exact Hch.
Qed.

Lemma run_cycle_trace (file : result ChainSpec) (self : App) :
  trace (snd (_run_cycle file self))
  = trace self ++ events_of (_run_cycle file) self.
Proof. apply (emits_only_events_of _ _ _ (emits_only_run_cycle file)). Qed.

Lemma update_epochs_trace (self : App) :
  trace (snd (_update_epochs self))
  = trace self ++ events_of _update_epochs self
  /\ Forall (fun ev => is_epoch_event ev = true) (events_of _update_epochs self).
Proof. apply (emits_only_events_of _ _ _ emits_only_update_epochs). Qed.

(** X4: a cycle whose fetch of new blocks raises stores no checkpoint and
    commits nothing: the exception leaves the cycle as it is, the events of
    the cycle end with the exit from the database session, which is left
    with what the fetch had done to it but without a commit, and neither
    the log line of the sync status nor the chain-spec check follows. *)
Theorem failed_fetch_leaves_no_checkpoint (file : result ChainSpec)
  (self : App) (e : exn) :
  let s1 := snd (_update_epochs self) in
  let out := cycle_fetch s1 in
  fst (_update_epochs self) = Ok tt ->
  fetch_result out = Raise e ->
  fst (_run_cycle file self) = Raise e
  /\ events_of (_run_cycle file) self
     = events_of _update_epochs self
       ++ [EvSessionEnter;
           EvFetchCall 500 (last_fetch_height (epoch_fetcher s1))]
       ++ map EvFetchEffect (fetch_effects out) ++ [EvSessionExit]
  /\ db (snd (_run_cycle file self)) = session_exit (fetch_db out)
  /\ _running (snd (_run_cycle file self)) = _running self.
Proof.
  cbv zeta. intros Hupd Hres.
  pose proof (keeps_flags_update_epochs self) as Hfl.
  destruct (update_epochs_trace self) as [Ht1 _].
  unfold events_of at 1. rewrite run_cycle_unfold.
  destruct (_update_epochs self) as [[[]|e0] s1]; cbn [fst snd] in *;
    [|discriminate].
  destruct (session_run s1) as (r & body & d & Hrun & Hcase).
  cbv zeta in Hrun, Hcase. rewrite Hres in Hcase.
  destruct Hcase as (-> & -> & ->). rewrite Hrun. cbn [fst snd].
  split; [reflexivity|]. split; [|split].
  - cbn [with_pipeline add_events trace]. rewrite Ht1.
    rewrite <- !List.app_assoc, drop_app_length. reflexivity.
  - reflexivity.
  - unfold flags in Hfl. injection Hfl as _ _ Hr. exact Hr.
Qed.


Lemma emits_only_session :
  emits_only (fun ev => (1 <=? rank ev)%nat && (rank ev <=? 8)%nat)
    (with_persistent_session session_body).
Proof.
  unfold with_persistent_session, session_body,
    call_fetch_and_insert_new_blocks, call_store_pickled, call_commit,
    set_db, set_pipeline.
  repeat first
    [ apply emits_only_bind; [|intros ?]
    | apply emits_only_finally
    | apply emits_only_for_each; intros ?
    | apply emits_only_get
    | apply emits_only_lift
    | apply emits_only_ret
    | apply emits_only_modify; reflexivity
    | apply emits_only_emit; reflexivity ].
Qed.

Lemma emits_only_check_events (file : result ChainSpec) :
  emits_only is_check_event (_check_chain_spec file).
Proof.
  unfold _check_chain_spec, stop, log_info, set_running.
  apply emits_only_bind; [apply emits_only_get|intros self].
  apply emits_only_if; [apply emits_only_ret|].
  apply emits_only_bind; [apply emits_only_emit; reflexivity|intros _].
  apply emits_only_bind.
  - destruct file as [cs|[]];
      first [apply emits_only_ret | apply emits_only_raise].
  - intros b. apply emits_only_if; [|apply emits_only_ret].
    repeat first
      [ apply emits_only_bind; [|intros ?]
      | apply emits_only_modify; reflexivity
      | apply emits_only_emit; reflexivity ].
Qed.

(** The events of a cycle, phase by phase. *)
Lemma run_cycle_parts (file : result ChainSpec) (self : App) :
  let s1 := snd (_update_epochs self) in
  let s2 := snd (with_persistent_session session_body s1) in
  events_of (_run_cycle file) self
  = events_of _update_epochs self
    ++ match fst (_update_epochs self) with
       | Raise _ => []
       | Ok _ =>
           events_of (with_persistent_session session_body) s1
           ++ match fst (with_persistent_session session_body s1) with
              | Raise _ => []
              | Ok n => events_of (cycle_tail file n) s2
              end
       end.
Proof.
  cbv zeta. unfold events_of at 1. rewrite run_cycle_unfold.
  destruct (update_epochs_trace self) as [Ht1 _].
  destruct (_update_epochs self) as [[[]|e0] s1]; cbn [fst snd] in *.
  - destruct (emits_only_events_of _ _ s1 emits_only_session) as [Ht2 _].
    destruct (with_persistent_session session_body s1) as [[n|e1] s2];
      cbn [fst snd] in *.
    + destruct (emits_only_events_of _ _ s2 (emits_only_cycle_tail file n))
        as [Ht3 _].
      rewrite Ht3, Ht2, Ht1, <- !List.app_assoc, drop_app_length.
      reflexivity.
    + rewrite Ht2, Ht1, <- !List.app_assoc, drop_app_length, app_nil_r.
      reflexivity.
  - rewrite Ht1, drop_app_length, app_nil_r. reflexivity.
Qed.

Lemma cycle_tail_events (file : result ChainSpec) (n : Z) (s2 : App) :
  exists chk : list event,
    events_of (cycle_tail file n) s2
    = EvLogInfo (sync_log_message (block_fetcher s2))
      :: (if n =? 0 then [EvSleep BLOCK_FETCH_INTERVAL] else []) ++ chk
    /\ Forall (fun ev => is_check_event ev = true) chk.
Proof.
  unfold events_of, cycle_tail. rewrite run_bind. cbn [get].
  rewrite run_bind. cbn [log_info emit modify]. rewrite run_bind.
  set (msg := EvLogInfo (sync_log_message (block_fetcher s2))).
  destruct (n =? 0); cbn [emit modify mret M_ret ret].
  - destruct (emits_only_check_events file
                (add_events [EvSleep BLOCK_FETCH_INTERVAL]
                   (add_events [msg] s2))) as (chk & Ht & Hp).
    exists chk. split; [|exact Hp]. rewrite Ht. cbn [add_events trace].
    rewrite <- !List.app_assoc, drop_app_length. reflexivity.
  - destruct (emits_only_check_events file (add_events [msg] s2))
      as (chk & Ht & Hp).
    exists chk. split; [|exact Hp]. rewrite Ht. cbn [add_events trace].
    rewrite <- !List.app_assoc, drop_app_length. reflexivity.
Qed.

(** X5: a cycle sleeps exactly when it has fetched no new block: the
    pause of [BLOCK_FETCH_INTERVAL], two and a half seconds, is taken if and
    only if the database session of the cycle has returned with zero new
    blocks; a cycle that found blocks goes on without a pause, and so does
    one that raised before. *)
Theorem cycle_sleeps_iff_no_new_blocks (file : result ChainSpec)
  (self : App) (seconds : float) :
  let s1 := snd (_update_epochs self) in
  BLOCK_FETCH_INTERVAL = 2.5%float
  /\ (EvSleep seconds ∈ events_of (_run_cycle file) self <->
      seconds = BLOCK_FETCH_INTERVAL
      /\ fst (_update_epochs self) = Ok tt
      /\ fst (with_persistent_session session_body s1) = Ok 0).
Proof.
  cbv zeta. split; [reflexivity|].
  rewrite run_cycle_parts. cbv zeta.
  destruct (update_epochs_trace self) as [_ Hp1].
  rewrite Forall_forall in Hp1.
  rewrite elem_of_app. split.
  - intros [Hin|Hin]; [apply Hp1 in Hin; discriminate|].
    destruct (fst (_update_epochs self)) as [[]|e0];
      [|apply elem_of_nil in Hin; contradiction].
    apply elem_of_app in Hin.
    destruct (emits_only_events_of _ _ (snd (_update_epochs self))
                emits_only_session) as [_ Hp2].
    rewrite Forall_forall in Hp2.
    destruct Hin as [Hin|Hin]; [apply Hp2 in Hin; discriminate|].
    destruct (fst (with_persistent_session session_body _)) as [n|e1];
      [|apply elem_of_nil in Hin; contradiction].
    destruct (cycle_tail_events file n
                (snd (with_persistent_session session_body
                        (snd (_update_epochs self)))))
      as (chk & Hev & Hchk).
    rewrite Hev in Hin. rewrite Forall_forall in Hchk.
    apply elem_of_cons in Hin as [Hin|Hin]; [discriminate|].
    apply elem_of_app in Hin as [Hin|Hin];
      [|apply Hchk in Hin; discriminate].
    destruct (n =? 0) eqn:Hn; [|apply elem_of_nil in Hin; contradiction].
    apply Z.eqb_eq in Hn. subst n.
    apply list_elem_of_singleton in Hin. injection Hin as ->. auto.
  - intros (-> & Hupd & Hses). right. rewrite Hupd, Hses.
    apply elem_of_app. right.
    destruct (cycle_tail_events file 0
                (snd (with_persistent_session session_body
                        (snd (_update_epochs self)))))
      as (chk & Hev & _).
    rewrite Hev. cbn. apply elem_of_cons. right. apply elem_of_cons. now left.
Qed.

(** What [_update_epochs] returns or raises. *)
Lemma update_epochs_result (self : App) :
  fst (_update_epochs self)
  = match fetch_new_epochs (epoch_fetcher self) with
    | (Raise e, _) => Raise e
    | (Ok new_epochs, _) =>
        match add_epochs new_epochs (primary_oracle self) with
        | Ok _ => Ok tt
        | Raise e => Raise e
        end
    end.
Proof.
  destruct (fetch_new_epochs (epoch_fetcher self)) as [[eps|e] ef] eqn:Hfetch.
  - unfold _update_epochs, call_fetch_new_epochs.
    rewrite !run_bind. cbn [get]. rewrite !run_bind. cbn [emit modify].
    rewrite !run_bind. cbn [set_epoch_fetcher modify epoch_fetcher add_events].
    rewrite Hfetch. cbn [fst snd lift mret M_ret ret].
    set (s0 := with_epoch_fetcher ef (add_events [EvFetchNewEpochs] self)).
    rewrite !run_bind.
    destruct (run_add_epochs eps s0) as (k & po & Hs & Hr).
    change (primary_oracle s0) with (primary_oracle self) in Hr.
    destruct (for_each eps call_add_epoch s0) as [[[]|e] s']; cbn [fst snd] in *.
    + destruct Hr as [_ ->]. reflexivity.
    + rewrite Hr. reflexivity.
  - apply update_epochs_raises. now rewrite Hfetch.
Qed.

(** X6: a cycle that cannot update the epochs fetches no block: when
    the epoch fetcher or the oracle raises, the exception leaves the cycle
    as it is, the cycle has epoch events only (no database session is
    entered, no block is fetched, no checkpoint is stored), and the
    database, the block fetcher, the reporters and the flags are as
    before. *)
Theorem failed_epoch_update_skips_fetch (file : result ChainSpec)
  (self : App) (e : exn) :
  fst (fetch_new_epochs (epoch_fetcher self)) = Raise e
  \/ (exists new_epochs : list Epoch,
        fst (fetch_new_epochs (epoch_fetcher self)) = Ok new_epochs
        /\ add_epochs new_epochs (primary_oracle self) = Raise e) ->
  _run_cycle file self = (Raise e, snd (_update_epochs self))
  /\ Forall (fun ev => is_epoch_event ev = true)
       (events_of (_run_cycle file) self)
  /\ fetch_side (snd (_run_cycle file self)) = fetch_side self
  /\ flags (snd (_run_cycle file self)) = flags self.
Proof.
  intros Hfail.
  assert (Hupd : fst (_update_epochs self) = Raise e).
  { rewrite update_epochs_result.
    destruct (fetch_new_epochs (epoch_fetcher self)) as [[eps|e0] ef];
      cbn [fst] in Hfail.
    - destruct Hfail as [Hf|(eps' & [= <-] & ->)]; [discriminate|reflexivity].
    - destruct Hfail as [[= ->]|(eps' & Hf & _)]; [reflexivity|discriminate]. }
  pose proof (run_cycle_parts file self) as Hparts. cbv zeta in Hparts.
  rewrite Hupd, app_nil_r in Hparts. rewrite Hparts.
  destruct (update_epochs_trace self) as [_ Hp].
  pose proof (keeps_fetch_side_update_epochs self) as Hside.
  pose proof (keeps_flags_update_epochs self) as Hfl.
  rewrite run_cycle_unfold.
  destruct (_update_epochs self) as [[[]|e0] s1]; cbn [fst snd] in *;
    [discriminate|].
  injection Hupd as ->. auto.
Qed.

(** X7: an exception raised inside the database session (by the fetch,
    by the store of the checkpoint or by the commit) leaves the cycle as it
    is; the session is left all the same, its exit is the last event of the
    cycle: no sync status is logged, no pause is taken, the chain spec is
    not checked, and the flag [_running] stays as it was. *)
Theorem session_exception_ends_cycle (file : result ChainSpec) (self : App)
  (e : exn) :
  let s1 := snd (_update_epochs self) in
  fst (_update_epochs self) = Ok tt ->
  fst (with_persistent_session session_body s1) = Raise e ->
  fst (_run_cycle file self) = Raise e
  /\ (exists evs : list event,
        events_of (_run_cycle file) self = evs ++ [EvSessionExit])
  /\ Forall (fun ev => is_tail_event ev = false)
       (events_of (_run_cycle file) self)
  /\ _running (snd (_run_cycle file self)) = _running self.
Proof.
  cbv zeta. intros Hupd Hses.
  pose proof (run_cycle_parts file self) as Hparts. cbv zeta in Hparts.
  rewrite Hupd, Hses, app_nil_r in Hparts. rewrite Hparts.
  destruct (update_epochs_trace self) as [_ Hp1].
  pose proof (keeps_flags_update_epochs self) as Hfl1.
  rewrite run_cycle_unfold.
  destruct (_update_epochs self) as [[[]|e0] s1]; cbn [fst snd] in *;
    [|discriminate].
  destruct (emits_only_events_of _ _ s1 emits_only_session) as [_ Hp2].
  pose proof (keeps_flags_session s1) as Hfl2.
  change (with_persistent_session _ s1)
    with (with_persistent_session session_body s1) in Hfl2.
  destruct (session_run s1) as (r & body & d & Hrun & _). cbv zeta in Hrun.
  assert (Hlast : exists evs,
            events_of (with_persistent_session session_body) s1
            = evs ++ [EvSessionExit]).
  { unfold events_of. rewrite Hrun. cbn [snd with_pipeline add_events trace].
    rewrite drop_app_length. eexists. rewrite !List.app_assoc. reflexivity. }
  destruct (with_persistent_session session_body s1) as [[n|e1] s2];
    cbn [fst snd] in *; [discriminate|].
  injection Hses as ->. split; [reflexivity|]. split; [|split].
  - destruct Hlast as (evs & ->). eexists. apply List.app_assoc.
  - apply Forall_app. split.
    + eapply Forall_impl; [exact Hp1|]. intros []; cbn; congruence.
    + eapply Forall_impl; [exact Hp2|]. intros []; cbn; congruence.
  - unfold flags in *. congruence.
Qed.



(** X9: an error in reading the chain spec that is no JSON decode error
    (the file is gone, say, or is no text) is not taken for a change: it
    leaves [_check_chain_spec], the cycle and the loop as an exception, with
    the flag [_running] still set and without the log line of a stop. *)
Theorem chain_spec_read_error_ends_run (rest : list (result ChainSpec))
  (self : App) (e : exn) :
  watch_chain_spec self = true ->
  _running self = true ->
  e <> JSONDecodeError ->
  fst (_check_chain_spec (Raise e) self) = Raise e
  /\ events_of (_check_chain_spec (Raise e)) self = [EvReadChainSpec]
  /\ exists (e' : exn) (self' : App),
       run_loop (Raise e :: rest) self = (LoopRaised e', 1%nat, self')
       /\ _running self' = true
       /\ (fst (_update_epochs self) = Ok tt ->
           is_ok (fst (with_persistent_session session_body
                         (snd (_update_epochs self)))) = true ->
           e' = e).
Proof.
  intros Hw Hr He.
  assert (Hchk : forall s, watch_chain_spec s = true ->
            _check_chain_spec (Raise e) s
            = (Raise e, add_events [EvReadChainSpec] s)).
  { intros s Hws. unfold _check_chain_spec. rewrite run_bind. cbn [get].
    rewrite Hws. cbn [negb]. rewrite run_bind. cbn [emit modify].
    rewrite run_bind. destruct e; try congruence; reflexivity. }
  split; [rewrite Hchk by exact Hw; reflexivity|]. split.
  { unfold events_of. rewrite Hchk by exact Hw. cbn [snd add_events trace].
    apply drop_app_length. }
  rewrite run_loop_cycle by exact Hr. rewrite run_cycle_unfold.
  pose proof (keeps_flags_update_epochs self) as Hfl1.
  destruct (_update_epochs self) as [[[]|e0] s1]; cbn [fst snd] in *.
  - pose proof (keeps_flags_session s1) as Hfl2.
    change (with_persistent_session _ s1)
      with (with_persistent_session session_body s1) in Hfl2.
    destruct (with_persistent_session session_body s1) as [[n|e1] s2];
      cbn [fst snd] in *.
    + unfold cycle_tail. rewrite run_bind. cbn [get].
      rewrite run_bind. cbn [log_info emit modify]. rewrite run_bind.
      unfold flags in *. injection Hfl1 as Hw1 _ Hr1.
      injection Hfl2 as Hw2 _ Hr2.
      destruct (n =? 0); cbn [emit modify mret M_ret ret];
        (rewrite Hchk by (cbn; congruence));
        eexists _, _; (split; [reflexivity|]);
        (split; [cbn; congruence|reflexivity]).
    + eexists _, _. split; [reflexivity|].
      unfold flags in *. split; [congruence|]. discriminate.
  - eexists _, _. split; [reflexivity|].
    unfold flags in *. split; [congruence|]. discriminate.
Qed.

Lemma keeps_fetch_side_tail (file : result ChainSpec) (n : Z) :
  keeps fetch_side (cycle_tail file n).
Proof. apply keeps_cycle_tail; reflexivity. Qed.

(** X10: the checkpoint of a cycle is the state the cycle ends with: a
    monitor restarted on the checkpoint that a cycle has stored builds its
    block fetcher and its reporters, with or without [upgrade_db], from
    exactly the states that the block fetcher and the reporters had when
    the cycle ended. *)
Theorem restart_resumes_from_checkpoint (file : result ChainSpec)
  (self : App) (j : nat) (key : string) (st : AppStateV2.t)
  (upgrade_db : bool) (skip_rate : float) (offline_window_size : Z) :
  events_of (_run_cycle file) self !! j = Some (EvStorePickled key st) ->
  let self' := snd (_run_cycle file self) in
  st = app_state self'
  /\ App_init_reporters upgrade_db (PyAppStateV2 st) skip_rate
       offline_window_size
     = Ok (mk_Reporters _
             (BlockFetcher_state (block_fetcher self'), MAX_REORG_DEPTH)
             (SkipReporter_state (skip_reporter self'), GRACE_PERIOD)
             (OfflineReporter_state (offline_reporter self'),
              offline_window_size, skip_rate)).
Proof.
  intros Hj. cbv zeta.
  destruct (run_cycle_events file self) as (Hstore & _ & Hses & _).
  cbv zeta in Hstore, Hses.
  apply list_elem_of_lookup_2 in Hj.
  destruct (Hstore _ _ Hj) as (_ & -> & _).
  destruct (Hses _ Hj ltac:(cbn; lia)) as (Hupd & _).
  assert (Hside : fetch_side (snd (_run_cycle file self))
                  = fetch_side
                      (snd (with_persistent_session session_body
                              (snd (_update_epochs self))))).
  { rewrite run_cycle_unfold.
    destruct (_update_epochs self) as [[[]|e0] s1]; cbn [fst snd] in *;
      [|discriminate].
    destruct (with_persistent_session session_body s1) as [[n|e1] s2];
      cbn [fst snd]; [apply keeps_fetch_side_tail|reflexivity]. }
  destruct (session_trace (snd (_update_epochs self)))
    as (body & _ & Hbf & Hsr & Hofr & _).
  cbv zeta in Hbf, Hsr, Hofr.
  unfold fetch_side in Hside. injection Hside as _ Hbf' Hsr' Hofr'.
  assert (Hst : fetched_state (cycle_fetch (snd (_update_epochs self)))
                = app_state (snd (_run_cycle file self))).
  { unfold fetched_state, app_state. congruence. }
  split; [exact Hst|]. rewrite Hst.
  destruct upgrade_db; reflexivity.
Qed.

End CycleFurther.

(** ** The application state at startup *)

Section AppStateMore.
Context `{ReporterStates}.

(** X11: what [App.__init__] does with the object found in the
    database.  It is accepted exactly when it is falsy (nothing was
    stored), a version-2 state, or a version-1 state with [upgrade_db] set;
    every other object is refused with [InvalidAppStateException].  A falsy
    object, of whatever class, is replaced by the fresh state, with or
    without [upgrade_db], and the reporters are built from the fresh
    states with the reorg depth 1000 and the grace period 10. *)
Theorem init_accepts_state_iff (upgrade_db : bool) (pickled : pyobj)
  (skip_rate : float) (offline_window_size : Z) :
  let r := App_init_reporters upgrade_db pickled skip_rate offline_window_size in
  (is_ok r = true <->
   truthy pickled = false
   \/ isinstance pickled ClsAppStateV2 = true
   \/ (upgrade_db = true /\ isinstance pickled ClsAppStateV1 = true))
  /\ (is_ok r = false -> r = Raise InvalidAppStateException)
  /\ (truthy pickled = false ->
      r = Ok (mk_Reporters _
                (BlockFetcher_get_fresh_state, 1000)
                (SkipReporter_get_fresh_state, 10)
                (OfflineReporter_get_fresh_state, offline_window_size,
                 skip_rate))).
Proof.
  cbv zeta. unfold App_init_reporters, _load_app_state.
  destruct pickled as [|v1|v2|name [|]], upgrade_db; cbn;
    (split; [split; [intros Hok|intros Hor]|split; intros Hf]);
    try reflexivity; try discriminate; auto;
    try (destruct Hor as [Hor|[Hor|[Hor1 Hor2]]]; discriminate).
Qed.

(** X12: what [_upgrade_app_state] returns is a version-2 state, is
    accepted by [_initialize_reporters], and is left as it is by another
    upgrade: upgrading twice is upgrading once. *)
Theorem upgrade_app_state_result (app_state app_state' : pyobj)
  (skip_rate : float) (offline_window_size : Z) :
  _upgrade_app_state app_state = Ok app_state' ->
  isinstance app_state' ClsAppStateV2 = true
  /\ _upgrade_app_state app_state' = Ok app_state'
  /\ is_ok (_initialize_reporters app_state' skip_rate offline_window_size)
     = true.
Proof.
  destruct app_state; cbn; try discriminate; intros [= <-]; auto.
Qed.

End AppStateMore.

(** *** Texts *)

Lemma str_app_inv_head (s a b : string) : s +:+ a = s +:+ b -> a = b.
Proof. induction s as [|c s IH]; simpl; [auto|]. intros [= Heq]. auto. Qed.

(** A text is cut at the first occurrence of a separator in one way
    only. *)
Lemma str_split_unique (c : ascii) (s1 s2 r1 r2 : string) :
  Py.count c s1 = 0%nat -> Py.count c s2 = 0%nat ->
  s1 +:+ String c r1 = s2 +:+ String c r2 -> s1 = s2 /\ r1 = r2.
Proof.
  revert s2. induction s1 as [|a s1 IH]; intros [|b s2]; simpl.
  - intros _ _ [= ->]. auto.
  - intros _ Hb [= <- _]. rewrite Ascii.eqb_refl in Hb. discriminate.
  - intros Ha _ [= -> _]. rewrite Ascii.eqb_refl in Ha. discriminate.
  - intros Ha Hb [= -> Heq].
    destruct (Ascii.eqb b c); [discriminate|].
    destruct (IH s2 Ha Hb Heq) as [-> ->]. auto.
Qed.

Lemma str_int_inj (n m : Z) : Py.str_int n = Py.str_int m -> n = m.
Proof.
  unfold Py.str_int. intros Heq. apply DecimalZ.to_int_inj.
  assert (Hisi : forall z, NilZero.int_of_string
                             (NilZero.string_of_int (Z.to_int z))
                           = Some (Z.to_int z)).
  { intros z. apply NilZero.isi; destruct z; cbn; try discriminate;
      intros [= Hp]; revert Hp; apply Unsigned.to_uint_nonnil. }
  pose proof (Hisi n) as Hn. rewrite Heq, Hisi in Hn. congruence.
Qed.

Lemma hex_digit_inj (n m : N) :
  (n < 16)%N -> (m < 16)%N ->
  EthUtils.hex_digit n = EthUtils.hex_digit m -> n = m.
Proof.
  intros Hn Hm Heq. apply (f_equal N_of_ascii) in Heq.
  unfold EthUtils.hex_digit in Heq.
  destruct (N.ltb_spec n 10), (N.ltb_spec m 10);
    rewrite !N_ascii_embedding in Heq by lia; lia.
Qed.

Lemma hex_of_byte_inj (b1 b2 : byte) :
  EthUtils.hex_of_byte b1 = EthUtils.hex_of_byte b2 -> b1 = b2.
Proof.
  unfold EthUtils.hex_of_byte. intros [= H1 H2].
  pose proof (Byte.to_N_bounded b1). pose proof (Byte.to_N_bounded b2).
  apply hex_digit_inj in H1;
    [|apply N.Div0.div_lt_upper_bound; lia..].
  apply hex_digit_inj in H2; [|apply N.mod_lt; lia..].
  assert (Heq : Byte.to_N b1 = Byte.to_N b2).
  { rewrite (N.div_mod (Byte.to_N b1) 16), (N.div_mod (Byte.to_N b2) 16) by lia.
    congruence. }
  pose proof (Byte.of_to_N b1) as E1. rewrite Heq, Byte.of_to_N in E1.
  congruence.
Qed.

Lemma hexlify_inj (bs1 bs2 : list byte) :
  EthUtils.hexlify bs1 = EthUtils.hexlify bs2 -> bs1 = bs2.
Proof.
  revert bs2. induction bs1 as [|b1 bs1 IH]; intros [|b2 bs2];
    cbn [EthUtils.hexlify]; try (unfold EthUtils.hex_of_byte; discriminate).
  - reflexivity.
  - unfold EthUtils.hex_of_byte. cbn [String.append]. intros [= H1 H2 Hrest].
    f_equal; [|apply IH; exact Hrest].
    apply hex_of_byte_inj. unfold EthUtils.hex_of_byte. congruence.
Qed.

Lemma encode_hex_inj (bs1 bs2 : list byte) :
  EthUtils.encode_hex bs1 = EthUtils.encode_hex bs2 -> bs1 = bs2.
Proof.
  unfold EthUtils.encode_hex. intros Heq. apply str_app_inv_head in Heq.
  exact (hexlify_inj _ _ Heq).
Qed.

(** ** The skip file, line by line *)

(** The places of a timestamp that [utcfromtimestamp_error] tells
    apart. *)
Lemma utcfromtimestamp_error_cases (t : Z) :
  (utcfromtimestamp_error t = OverflowError <->
   t < -9223372036854775808 \/ 9223372036854775807 < t)
  /\ (utcfromtimestamp_error t = OSError <->
      -9223372036854775808 <= t < -67768040609740800
      \/ 67768036191676799 < t <= 9223372036854775807)
  /\ (utcfromtimestamp_error t = ValueError <->
      -67768040609740800 <= t <= 67768036191676799).
Proof.
  unfold utcfromtimestamp_error, Datetime.TIME_T_MIN, Datetime.TIME_T_MAX,
    Datetime.GMTIME_MIN_TIMESTAMP, Datetime.GMTIME_MAX_TIMESTAMP.
  change (- 2 ^ 63) with (-9223372036854775808).
  change (2 ^ 63 - 1) with 9223372036854775807.
  destruct (Z.ltb_spec t (-9223372036854775808)),
    (Z.ltb_spec 9223372036854775807 t),
    (Z.ltb_spec t (-67768040609740800)),
    (Z.ltb_spec 67768036191676799 t); cbn [orb];
    repeat split; intros; try discriminate; try reflexivity; try lia.
Qed.

(** X13: [skip_logger] returns exactly for the steps -12427119360 to
    50680460159, whose timestamp lies in the years 1 to 9999.  For every
    other step it raises and writes nothing, and the place of the
    timestamp [step * 5] tells the exception: a [ValueError] while
    [gmtime] can return the year (timestamps -67768040609740800 to
    67768036191676799), an [OSError] beyond that while the timestamp is a
    [time_t] of 64 bits, an [OverflowError] beyond. *)
Theorem skip_logger_raises_iff_out_of_range (validator : list byte)
  (skipped_proposal : SkippedProposal.t) (self : Sinks) :
  let step := SkippedProposal.step skipped_proposal in
  let t := step_number_to_timestamp step in
  (is_ok (skip_logger validator skipped_proposal self) = true <->
   -12427119360 <= step <= 50680460159)
  /\ (is_ok (skip_logger validator skipped_proposal self) = false ->
      (-67768040609740800 <= t <= 67768036191676799 ->
       skip_logger validator skipped_proposal self = Raise ValueError)
      /\ (-9223372036854775808 <= t < -67768040609740800
          \/ 67768036191676799 < t <= 9223372036854775807 ->
          skip_logger validator skipped_proposal self = Raise OSError)
      /\ (t < -9223372036854775808 \/ 9223372036854775807 < t ->
          skip_logger validator skipped_proposal self = Raise OverflowError)).
Proof.
  cbv zeta. unfold skip_logger, step_number_to_timestamp, STEP_DURATION.
  set (step := SkippedProposal.step skipped_proposal).
  assert (Hcases : Datetime.MIN_TIMESTAMP <= step * 5 <= Datetime.MAX_TIMESTAMP
                   \/ (step * 5 < Datetime.MIN_TIMESTAMP
                       \/ Datetime.MAX_TIMESTAMP < step * 5)) by lia.
  destruct Hcases as [Hin|Hout].
  - destruct (utcfromtimestamp_in_range _ Hin) as (dt & -> & _).
    cbn [rbind is_ok].
    unfold Datetime.MIN_TIMESTAMP, Datetime.MAX_TIMESTAMP in Hin.
    split; [split; [lia|reflexivity]|discriminate].
  - rewrite (utcfromtimestamp_out_of_range _ Hout). cbn [rbind is_ok].
    unfold Datetime.MIN_TIMESTAMP, Datetime.MAX_TIMESTAMP in Hout.
    split; [split; [discriminate|lia]|]. intros _.
    destruct (utcfromtimestamp_error_cases (step * 5)) as (Hov & Hos & Hv).
    split; [|split]; intros Hplace; f_equal;
      first [apply Hv | apply Hos | apply Hov]; exact Hplace.
Qed.

Lemma fields_unique (c : ascii) (a1 b1 r1 a2 b2 r2 : string) :
  Py.count c a1 = 0%nat -> Py.count c a2 = 0%nat ->
  Py.count c b1 = 0%nat -> Py.count c b2 = 0%nat ->
  a1 +:+ String c (b1 +:+ String c r1) = a2 +:+ String c (b2 +:+ String c r2) ->
  a1 = a2 /\ b1 = b2 /\ r1 = r2.
Proof.
  intros Ha1 Ha2 Hb1 Hb2 Heq.
  apply str_split_unique in Heq; [|assumption..]. destruct Heq as [-> Heq].
  apply str_split_unique in Heq; [|assumption..]. destruct Heq as [-> ->].
  auto.
Qed.

(** X14: a line of the skip file tells the step and the validator: two
    calls of [skip_logger] that append the same text are calls for the same
    step and the same validator address. *)
Theorem skip_line_determines_step_and_validator (v1 v2 : list byte)
  (p1 p2 : SkippedProposal.t) (self s1 s2 : Sinks) :
  skip_logger v1 p1 self = Ok s1 ->
  skip_logger v2 p2 self = Ok s2 ->
  skip_file s1 = skip_file s2 ->
  SkippedProposal.step p1 = SkippedProposal.step p2 /\ v1 = v2.
Proof.
  unfold skip_logger. intros H1 H2 Heq.
  destruct (Datetime.utcfromtimestamp _) as [dt1|]; [|discriminate].
  destruct (Datetime.utcfromtimestamp _) as [dt2|]; [|discriminate].
  cbn [rbind] in H1, H2. injection H1 as <-. injection H2 as <-.
  change (skip_file (mk_Sinks ?a ?b)) with a in Heq.
  apply (str_app_inv_head (skip_file self)) in Heq.
  assert (Hc : forall s, Py.all_chars Py.field_char s = true ->
                 Py.count "," s = 0%nat)
    by (intros s; apply all_chars_count; reflexivity).
  destruct (fields_unique ","%char
              (Py.str_int (SkippedProposal.step p1)) (EthUtils.encode_hex v1)
              (Datetime.str dt1 +:+ Py.newline)
              (Py.str_int (SkippedProposal.step p2)) (EthUtils.encode_hex v2)
              (Datetime.str dt2 +:+ Py.newline))
    as (Hstep & Hval & _);
    [apply Hc, field_chars_str_int | apply Hc, field_chars_str_int
    |apply Hc, field_chars_encode_hex | apply Hc, field_chars_encode_hex
    |exact Heq|].
  split; [exact (str_int_inj _ _ Hstep)|exact (encode_hex_inj _ _ Hval)].
Qed.

(** What one call of [skip_logger] appends. *)
Lemma skip_logger_line (validator : list byte) (p : SkippedProposal.t)
  (self : Sinks) :
  -12427119360 <= SkippedProposal.step p <= 50680460159 ->
  exists line : string,
    skip_logger validator p self
    = Ok (mk_Sinks (skip_file self +:+ line +:+ Py.newline) (report_dir self))
    /\ Py.count Py.LF line = 0%nat.
Proof.
  intros Hrange. unfold skip_logger, step_number_to_timestamp, STEP_DURATION.
  destruct (utcfromtimestamp_in_range (SkippedProposal.step p * 5))
    as (dt & -> & _);
    [unfold Datetime.MIN_TIMESTAMP, Datetime.MAX_TIMESTAMP; lia|].
  cbn [rbind].
  exists (Py.str_int (SkippedProposal.step p) +:+ ","
          +:+ EthUtils.encode_hex validator +:+ "," +:+ Datetime.str dt).
  split; [rewrite !str_app_assoc; reflexivity|].
  assert (Hc : forall s, Py.all_chars Py.field_char s = true ->
                 Py.count Py.LF s = 0%nat)
    by (intros s; apply all_chars_count; reflexivity).
  rewrite !count_app, (Hc _ (field_chars_str_int _)),
    (Hc _ (field_chars_encode_hex _)), (Hc _ (field_chars_datetime _)).
  reflexivity.
Qed.

(** X15: the skip file grows by one line per skip and is never rewritten:
    after any number of calls of [skip_logger] for steps in the range of
    [datetime], the file is what it was followed by a text with as many
    newlines as there were calls, and no report file has changed. *)
Theorem skip_logger_appends_line_by_line
  (skips : list (list byte * SkippedProposal.t)) (self : Sinks) :
  Forall (fun vp => -12427119360 <= SkippedProposal.step (snd vp)
                    <= 50680460159) skips ->
  exists text : string,
    rfold (fun vp => skip_logger (fst vp) (snd vp)) skips self
    = Ok (mk_Sinks (skip_file self +:+ text) (report_dir self))
    /\ Py.count Py.LF text = length skips.
Proof.
  intros Hall. revert self.
  induction Hall as [|[v p] skips Hp _ IH]; intros self.
  - exists ""%string. cbn [rfold]. rewrite str_app_nil_r.
    destruct self; auto.
  - cbn [rfold fst snd] in *.
    destruct (skip_logger_line v p self Hp) as (line & -> & Hline).
    cbn [rbind].
    destruct (IH (mk_Sinks (skip_file self +:+ line +:+ Py.newline)
                    (report_dir self))) as (text & -> & Htext).
    cbn [skip_file report_dir].
    exists (line +:+ Py.newline +:+ text). split.
    + rewrite !str_app_assoc. reflexivity.
    + rewrite !count_app, Hline, Htext. reflexivity.
Qed.

(** X16: [offline_logger] raises exactly when the list of steps is
    empty, and then with the [ValueError] of [min]; no file is written in
    that case. *)
Theorem offline_logger_raises_iff_no_steps (validator : list byte)
  (steps : list Z) (self : Sinks) :
  (is_ok (offline_logger validator steps self) = true <-> steps <> [])
  /\ (steps = [] -> offline_logger validator steps self = Raise ValueError).
Proof.
  destruct steps as [|x rest].
  - split; [split; [discriminate|congruence]|reflexivity].
  - split; [split; [discriminate|reflexivity]|discriminate].
Qed.

(** X17: an offline report replaces an earlier report of the same
    validator with the same first and last step: the file is opened for
    writing, so that after the second call the sinks are what the second
    call alone would have left, and a call repeated changes nothing. *)
Theorem offline_logger_overwrites_same_range (validator : list byte)
  (steps1 steps2 : list Z) (self s1 : Sinks) :
  Py.min steps1 = Py.min steps2 ->
  Py.max steps1 = Py.max steps2 ->
  offline_logger validator steps1 self = Ok s1 ->
  offline_logger validator steps2 s1 = offline_logger validator steps2 self
  /\ offline_logger validator steps1 s1 = Ok s1.
Proof.
  unfold offline_logger. intros Hmin Hmax. rewrite Hmin, Hmax.
  destruct (Py.min steps2) as [lo|]; [|discriminate].
  destruct (Py.max steps2) as [hi|]; [|discriminate].
  cbn [rbind]. intros [= <-]. cbn [skip_file report_dir]. unfold write_file.
  rewrite !insert_insert_eq. auto.
Qed.

(** ** Offline reports and their files *)

Lemma name_chars_uint (u : Decimal.uint) :
  Py.all_chars name_char (NilEmpty.string_of_uint u) = true.
Proof. induction u; simpl; auto. Qed.

Lemma name_chars_str_int (n : Z) :
  Py.all_chars name_char (Py.str_int n) = true.
Proof.
  unfold Py.str_int, NilZero.string_of_int.
  destruct (Z.to_int n) as [u|u]; unfold NilZero.string_of_uint;
    destruct u; simpl; try apply name_chars_uint; reflexivity.
Qed.

Lemma name_chars_encode_hex (bs : list byte) :
  Py.all_chars name_char (EthUtils.encode_hex bs) = true.
Proof.
  unfold EthUtils.encode_hex. simpl.
  induction bs as [|b bs IH]; [reflexivity|].
  cbn [EthUtils.hexlify].
  rewrite all_chars_app, IH, andb_true_r. destruct b; reflexivity.
Qed.

(** The name of an offline report tells the validator and the two
    steps. *)
Lemma offline_report_filename_inj (v1 v2 : list byte) (lo1 hi1 lo2 hi2 : Z) :
  offline_report_filename (EthUtils.encode_hex v1) lo1 hi1
  = offline_report_filename (EthUtils.encode_hex v2) lo2 hi2 ->
  v1 = v2 /\ lo1 = lo2 /\ hi1 = hi2.
Proof.
  unfold offline_report_filename. intros Heq.
  apply (str_app_inv_head "offline_report_") in Heq.
  assert (Hc : forall s, Py.all_chars name_char s = true ->
                 Py.count "_" s = 0%nat)
    by (intros s; apply all_chars_count; reflexivity).
  destruct (str_split_unique "_"%char
              (EthUtils.encode_hex v1) (EthUtils.encode_hex v2)
              ("steps_" +:+ Py.str_int lo1 +:+ "_to_" +:+ Py.str_int hi1)
              ("steps_" +:+ Py.str_int lo2 +:+ "_to_" +:+ Py.str_int hi2))
    as [Hv Hrest];
    [apply Hc, name_chars_encode_hex | apply Hc, name_chars_encode_hex
    |exact Heq|].
  apply (str_app_inv_head "steps_") in Hrest.
  destruct (str_split_unique "_"%char (Py.str_int lo1) (Py.str_int lo2)
              ("to_" +:+ Py.str_int hi1) ("to_" +:+ Py.str_int hi2))
    as [Hlo Hhi];
    [apply Hc, name_chars_str_int | apply Hc, name_chars_str_int
    |exact Hrest|].
  apply (str_app_inv_head "to_") in Hhi.
  split; [exact (encode_hex_inj _ _ Hv)|].
  split; apply str_int_inj; assumption.
Qed.

(** X18: offline reports of different validators, or with a different first
    or last step, go to different files and leave each other alone: a
    report written is still there, with its content, after a report for
    another validator or another range of steps has been written. *)
Theorem offline_report_survives_other_reports (v1 v2 : list byte)
  (steps1 steps2 : list Z) (lo hi : Z) (self s1 s2 : Sinks) :
  offline_logger v1 steps1 self = Ok s1 ->
  offline_logger v2 steps2 s1 = Ok s2 ->
  Py.min steps1 = Ok lo ->
  Py.max steps1 = Ok hi ->
  v1 <> v2 \/ Py.min steps2 <> Ok lo \/ Py.max steps2 <> Ok hi ->
  let filename := offline_report_filename (EthUtils.encode_hex v1) lo hi in
  report_dir s2 !! filename = report_dir s1 !! filename
  /\ report_dir s1 !! filename
     = Some (Json.dumps
               (Json.JDict
                  [("validator", Json.JStr (EthUtils.encode_hex v1));
                   ("missed_steps", Json.JList (map Json.JInt steps1))])).
Proof.
  unfold offline_logger. intros H1 H2 Hlo Hhi Hdiff. rewrite Hlo, Hhi in H1.
  cbn [rbind] in H1. injection H1 as <-.
  destruct (Py.min steps2) as [lo2|]; [|discriminate].
  destruct (Py.max steps2) as [hi2|]; [|discriminate].
  cbn [rbind skip_file report_dir] in H2. injection H2 as <-.
  cbv zeta. cbn [report_dir]. unfold write_file. split.
  - apply lookup_insert_ne. intros Heq.
    apply offline_report_filename_inj in Heq as (-> & -> & ->).
    destruct Hdiff as [?|[?|?]]; congruence.
  - apply lookup_insert_eq.
Qed.

(** ** Equivocation reports, again *)

Section EquivocationMore.
Context `{ChainAccess}.




(** X20: [equivocation_logger] only ever appends: when it returns, what
    it has done is to append one text to one file, both independent of
    what the report directory held, so that it does the same on any other
    content of the directory; every file is afterwards what it was
    followed by zero or more characters, and the skip file is as
    before. *)
Theorem equivocation_logger_only_appends (utcnow : Datetime.datetime)
  (equivocated_block_hashes : list (list byte)) (self self' : Sinks) :
  equivocation_logger utcnow equivocated_block_hashes self = Ok self' ->
  exists filename report : string,
    (forall other : Sinks,
       equivocation_logger utcnow equivocated_block_hashes other
       = Ok (mk_Sinks (skip_file other)
               (append_file filename report (report_dir other))))
    /\ (forall name : string,
          exists suffix : string,
            default "" (report_dir self' !! name)
            = default "" (report_dir self !! name) +:+ suffix)
    /\ skip_file self' = skip_file self.
Proof.
  unfold equivocation_logger.
  destruct (negb (2 <=? Z.of_nat (length equivocated_block_hashes)));
    [discriminate|].
  destruct (rmap block_hash_and_timestamp_string
              (map getBlock equivocated_block_hashes)) as [strings|];
    [|discriminate].
  cbn [rbind].
  destruct (map getBlock equivocated_block_hashes) as [|b0 [|b1 blocks]];
    [discriminate..|].
  rewrite format_equivocation_report. cbn [rbind]. intros [= <-].
  eexists _, _. split; [intros other; reflexivity|].
  split; [|reflexivity].
  intros name. cbn [report_dir]. unfold append_file.
  match goal with |- context [<[?f := _]> _] =>
    destruct (String.eqb_spec f name) as [<-|Hne] end.
  - rewrite lookup_insert_eq. cbn [default]. eexists. reflexivity.
  - rewrite lookup_insert_ne by exact Hne. exists ""%string.
    now rewrite str_app_nil_r.
Qed.

End EquivocationMore.

(** ** Startup *)

Section StartupMore.
Context `{Startup}.

Lemma add_epochs_app (eps1 eps2 : list Epoch)
  (po : PrimaryOracle OracleEpochs) :
  add_epochs (eps1 ++ eps2) po = rbind (add_epochs eps1 po) (add_epochs eps2).
Proof.
  revert po. induction eps1 as [|e eps1 IH]; intros po; cbn [app add_epochs].
  - reflexivity.
  - destruct (add_epoch e po) as [po1|]; cbn [rbind]; auto.
Qed.

(** X21: what a successful [_initialize_primary_oracle] leaves.  The
    chain spec read is kept as the original one, against which the watch
    compares later; the epoch fetcher is the one built from the ranges of
    the validator definition found under [engine], [authorityRound],
    [params], [validators], after its first fetch; the oracle is a new
    oracle to which the static epochs and then the fetched epochs were
    added, in this order, with [max_height] equal to the fetch height of
    the epoch fetcher.  The values the two attributes held before are not
    read, and nothing else of the application changes. *)
Theorem initialize_primary_oracle_spec (chain_spec_file : result ChainSpec)
  (self self' : App) :
  _initialize_primary_oracle chain_spec_file self = (Ok tt, self') ->
  exists (chain_spec validator_definition : ChainSpec)
         (ranges : ValidatorDefinitionRanges)
         (static_epochs new_epochs : list Epoch)
         (po : PrimaryOracle OracleEpochs),
    chain_spec_file = Ok chain_spec
    /\ original_chain_spec self' = chain_spec
    /\ validator_definition_of chain_spec = Ok validator_definition
    /\ get_validator_definition_ranges validator_definition = Ok ranges
    /\ get_static_epochs ranges = Ok static_epochs
    /\ fetch_new_epochs (EpochFetcher_new ranges)
       = (Ok new_epochs, epoch_fetcher self')
    /\ add_epochs (static_epochs ++ new_epochs) PrimaryOracle_new = Ok po
    /\ primary_oracle self'
       = mk_PrimaryOracle (oracle_epochs po)
           (last_fetch_height (epoch_fetcher self'))
    /\ events_of (_initialize_primary_oracle chain_spec_file) self
       = EvReadChainSpec :: map EvAddEpoch static_epochs
         ++ EvFetchNewEpochs :: map EvAddEpoch new_epochs
         ++ [EvSetMaxHeight (last_fetch_height (epoch_fetcher self'))]
    /\ fetch_side self' = fetch_side self
    /\ watch_chain_spec self' = watch_chain_spec self
    /\ _running self' = _running self.
Proof.
  unfold events_of, _initialize_primary_oracle.
  rewrite run_bind. cbn [emit modify]. rewrite run_bind.
  destruct chain_spec_file as [cs|e]; cbn [lift ret raise]; [|discriminate].
  rewrite run_bind. cbn [set_original_chain_spec modify]. rewrite run_bind.
  destruct (validator_definition_of cs) as [vd|e] eqn:Hvd;
    cbn [lift ret raise]; [|discriminate].
  rewrite run_bind.
  destruct (get_validator_definition_ranges vd) as [ranges|e] eqn:Hranges;
    cbn [lift ret raise]; [|discriminate].
  rewrite run_bind. cbn [set_epoch_fetcher modify].
  rewrite run_bind. cbn [set_primary_oracle modify]. rewrite run_bind.
  destruct (get_static_epochs ranges) as [static|e] eqn:Hstatic;
    cbn [lift ret raise]; [|discriminate].
  rewrite run_bind.
  set (s0 := with_primary_oracle PrimaryOracle_new
               (with_epoch_fetcher (EpochFetcher_new ranges)
                  (with_original_chain_spec cs
                     (add_events [EvReadChainSpec] self)))).
  destruct (run_add_epochs static s0) as (k & po1 & Hs & Hr).
  destruct (for_each static call_add_epoch s0) as [[[]|e] s1];
    cbn [fst snd] in *; [|discriminate].
  destruct Hr as [Htake Hadd1]. rewrite Htake in Hs. subst s1.
  intros Hupd.
  set (s1 := with_primary_oracle po1 (add_events (map EvAddEpoch static) s0))
    in *.
  destruct (fetch_new_epochs (EpochFetcher_new ranges)) as [[new|e] ef]
    eqn:Hfetch.
  - destruct (update_epochs_spec s1 new ef Hfetch) as [Hspec _].
    rewrite Hupd. cbn [snd].
    destruct (Hspec self' Hupd) as (Hef & _ & (po & Hadd2 & Hpo) & Ht).
    pose proof (keeps_fetch_side_update_epochs s1) as Hside.
    pose proof (keeps_flags_update_epochs s1) as Hfl.
    rewrite Hupd in Hside, Hfl. cbn [snd] in Hside, Hfl.
    unfold flags in Hfl. injection Hfl as Hw Ho Hrun.
    exists cs, vd, ranges, static, new, po.
    split; [reflexivity|]. split; [exact Ho|].
    split; [exact Hvd|]. split; [exact Hranges|]. split; [exact Hstatic|].
    split; [rewrite Hef; exact Hfetch|].
    split; [rewrite add_epochs_app; change (primary_oracle s0) with
              (@PrimaryOracle_new _ _ _) in Hadd1; rewrite Hadd1;
            exact Hadd2|].
    split; [rewrite Hpo, Hef; reflexivity|].
    split; [|split; [exact Hside|split; [exact Hw|exact Hrun]]].
    rewrite Ht, Hef. subst s1 s0. cbn [trace with_primary_oracle add_events
      with_epoch_fetcher with_original_chain_spec].
    rewrite <- !List.app_assoc, drop_app_length. reflexivity.
  - pose proof (update_epochs_raises s1 e) as Hraise.
    change (epoch_fetcher s1) with (EpochFetcher_new ranges) in Hraise.
    rewrite Hfetch, Hupd in Hraise. discriminate (Hraise eq_refl).
Qed.

(** X22: a chain spec without a validator definition ends the startup
    before the node is asked anything: when the file is no JSON document,
    or one of the entries [engine], [authorityRound], [params],
    [validators] is missing, or the definition has no valid ranges, the
    exception leaves [_initialize_primary_oracle] as it is, no epoch
    fetcher and no oracle are built and no epoch is fetched. *)
Theorem initialize_primary_oracle_raises (chain_spec_file : result ChainSpec)
  (self : App) (e : exn) :
  rbind chain_spec_file (fun chain_spec =>
    rbind (validator_definition_of chain_spec)
      get_validator_definition_ranges) = Raise e ->
  fst (_initialize_primary_oracle chain_spec_file self) = Raise e
  /\ events_of (_initialize_primary_oracle chain_spec_file) self
     = [EvReadChainSpec]
  /\ epoch_side (snd (_initialize_primary_oracle chain_spec_file self))
     = epoch_side self
  /\ fetch_side (snd (_initialize_primary_oracle chain_spec_file self))
     = fetch_side self.
Proof.
  unfold events_of, _initialize_primary_oracle.
  rewrite run_bind. cbn [emit modify]. rewrite run_bind.
  destruct chain_spec_file as [cs|e0]; cbn [rbind lift ret raise].
  - rewrite run_bind. cbn [set_original_chain_spec modify]. rewrite run_bind.
    destruct (validator_definition_of cs) as [vd|e1];
      cbn [rbind lift ret raise].
    + rewrite run_bind.
      destruct (get_validator_definition_ranges vd) as [ranges|e2];
        cbn [lift ret raise]; [discriminate|].
      intros [= ->]. cbn. rewrite drop_app_length. auto.
    + intros [= ->]. cbn. rewrite drop_app_length. auto.
  - intros [= ->]. cbn. rewrite drop_app_length. auto.
Qed.

End StartupMore.

(** ** The options of [main] *)

Section MainMore.
Context `{ReporterStates}.

(** X23: the reporters are only ever built from checked options: when
    [main] gets as far as the reporters, the skip rate handed to the
    offline reporter is the given one and is a number between 0 and 1, the
    offline window is the given number of seconds, which is not negative,
    in whole steps of five seconds rounded down, and the block fetcher and
    the skip reporter get the reorg depth 1000 and the grace period 10. *)
Theorem main_reporter_arguments (skip_rate : float)
  (offline_window_size_in_seconds : Z) (upgrade_db : bool) (pickled : pyobj)
  (reporters : Reporters) :
  main_reporters skip_rate offline_window_size_in_seconds upgrade_db pickled
  = Ok reporters ->
  in_unit_interval skip_rate
  /\ snd (offline_reporter_args reporters) = skip_rate
  /\ 0 <= offline_window_size_in_seconds
  /\ (let window := snd (fst (offline_reporter_args reporters)) in
      0 <= window
      /\ step_number_to_timestamp window <= offline_window_size_in_seconds
         < step_number_to_timestamp (window + 1))
  /\ snd (block_fetcher_args reporters) = 1000
  /\ snd (skip_reporter_args reporters) = 10.
Proof.
  unfold main_reporters. rewrite validate_skip_rate_test.
  pose proof (unit_test_correct (Prim2SF skip_rate) (Prim2SF_valid skip_rate))
    as Hc.
  destruct (unit_test (Prim2SF skip_rate)); [|discriminate].
  cbn [rbind]. unfold validate_offline_window.
  destruct (Z.ltb_spec offline_window_size_in_seconds 0) as [|Hpos];
    [discriminate|].
  cbn [rbind]. unfold App_init_reporters. intros Hinit.
  assert (Hrep : exists s : AppStateV2.t,
            reporters
            = mk_Reporters _
                (AppStateV2.block_fetcher_state s, MAX_REORG_DEPTH)
                (AppStateV2.skip_reporter_state s, GRACE_PERIOD)
                (AppStateV2.offline_reporter_state s,
                 offline_window_size_in_steps offline_window_size_in_seconds,
                 skip_rate)).
  { destruct (_load_app_state pickled) as [|v1|v2|name truth], upgrade_db;
      cbn in Hinit; try discriminate; injection Hinit as <-;
      first [exists v2; reflexivity | exists (upgrade_v1_to_v2 v1); reflexivity]. }
  destruct Hrep as (s & ->).
  split; [apply Hc; reflexivity|]. split; [reflexivity|].
  split; [exact Hpos|]. split; [|split; reflexivity].
  cbn [offline_reporter_args fst snd].
  unfold offline_window_size_in_steps, step_number_to_timestamp,
    STEP_DURATION.
  pose proof (Z.div_mod offline_window_size_in_seconds 5 ltac:(lia)).
  pose proof (Z.mod_pos_bound offline_window_size_in_seconds 5 ltac:(lia)).
  lia.
Qed.

End MainMore.

(** ** The further properties in the small settings *)

(** [loop_stops_only_on_change] in the small setting: the file reads
    ["changed"] at the end of the second cycle. *)
Lemma loop_stops_only_on_change_witness :
  watch_chain_spec Demo.app = true
  /\ exists (k : nat) (file : result string),
       2%nat = S k /\ [Ok "spec"; Ok "changed"; Ok "spec"] !! k = Some file.
Proof.
  assert (Hrun : @run_loop _ Demo.collaborators
                   [Ok "spec"; Ok "changed"; Ok "spec"] Demo.app
                 = (LoopStopped, 2%nat,
                    snd (@run_loop _ Demo.collaborators
                           [Ok "spec"; Ok "changed"; Ok "spec"] Demo.app)))
    by (vm_compute; reflexivity).
  destruct (@loop_stops_only_on_change _ Demo.collaborators
              [Ok "spec"; Ok "changed"; Ok "spec"] Demo.app _ 2%nat
              eq_refl Hrun)
    as (Hw & _ & k & file & Hk & Hfile & _).
  split; [exact Hw|]. exists k, file. split; assumption.
Defined.


(** [chain_spec_read_error_ends_run] in the small setting: the file is
    gone. *)
Lemma chain_spec_read_error_ends_run_witness :
  fst (@_check_chain_spec _ Demo.collaborators
         (Raise (ExternalError "FileNotFoundError")) Demo.app)
  = Raise (ExternalError "FileNotFoundError").
Proof.
  apply (@chain_spec_read_error_ends_run _ Demo.collaborators [] Demo.app
           (ExternalError "FileNotFoundError") eq_refl eq_refl).
  discriminate.
Defined.

(** [failed_epoch_update_skips_fetch] when the contracts cannot be
    reached. *)
Lemma failed_epoch_update_skips_fetch_witness :
  @_run_cycle _ Outage.collaborators (Ok "spec") Outage.epochs_down
  = (Raise (ExternalError "ConnectionError"),
     snd (@_update_epochs _ Outage.collaborators Outage.epochs_down)).
Proof.
  apply (@failed_epoch_update_skips_fetch _ Outage.collaborators (Ok "spec")
           Outage.epochs_down (ExternalError "ConnectionError")).
  left. reflexivity.
Defined.

(** [failed_fetch_leaves_no_checkpoint] when the node hands out no
    block. *)
Lemma failed_fetch_leaves_no_checkpoint_witness :
  fst (@_run_cycle _ Outage.collaborators (Ok "spec") Outage.node_down)
  = Raise (ExternalError "ConnectionError")
  /\ _running (snd (@_run_cycle _ Outage.collaborators (Ok "spec")
                      Outage.node_down)) = true.
Proof.
  destruct (@failed_fetch_leaves_no_checkpoint _ Outage.collaborators
              (Ok "spec") Outage.node_down
              (ExternalError "ConnectionError"))
    as (Hraise & _ & _ & Hrun); [vm_compute; reflexivity..|].
  split; [exact Hraise|exact Hrun].
Defined.

(** [session_exception_ends_cycle] when the node hands out no block,
    with a chain spec that has changed: the change is not noticed. *)
Lemma session_exception_ends_cycle_witness :
  fst (@_run_cycle _ Outage.collaborators (Ok "changed") Outage.node_down)
  = Raise (ExternalError "ConnectionError")
  /\ _running (snd (@_run_cycle _ Outage.collaborators (Ok "changed")
                      Outage.node_down)) = true.
Proof.
  destruct (@session_exception_ends_cycle _ Outage.collaborators
              (Ok "changed") Outage.node_down
              (ExternalError "ConnectionError"))
    as (Hraise & _ & _ & Hrun); [vm_compute; reflexivity..|].
  split; [exact Hraise|exact Hrun].
Defined.

(** [skip_line_determines_step_and_validator] on one line of the skip
    file. *)
Lemma skip_line_determines_step_and_validator_witness :
  SkippedProposal.step (SkippedProposal.mk 314574179)
  = SkippedProposal.step (SkippedProposal.mk (314574180 - 1))
  /\ [x12; xab] = [x12; xab].
Proof.
  apply (skip_line_determines_step_and_validator [x12; xab] [x12; xab]
           (SkippedProposal.mk 314574179)
           (SkippedProposal.mk (314574180 - 1)) Demo.sinks
           (mk_Sinks "314574179,0x12ab,2019-11-04 12:34:55
" ∅)
           (mk_Sinks "314574179,0x12ab,2019-11-04 12:34:55
" ∅));
    reflexivity.
Defined.

(** [skip_logger_appends_line_by_line] on two skips. *)
Lemma skip_logger_appends_line_by_line_witness :
  exists text : string,
    rfold (fun vp => skip_logger (fst vp) (snd vp))
      [([x12; xab], SkippedProposal.mk 314574179);
       ([x34], SkippedProposal.mk 314574181)] Demo.sinks
    = Ok (mk_Sinks ("" +:+ text) ∅)
    /\ Py.count Py.LF text = 2%nat.
Proof.
  apply (skip_logger_appends_line_by_line
           [([x12; xab], SkippedProposal.mk 314574179);
            ([x34], SkippedProposal.mk 314574181)] Demo.sinks).
  repeat constructor; cbn; lia.
Defined.

(** [offline_logger_overwrites_same_range]: the report of the steps 3, 5
    and 9 is replaced by the report of the steps 3 and 9. *)
Lemma offline_logger_overwrites_same_range_witness :
  offline_logger [xaa] [3; 9]
    (mk_Sinks ""
       (write_file "offline_report_0xaa_steps_3_to_9"
          (Json.dumps
             (Json.JDict
                [("validator", Json.JStr "0xaa");
                 ("missed_steps", Json.JList (map Json.JInt [3; 5; 9]))]))
          ∅))
  = offline_logger [xaa] [3; 9] Demo.sinks.
Proof.
  apply (offline_logger_overwrites_same_range [xaa] [3; 5; 9] [3; 9]
           Demo.sinks); reflexivity.
Defined.

(** [offline_report_survives_other_reports]: the report of the steps 3
    to 9 is kept when the report of the steps 3 to 10 is written. *)
Lemma offline_report_survives_other_reports_witness :
  exists s1 s2 : Sinks,
    offline_logger [xaa] [3; 5; 9] Demo.sinks = Ok s1
    /\ offline_logger [xaa] [3; 5; 10] s1 = Ok s2
    /\ report_dir s2 !! "offline_report_0xaa_steps_3_to_9"%string
       = report_dir s1 !! "offline_report_0xaa_steps_3_to_9"%string.
Proof.
  eexists _, _. split; [reflexivity|]. split; [reflexivity|].
  apply (offline_report_survives_other_reports [xaa] [xaa] [3; 5; 9]
           [3; 5; 10] 3 9 Demo.sinks); try reflexivity.
  right. right. discriminate.
Defined.

(** [equivocation_logger_only_appends] on two hashes. *)
Lemma equivocation_logger_only_appends_witness :
  exists filename report : string,
    forall other : Sinks,
      @equivocation_logger Demo.chain
        (Datetime.mk_datetime 2019 11 4 12 0 0 123)
        [[x01]; [x02; x03]] other
      = Ok (mk_Sinks (skip_file other)
              (append_file filename report (report_dir other))).
Proof.
  destruct (@equivocation_logger_only_appends Demo.chain
              (Datetime.mk_datetime 2019 11 4 12 0 0 123)
              [[x01]; [x02; x03]] Demo.sinks
              (match @equivocation_logger Demo.chain
                       (Datetime.mk_datetime 2019 11 4 12 0 0 123)
                       [[x01]; [x02; x03]] Demo.sinks with
               | Ok s => s
               | Raise _ => Demo.sinks
               end))
    as (filename & report & Happ & _).
  - vm_compute. reflexivity.
  - exists filename, report. exact Happ.
Defined.

(** [upgrade_app_state_result] on an upgraded version-1 state. *)
Lemma upgrade_app_state_result_witness :
  @_upgrade_app_state Demo.states
    (PyAppStateV2 (upgrade_v1_to_v2 (AppStateV1.mk Demo.states 7 3 [1; 2])))
  = Ok (PyAppStateV2 (upgrade_v1_to_v2 (AppStateV1.mk Demo.states 7 3 [1; 2]))).
Proof.
  apply (@upgrade_app_state_result Demo.states
           (PyAppStateV1 (AppStateV1.mk Demo.states 7 3 [1; 2]))
           _ 0.5%float 17280 eq_refl).
Defined.

(** [restart_resumes_from_checkpoint] in the small setting: the ninth
    event of the first cycle stores the checkpoint. *)
Lemma restart_resumes_from_checkpoint_witness :
  @App_init_reporters Demo.states false
    (PyAppStateV2 (AppStateV2.mk Demo.states 1 (1, []) [])) 0.5%float 17280
  = Ok (mk_Reporters Demo.states
          (@BlockFetcher_state _ Demo.collaborators
             (block_fetcher
                (snd (@_run_cycle _ Demo.collaborators (Ok "spec") Demo.app))),
           MAX_REORG_DEPTH)
          (@SkipReporter_state _ Demo.collaborators
             (skip_reporter
                (snd (@_run_cycle _ Demo.collaborators (Ok "spec") Demo.app))),
           GRACE_PERIOD)
          (@OfflineReporter_state _ Demo.collaborators
             (offline_reporter
                (snd (@_run_cycle _ Demo.collaborators (Ok "spec") Demo.app))),
           17280, 0.5%float)).
Proof.
  assert (Hj : @events_of _ Demo.collaborators unit
                 (@_run_cycle _ Demo.collaborators (Ok "spec")) Demo.app
               !! 8%nat
               = Some (EvStorePickled APP_STATE_KEY
                         (AppStateV2.mk Demo.states 1 (1, []) [])))
    by (vm_compute; reflexivity).
  destruct (@restart_resumes_from_checkpoint _ Demo.collaborators
              (Ok "spec") Demo.app 8%nat APP_STATE_KEY
              (AppStateV2.mk Demo.states 1 (1, []) [])
              false 0.5%float 17280 Hj) as [_ Hinit].
  exact Hinit.
Defined.

(** [initialize_primary_oracle_spec] in the small setting. *)
Lemma initialize_primary_oracle_spec_witness :
  exists chain_spec : string,
    @original_chain_spec _ Demo.collaborators
      (snd (@_initialize_primary_oracle _ _ Outage.startup (Ok "spec")
              Outage.blank)) = chain_spec
    /\ Ok "spec" = Ok chain_spec.
Proof.
  assert (Hrun : @_initialize_primary_oracle _ _ Outage.startup (Ok "spec")
                   Outage.blank
                 = (Ok tt,
                    snd (@_initialize_primary_oracle _ _ Outage.startup
                           (Ok "spec") Outage.blank)))
    by (vm_compute; reflexivity).
  destruct (@initialize_primary_oracle_spec _ _ Outage.startup _ _ _ Hrun)
    as (cs & vd & ranges & static & new & po & Hcs & Ho & _).
  exists cs. split; [exact Ho|exact Hcs].
Defined.

(** [initialize_primary_oracle_raises] on a chain spec without
    entries. *)
Lemma initialize_primary_oracle_raises_witness :
  fst (@_initialize_primary_oracle _ _ Outage.startup (Ok "{}") Outage.blank)
  = Raise KeyError.
Proof.
  apply (@initialize_primary_oracle_raises _ _ Outage.startup (Ok "{}")
           Outage.blank KeyError).
  vm_compute. reflexivity.
Defined.

(** [main_reporter_arguments] with a skip rate of a quarter and a window
    of a second less than a day, on a fresh database. *)
Lemma main_reporter_arguments_witness :
  in_unit_interval 0.25%float /\ 0 <= 86399.
Proof.
  destruct (@main_reporter_arguments Demo.states 0.25%float 86399 false PyNone
              (mk_Reporters Demo.states (0, 1000) ((-1, []), 10)
                 ([], 17279, 0.25%float)))
    as (Hrate & _ & Hwin & _); [vm_compute; reflexivity|].
  split; assumption.
Defined.
